(** * Content adaptation, validation and batch publishing of social-agent

    A shallow embedding of the Python sources

      - [agents/content_transformer_agent.py]  (ContentTransformerAgent)
      - [utils/text_generator.py]              (TextGenerator)
      - [agents/twitter_agent.py], [agents/linkedin_agent.py]
      - [agents/orchestrator_agent.py]         (OrchestratorAgent)
      - [complete_pipeline.py], [specific_video_poster.py]
      - [config.py]

    Python [str] values are lists of Unicode code points, Python [int]s are
    [Z], durations (Python floats, finite) are rationals [Q].  Dictionaries
    keyed by platform name are [gmap string _]; dictionaries with a fixed
    set of keys are records whose optional keys are [option] fields.
    Exceptions are an error monad over an explicit world state that counts
    the calls made to the external collaborators (LLM providers, the random
    generator, the platform posters). *)

From Stdlib Require Import ZArith QArith Lia List String Ascii Decimal.
From stdpp Require Import base option list gmap strings.

Local Open Scope Z_scope.

(** ** Python strings *)

Module PyStr.

(** A character is a Unicode code point. *)
Definition char := N.
Definition str := list char.

(** ASCII literals. *)
Definition lit (s : string) : str :=
  (fun a => N_of_ascii a) <$> list_ascii_of_string s.

(** [len(s)] *)
Definition len {A} (l : list A) : Z := Z.of_nat (length l).

(** [l[:k]] for any Python integer [k]; a negative [k] counts from the
    end of the sequence. *)
Definition slice_to {A} (k : Z) (l : list A) : list A :=
  if k <? 0 then take (length l - Z.to_nat (- k)) l
  else take (Z.to_nat k) l.

(** [str.isspace] on one code point: the characters Python treats as
    whitespace in [str.strip()] and [str.split()]. *)
Definition isspace (c : char) : bool :=
  ((9 <=? c) && (c <=? 13) || (28 <=? c) && (c <=? 32)
   || (c =? 133) || (c =? 160) || (c =? 5760)
   || (8192 <=? c) && (c <=? 8202)
   || (c =? 8232) || (c =? 8233) || (c =? 8239) || (c =? 8287)
   || (c =? 12288))%N.

(** [s.lstrip()], [s.rstrip()], [s.strip()] *)
Fixpoint lstrip (s : str) : str :=
  match s with
  | c :: s' => if isspace c then lstrip s' else s
  | [] => []
  end.
Definition rstrip (s : str) : str := reverse (lstrip (reverse s)).
Definition strip (s : str) : str := lstrip (rstrip s).

(** [s.split(sep)] for a one-character separator: never empty. *)
Fixpoint split_on (sep : char) (s : str) : list str :=
  match s with
  | [] => [[]]
  | c :: s' =>
      if (c =? sep)%N then [] :: split_on sep s'
      else match split_on sep s' with
           | w :: ws => (c :: w) :: ws
           | [] => [[c]]
           end
  end.

(** [s.split()]: the maximal runs of non-whitespace characters.  [cur]
    is the run being read, most recent character first. *)
Fixpoint split_ws_from (cur : str) (s : str) : list str :=
  match s with
  | [] => match cur with [] => [] | _ => [reverse cur] end
  | c :: s' =>
      if isspace c then
        match cur with
        | [] => split_ws_from [] s'
        | _ => reverse cur :: split_ws_from [] s'
        end
      else split_ws_from (c :: cur) s'
  end.
Definition split_ws (s : str) : list str := split_ws_from [] s.

(** [sep.join(parts)] *)
Fixpoint join (sep : str) (parts : list str) : str :=
  match parts with
  | [] => []
  | [p] => p
  | p :: ps => p ++ sep ++ join sep ps
  end.

(** [s.startswith(c)] for a one-character prefix. *)
Definition startswith (c : char) (s : str) : bool :=
  match s with
  | c' :: _ => (c' =? c)%N
  | [] => false
  end.

(** [s.endswith(suffix)] *)
Definition endswith (suffix s : str) : bool :=
  bool_decide (drop (length s - length suffix) s = suffix
               ∧ (length suffix <= length s)%nat).

Definition hash_sign : char := 35%N.
Definition space : str := [32%N].
Definition ellipsis : str := [46%N; 46%N; 46%N].

(** The ASCII part of the regular-expression class [\w]. *)
Definition ascii_word (c : char) : bool :=
  ((48 <=? c) && (c <=? 57) || (65 <=? c) && (c <=? 90)
   || (97 <=? c) && (c <=? 122) || (c =? 95))%N.

(** Decimal digits of a natural number. *)
Fixpoint uint_digits (u : Decimal.uint) : str :=
  match u with
  | Nil => []
  | D0 u => 48%N :: uint_digits u
  | D1 u => 49%N :: uint_digits u
  | D2 u => 50%N :: uint_digits u
  | D3 u => 51%N :: uint_digits u
  | D4 u => 52%N :: uint_digits u
  | D5 u => 53%N :: uint_digits u
  | D6 u => 54%N :: uint_digits u
  | D7 u => 55%N :: uint_digits u
  | D8 u => 56%N :: uint_digits u
  | D9 u => 57%N :: uint_digits u
  end.

(** Insert a comma after every third digit of a reversed digit string. *)
Fixpoint group3 (n : nat) (rev_digits : str) : str :=
  match rev_digits with
  | [] => []
  | d :: ds =>
      match n with
      | O => 44%N :: d :: group3 2 ds
      | S n' => d :: group3 n' ds
      end
  end.

(** [f"{n:,}"]: decimal with thousands separators. *)
Definition format_thousands (n : Z) : str :=
  let digits := uint_digits (N.to_uint (Z.abs_N n)) in
  let grouped := reverse (group3 3 (reverse digits)) in
  if n <? 0 then 45%N :: grouped else grouped.

End PyStr.
Export PyStr.


(** ** Exceptions and external effects *)

Module Effects.

(** The outcome of evaluating a Python expression: a value, or a raised
    exception with its message [str(e)]. *)
Inductive result (A : Type) : Type :=
| Ok (a : A)
| Raise (msg : str).
Arguments Ok {A} a.
Arguments Raise {A} msg.

(** The part of the outside world the agents act on: how many calls each
    external collaborator has received so far, and the total time spent in
    [asyncio.sleep]. *)
Record World := mkWorld {
  openai_calls : nat;
  anthropic_calls : nat;
  random_calls : nat;
  twitter_calls : nat;
  linkedin_calls : nat;
  slept : Z
}.

Definition world0 : World := mkWorld 0 0 0 0 0 0.

(** A computation that may raise and may talk to the collaborators. *)
Definition Run (A : Type) : Type := World -> result A * World.

Definition ret {A} (a : A) : Run A := fun w => (Ok a, w).
Definition raise {A} (msg : str) : Run A := fun w => (Raise msg, w).

Definition bind {A B} (m : Run A) (k : A -> Run B) : Run B :=
  fun w =>
    match m w with
    | (Ok a, w') => k a w'
    | (Raise e, w') => (Raise e, w')
    end.

(** [try: body  except Exception as e: handler(e)] *)
Definition try_except {A} (body : Run A) (handler : str -> Run A) : Run A :=
  fun w =>
    match body w with
    | (Ok a, w') => (Ok a, w')
    | (Raise e, w') => handler e w'
    end.

(** [d[key]] on a dictionary whose entry for [key] may be missing:
    a missing key raises [KeyError(key)]. *)
Definition getitem {A} (key : string) (entry : option A) : Run A :=
  match entry with
  | Some a => ret a
  | None => raise (lit "'" ++ lit key ++ lit "'")
  end.

(** [await asyncio.sleep(seconds)] *)
Definition sleep (seconds : Z) : Run unit :=
  fun w => (Ok tt, mkWorld (openai_calls w) (anthropic_calls w)
                     (random_calls w) (twitter_calls w) (linkedin_calls w)
                     (slept w + seconds)).

Definition tick_openai (w : World) : World :=
  mkWorld (S (openai_calls w)) (anthropic_calls w) (random_calls w)
          (twitter_calls w) (linkedin_calls w) (slept w).
Definition tick_anthropic (w : World) : World :=
  mkWorld (openai_calls w) (S (anthropic_calls w)) (random_calls w)
          (twitter_calls w) (linkedin_calls w) (slept w).
Definition tick_random (w : World) : World :=
  mkWorld (openai_calls w) (anthropic_calls w) (S (random_calls w))
          (twitter_calls w) (linkedin_calls w) (slept w).
Definition tick_twitter (w : World) : World :=
  mkWorld (openai_calls w) (anthropic_calls w) (random_calls w)
          (S (twitter_calls w)) (linkedin_calls w) (slept w).
Definition tick_linkedin (w : World) : World :=
  mkWorld (openai_calls w) (anthropic_calls w) (random_calls w)
          (twitter_calls w) (S (linkedin_calls w)) (slept w).

(** The value a run returned, if it did not raise. *)
Definition returned {A} (outcome : result A * World) : option A :=
  match outcome with
  | (Ok a, _) => Some a
  | (Raise _, _) => None
  end.

Declare Scope run_scope.
Delimit Scope run_scope with run.
Notation "'let*' x ':=' m 'in' k" := (bind m (fun x => k))
  (at level 10, x name, m at level 100, k at level 200, only parsing)
  : run_scope.

End Effects.
Export Effects.
Local Open Scope run_scope.

(** ** utils/text_generator.py *)

Module TextGen.

Record TextGenerator := {
  openai_available : bool;
  anthropic_available : bool
}.

(** The length guard that follows every provider call:
    [if len(t) > max_length: t = t[:max_length-3] + "..."]. *)
Definition ensure_length (max_length : Z) (t : str) : str :=
  if len t >? max_length then slice_to (max_length - 3) t ++ ellipsis
  else t.

(** The templates of [_generate_fallback]. *)
Definition templates : list str :=
  [ lit "Check out this amazing content! " ++ [128293%N];
    lit "Don't miss this incredible video! " ++ [10024%N];
    lit "This is absolutely mind-blowing! " ++ [129327%N];
    lit "You have to see this! " ++ [128064%N];
    lit "This content is pure gold! " ++ [11088%N] ].

Definition fallback_hashtags : list str :=
  [ lit "#viral"; lit "#amazing"; lit "#content"; lit "#video";
    lit "#social" ].

(** The loop of [_generate_fallback]: append hashtags while they fit,
    stop at the first one that does not. *)
Fixpoint add_hashtags_while_fit (max_length : Z) (base_text : str)
    (hashtags : list str) : str :=
  match hashtags with
  | [] => base_text
  | hashtag :: rest =>
      if len base_text + len hashtag + 1 <=? max_length
      then add_hashtags_while_fit max_length
             (base_text ++ space ++ hashtag) rest
      else base_text
  end.

Section Providers.

(** The external providers.  [openai_acreate n prompt max_length] is the
    message content of the first choice answered to the [n]-th call of
    [openai.ChatCompletion.acreate], or the exception it raises;
    [anthropic_create] likewise for [Anthropic.messages.create];
    [random_choice n] is the position picked by the [n]-th call of
    [random.choice] (reduced modulo the length of the list). *)
Variable openai_acreate : nat -> str -> Z -> result str.
Variable anthropic_create : nat -> str -> Z -> result str.
Variable random_choice : nat -> nat.

Definition _generate_with_openai (prompt : str) (max_length : Z) : Run str :=
  fun w =>
    match openai_acreate (openai_calls w) prompt max_length with
    | Ok content =>
        let generated_text := strip content in
        (Ok (ensure_length max_length generated_text), tick_openai w)
    | Raise e => (Raise e, tick_openai w)
    end.

Definition _generate_with_anthropic (prompt : str) (max_length : Z)
    : Run str :=
  fun w =>
    match anthropic_create (anthropic_calls w) prompt max_length with
    | Ok content =>
        let generated_text := strip content in
        (Ok (ensure_length max_length generated_text), tick_anthropic w)
    | Raise e => (Raise e, tick_anthropic w)
    end.

Definition _generate_fallback (prompt : str) (max_length : Z) : Run str :=
  fun w =>
    let pick := (random_choice (random_calls w) mod length templates)%nat in
    let base_text := nth pick templates [] in
    (Ok (add_hashtags_while_fit max_length base_text fallback_hashtags),
     tick_random w).

Definition generate_text (self : TextGenerator) (prompt : str)
    (max_length : Z) (model : string) : Run str :=
  try_except
    (if bool_decide (model = "openai"%string) && openai_available self
     then _generate_with_openai prompt max_length
     else if bool_decide (model = "anthropic"%string)
             && anthropic_available self
     then _generate_with_anthropic prompt max_length
     else _generate_fallback prompt max_length)
    (fun _ => _generate_fallback prompt max_length).

End Providers.

End TextGen.
Export TextGen.

(** ** config.py *)

Module Config.

(** The two settings the platform table reads. *)
Record Settings := {
  max_twitter_length : Z;
  max_linkedin_length : Z
}.

Definition default_settings : Settings :=
  {| max_twitter_length := 280; max_linkedin_length := 3000 |}.

(** One entry of [PLATFORM_CONFIGS]. *)
Record PlatformConfig := {
  max_length : Z;
  hashtag_limit : Z;
  video_max_duration : Q;
  video_max_size : Z
}.

Definition PLATFORM_CONFIGS (settings : Settings)
    : gmap string PlatformConfig :=
  {[ "twitter"%string :=
       {| max_length := max_twitter_length settings;
          hashtag_limit := 10;
          video_max_duration := 140%Q;
          video_max_size := 512 * 1024 * 1024 |};
     "linkedin"%string :=
       {| max_length := max_linkedin_length settings;
          hashtag_limit := 30;
          video_max_duration := 600%Q;
          video_max_size := 5 * 1024 * 1024 * 1024 |} ]}.

(** A prompt template with its two placeholders, [{content}] and
    [{description}], in this order. *)
Record PromptTemplate := {
  before_content : str;
  before_description : str;
  after_description : str
}.

(** [template.format(content=..., description=...)] *)
Definition format_prompt (t : PromptTemplate) (content description : str)
    : str :=
  before_content t ++ content ++ before_description t ++ description
  ++ after_description t.

Definition newline : str := [10%N].

Definition CONTENT_PROMPTS : gmap string PromptTemplate :=
  {[ "twitter"%string :=
       {| before_content := join newline
            [ lit "";
              lit "    Transform this Instagram video content into an engaging Twitter post.";
              lit "    ";
              lit "    Requirements:";
              lit "    - Maximum 280 characters";
              lit "    - Include relevant hashtags (max 10)";
              lit "    - Make it engaging and shareable";
              lit "    - Maintain the core message";
              lit "    - Use Twitter-appropriate tone";
              lit "    ";
              lit "    Original content: " ];
          before_description :=
            join newline [ lit ""; lit "    Video description: " ];
          after_description := join newline [ lit ""; lit "    " ] |};
     "linkedin"%string :=
       {| before_content := join newline
            [ lit "";
              lit "    Transform this Instagram video content into a professional LinkedIn post.";
              lit "    ";
              lit "    Requirements:";
              lit "    - Professional tone";
              lit "    - Include relevant industry hashtags";
              lit "    - Add value for professional audience";
              lit "    - Encourage engagement";
              lit "    - Maximum 3000 characters";
              lit "    ";
              lit "    Original content: " ];
          before_description :=
            join newline [ lit ""; lit "    Video description: " ];
          after_description := join newline [ lit ""; lit "    " ] |} ]}.

End Config.
Export Config.

(** ** agents/content_transformer_agent.py *)

Module Transformer.

(** [video_data['video_info']], as produced by the video processor. *)
Record VideoInfo := {
  vi_duration : option Q;
  vi_file_size : option Z
}.

(** The dictionary describing one extracted Instagram video.  A [None]
    field is a key the dictionary does not have. *)
Record VideoData := {
  vd_id : option str;
  vd_username : option str;
  vd_caption : option str;
  vd_hashtags : option (list str);
  vd_video_path : option str;
  vd_video_info : option VideoInfo;
  vd_thumbnail_url : option str
}.

(** The video dictionary has the keys [transform_content] indexes:
    ['id'], ['video_path'] and ['caption']. *)
Definition has_required_keys (video_data : VideoData) : Prop :=
  is_Some (vd_id video_data) /\ is_Some (vd_video_path video_data)
  /\ is_Some (vd_caption video_data).

(** The dictionary returned by the content analyzer. *)
Record Analysis := {
  an_description : option str;
  an_engagement_score : option Q;
  an_topics : option (list str);
  an_sentiment : option str
}.

(** The media dictionary of a transformed post. *)
Inductive Media :=
| MediaVideo (path : str) (duration : Q) (size : Z) (thumbnail : option str)
| MediaImage (path : option str) (note : str)
| MediaNone.

Definition media_is_video (m : Media) : bool :=
  match m with MediaVideo _ _ _ _ => true | _ => false end.

(** The dictionary built by [_transform_for_platform]. *)
Record PlatformContent := {
  text : str;
  hashtags : list str;
  media : Media;
  original_id : str;
  platform : string;
  engagement_score : Q;
  topics : list str;
  sentiment : str
}.

(** What [_transform_for_platform] returns: the content dictionary, or the
    empty dictionary [{}] ([None]) after an exception. *)
Definition ContentDict := option PlatformContent.

(** One entry of the list returned by [execute_transformation]. *)
Record Transformation := {
  original_video : VideoData;
  transformed_content : gmap string ContentDict
}.

(** [video_data.get('video_info', {}).get('duration', 0)] and
    [video_data.get('video_info', {}).get('file_size', 0)] *)
Definition video_duration (video_data : VideoData) : Q :=
  default 0%Q (vd_video_info video_data ≫= vi_duration).
Definition video_file_size (video_data : VideoData) : Z :=
  default 0 (vd_video_info video_data ≫= vi_file_size).

Definition thumbnail_note : str :=
  lit "Video too large/long for platform, using thumbnail".

Section Agent.

(** [nonascii_word c] tells whether a code point above 127 belongs to the
    class [\w] (Unicode alphanumerics).  [set_to_list l] is the order in
    which Python iterates over [set(l)]; it depends on the string hashes
    of the running process.  [analyze_video_content] is the analyzer of
    [services/content_analyzer.py], which catches its own exceptions. *)
Variable nonascii_word : char -> bool.
Variable set_to_list : list str -> list str.
Variable analyze_video_content : str -> str -> World -> Analysis * World.
Variable openai_acreate : nat -> str -> Z -> result str.
Variable anthropic_create : nat -> str -> Z -> result str.
Variable random_choice : nat -> nat.
Variable PLATFORM_CONFIGS : gmap string PlatformConfig.
Variable CONTENT_PROMPTS : gmap string PromptTemplate.
Variable text_generator : TextGenerator.

(** The class [\w] of Python's [re] on [str] patterns. *)
Definition is_word (c : char) : bool :=
  if (c <? 128)%N then ascii_word c else nonascii_word c.

(** The hashtag a scan has just finished reading, if any: [cur] holds
    the word characters read after the last ['#'], most recent first. *)
Definition emit (cur : option str) : list str :=
  match cur with
  | Some (c :: w) => [hash_sign :: reverse (c :: w)]
  | _ => []
  end.

(** [re.findall(r'#\w+', text)]: leftmost, longest, non-overlapping
    matches, read by one left-to-right scan.  [cur = Some w] when the
    scan is inside a candidate match ['#' w]. *)
Fixpoint findall_from (cur : option str) (s : str) : list str :=
  match s with
  | [] => emit cur
  | c :: s' =>
      if is_word c then
        match cur with
        | Some w => findall_from (Some (c :: w)) s'
        | None => findall_from None s'
        end
      else
        emit cur
        ++ findall_from (if (c =? hash_sign)%N then Some [] else None) s'
  end.

Definition findall_hashtags (text : str) : list str := findall_from None text.

(** The hashtags [_extract_hashtags] hands to [set]: the inline ones,
    then ['#' + tag] for the original tags without a leading ['#']. *)
Definition hashtag_candidates (text : str) (original_hashtags : list str)
    : list str :=
  findall_hashtags text
  ++ ((fun tag => hash_sign :: tag)
        <$> List.filter (fun tag => negb (startswith hash_sign tag))
              original_hashtags).

Definition _extract_hashtags (text : str) (original_hashtags : list str)
    (limit : Z) : list str :=
  let text_hashtags := findall_hashtags text in
  let all_hashtags :=
    set_to_list
      (text_hashtags
       ++ ((fun tag => hash_sign :: tag)
             <$> List.filter (fun tag => negb (startswith hash_sign tag))
                   original_hashtags)) in
  slice_to limit all_hashtags.

Definition _prepare_media_for_platform (video_data : VideoData)
    (platform_config : PlatformConfig) : Run Media :=
  try_except
    (let duration := video_duration video_data in
     let file_size := video_file_size video_data in
     if Qle_bool duration (video_max_duration platform_config)
        && (file_size <=? video_max_size platform_config)
     then
       let* path := getitem "video_path" (vd_video_path video_data) in
       ret (MediaVideo path duration file_size (vd_thumbnail_url video_data))
     else
       ret (MediaImage (vd_thumbnail_url video_data) thumbnail_note))
    (fun _ => ret MediaNone).

Definition _transform_for_platform (video_data : VideoData)
    (analysis : Analysis) (platform : string) : Run ContentDict :=
  try_except
    (let* platform_config :=
       getitem platform (PLATFORM_CONFIGS !! platform) in
     let* template := getitem platform (CONTENT_PROMPTS !! platform) in
     let* caption := getitem "caption" (vd_caption video_data) in
     let prompt :=
       format_prompt template caption
         (default [] (an_description analysis)) in
     let* generated_text :=
       generate_text openai_acreate anthropic_create random_choice
         text_generator prompt (max_length platform_config) "openai" in
     let hashtags :=
       _extract_hashtags generated_text
         (default [] (vd_hashtags video_data))
         (hashtag_limit platform_config) in
     let* media_info :=
       _prepare_media_for_platform video_data platform_config in
     let* id := getitem "id" (vd_id video_data) in
     ret (Some {| text := generated_text;
                  hashtags := hashtags;
                  media := media_info;
                  original_id := id;
                  platform := platform;
                  engagement_score :=
                    default 0%Q (an_engagement_score analysis);
                  topics := default [] (an_topics analysis);
                  sentiment :=
                    default (lit "neutral") (an_sentiment analysis) |}))
    (fun _ => ret None).

(** The loop of [transform_content] over the target platforms. *)
Fixpoint transform_platforms (video_data : VideoData) (analysis : Analysis)
    (target_platforms : list string)
    (transformed_content : gmap string ContentDict)
    : Run (gmap string ContentDict) :=
  match target_platforms with
  | [] => ret transformed_content
  | platform :: rest =>
      match PLATFORM_CONFIGS !! platform with
      | Some _ =>
          let* platform_content :=
            _transform_for_platform video_data analysis platform in
          transform_platforms video_data analysis rest
            (<[platform := platform_content]> transformed_content)
      | None =>
          transform_platforms video_data analysis rest transformed_content
      end
  end.

Definition transform_content (video_data : VideoData)
    (target_platforms : list string) : Run (gmap string ContentDict) :=
  try_except
    (let* logged_id := getitem "id" (vd_id video_data) in
     let* video_path := getitem "video_path" (vd_video_path video_data) in
     let* caption := getitem "caption" (vd_caption video_data) in
     let* content_analysis :=
       (fun w => let '(a, w') := analyze_video_content video_path caption w
                 in (Ok a, w')) in
     transform_platforms video_data content_analysis target_platforms ∅)
    (fun _ => ret ∅).

(** The loop of [execute_transformation]. *)
Fixpoint transform_videos (video_data_list : list VideoData)
    (platforms : list string) (transformed_results : list Transformation)
    : Run (list Transformation) :=
  match video_data_list with
  | [] => ret transformed_results
  | video_data :: rest =>
      let* transformed_content := transform_content video_data platforms in
      if bool_decide (transformed_content = ∅)
      then transform_videos rest platforms transformed_results
      else transform_videos rest platforms
             (transformed_results
              ++ [ {| original_video := video_data;
                      transformed_content := transformed_content |} ])
  end.

Definition execute_transformation (video_data_list : list VideoData)
    (platforms : list string) : Run (list Transformation) :=
  transform_videos video_data_list platforms [].

End Agent.

End Transformer.
Export Transformer.

(** ** agents/twitter_agent.py and agents/linkedin_agent.py *)

Module Posting.

(** The media entry of the payload handed to a poster. *)
Record MediaRef := {
  mr_type : option string;
  mr_path : option str;
  mr_title : option str
}.

(** The payload built by [_prepare_tweet_data] and [_prepare_post_data]. *)
Record PostData := {
  pd_text : str;
  pd_hashtags : list str;
  pd_media : option MediaRef;
  pd_topics : option (list str);
  pd_original_id : option str;
  pd_sentiment : str;
  pd_engagement_score : Q
}.

(** The dictionary answered by a poster of
    [services/social_media_poster.py]. *)
Record PosterReply := {
  reply_success : bool;
  reply_id : option str;
  reply_url : option str;
  reply_error : option str
}.

(** The dictionary returned by [post_content]: a success with the remote
    identifier, or a failure with its error value. *)
Inductive PostResult :=
| Posted (remote_id remote_url : option str) (on_platform : string)
         (source_id : option str)
| NotPosted (error : option str).

(** [r.get('success')] *)
Definition succeeded (r : PostResult) : bool :=
  match r with Posted _ _ _ _ => true | NotPosted _ => false end.

Definition media_type (m : Media) : option string :=
  match m with
  | MediaVideo _ _ _ _ => Some "video"%string
  | MediaImage _ _ => Some "image"%string
  | MediaNone => None
  end.

Definition media_path (m : Media) : option str :=
  match m with
  | MediaVideo path _ _ _ => Some path
  | MediaImage path _ => path
  | MediaNone => None
  end.

(** [media.get('duration', 0)] *)
Definition media_duration (m : Media) : Q :=
  match m with
  | MediaVideo _ duration _ _ => duration
  | _ => 0%Q
  end.

(** The validation shared by both agents, up to the two constants each
    class hard-codes: the text limit and the video duration limit. *)
Definition validate_with (text_limit : Z) (duration_limit : Q)
    (content_data : ContentDict) : bool :=
  match content_data with
  | None => false
  | Some content =>
      match text content with
      | [] => false
      | _ =>
          let text_length := len (text content) in
          if text_length >? text_limit then false
          else if media_is_video (media content)
                  && negb (Qle_bool (media_duration (media content))
                                    duration_limit)
          then false
          else true
      end
  end.

Module TwitterAgent.

Definition _validate_content (content_data : ContentDict) : bool :=
  validate_with 280 140%Q content_data.

Definition _prepare_tweet_data (content_data : ContentDict) : Run PostData :=
  let* content := getitem "text" content_data in
  ret {| pd_text := text content;
         pd_hashtags := hashtags content;
         pd_media :=
           match media content with
           | MediaNone => None
           | m => Some {| mr_type := media_type m;
                          mr_path := media_path m;
                          mr_title := None |}
           end;
         pd_topics := Some (topics content);
         pd_original_id := Some (original_id content);
         pd_sentiment := sentiment content;
         pd_engagement_score := engagement_score content |}.

Section Poster.

(** [post_tweet n tweet_data] is what the [n]-th call of
    [TwitterPoster.post_tweet] answers, or the exception it raises. *)
Variable post_tweet : nat -> PostData -> result PosterReply.

Definition call_post_tweet (tweet_data : PostData) : Run PosterReply :=
  fun w => (post_tweet (twitter_calls w) tweet_data, tick_twitter w).

Definition post_content (content_data : ContentDict) : Run PostResult :=
  try_except
    (if negb (_validate_content content_data)
     then ret (NotPosted (Some (lit "Content validation failed")))
     else
       let* tweet_data := _prepare_tweet_data content_data in
       let* result := call_post_tweet tweet_data in
       if reply_success result
       then ret (Posted (reply_id result) (reply_url result) "twitter"
                        (original_id <$> content_data))
       else ret (NotPosted (reply_error result)))
    (fun e => ret (NotPosted (Some e))).

(** The loop of [execute_posting]; [results] are the results so far. *)
Fixpoint post_all (content_list : list ContentDict)
    (results : list PostResult) : Run (list PostResult) :=
  match content_list with
  | [] => ret results
  | content_data :: rest =>
      let* delayed :=
        match results with
        | [] => ret tt
        | _ => sleep 30
        end in
      let* result := post_content content_data in
      post_all rest (results ++ [result])
  end.

Definition execute_posting (content_list : list ContentDict)
    : Run (list PostResult) :=
  post_all content_list [].

End Poster.

End TwitterAgent.

Module LinkedInAgent.

Definition _validate_content (content_data : ContentDict) : bool :=
  validate_with 3000 600%Q content_data.

Definition _prepare_post_data (content_data : ContentDict) : Run PostData :=
  let* content := getitem "text" content_data in
  ret {| pd_text := text content;
         pd_hashtags := hashtags content;
         pd_media :=
           match media content with
           | MediaNone => None
           | m => Some {| mr_type := media_type m;
                          mr_path := media_path m;
                          mr_title :=
                            Some (lit "Content from Instagram: "
                                  ++ original_id content) |}
           end;
         pd_topics :=
           match topics content with
           | [] => None
           | ts => Some ts
           end;
         pd_original_id := Some (original_id content);
         pd_sentiment := sentiment content;
         pd_engagement_score := engagement_score content |}.

Section Poster.

(** [create_post n post_data] is what the [n]-th call of
    [LinkedInPoster.create_post] answers, or the exception it raises. *)
Variable create_post : nat -> PostData -> result PosterReply.

Definition call_create_post (post_data : PostData) : Run PosterReply :=
  fun w => (create_post (linkedin_calls w) post_data, tick_linkedin w).

Definition post_content (content_data : ContentDict) : Run PostResult :=
  try_except
    (if negb (_validate_content content_data)
     then ret (NotPosted (Some (lit "Content validation failed")))
     else
       let* post_data := _prepare_post_data content_data in
       let* result := call_create_post post_data in
       if reply_success result
       then ret (Posted (reply_id result) (reply_url result) "linkedin"
                        (original_id <$> content_data))
       else ret (NotPosted (reply_error result)))
    (fun e => ret (NotPosted (Some e))).

Fixpoint post_all (content_list : list ContentDict)
    (results : list PostResult) : Run (list PostResult) :=
  match content_list with
  | [] => ret results
  | content_data :: rest =>
      let* delayed :=
        match results with
        | [] => ret tt
        | _ => sleep 60
        end in
      let* result := post_content content_data in
      post_all rest (results ++ [result])
  end.

Definition execute_posting (content_list : list ContentDict)
    : Run (list PostResult) :=
  post_all content_list [].

End Poster.

End LinkedInAgent.

End Posting.
Export Posting.

(** ** agents/orchestrator_agent.py, grouping *)

Module Grouping.

(** The keys of a video dictionary [_group_by_user] reads. *)
Record UserVideo := {
  uv_username : option str;
  uv_id : option str
}.

(** The loop of [_group_by_user]. *)
Fixpoint group_videos (extraction_results : list UserVideo)
    (grouped : gmap str (list str)) : result (gmap str (list str)) :=
  match extraction_results with
  | [] => Ok grouped
  | video :: rest =>
      let username := default (lit "unknown") (uv_username video) in
      let grouped :=
        match grouped !! username with
        | None => <[username := []]> grouped
        | Some _ => grouped
        end in
      match uv_id video with
      | None => Raise (lit "'id'")
      | Some id =>
          group_videos rest
            (<[username := default [] (grouped !! username) ++ [id]]>
               grouped)
      end
  end.

Definition _group_by_user (extraction_results : list UserVideo)
    : result (gmap str (list str)) :=
  group_videos extraction_results ∅.

(** The two keys of an extracted video, as [_group_by_user] reads
    them. *)
Definition user_video (video_data : VideoData) : UserVideo :=
  {| uv_username := vd_username video_data; uv_id := vd_id video_data |}.

(** The identifiers of the videos of one user, in order. *)
Definition ids_of (username : str) (videos : list UserVideo) : list str :=
  omap (fun video =>
          if bool_decide
               (default (lit "unknown") (uv_username video) = username)
          then uv_id video else None)
       videos.

End Grouping.
Export Grouping.

(** ** agents/orchestrator_agent.py *)

Module Orchestrator.

(** The value stored under a platform in [posting_results]: the list of
    results, or [{'error': str(e)}]. *)
Inductive PlatformResults :=
| ResultList (results : list PostResult)
| ResultError (error : str).

(** One entry of [summary['posting_summary']]. *)
Record PostingSummary := {
  successful : nat;
  total : nat;
  success_rate : Q
}.

Record Summary := {
  total_users_processed : nat;
  total_videos_extracted : nat;
  total_transformations : nat;
  posting_summary : gmap string PostingSummary;
  errors_count : nat
}.

(** The dictionary returned by [execute_full_workflow];
    [extracted_videos] and [videos_by_user] are the entries ['videos'] and
    ['videos_by_user'] of [extraction_results], empty while that
    dictionary is [{}]. *)
Record WorkflowResults := {
  target_users : list str;
  platforms : list string;
  extracted_videos : list VideoData;
  videos_by_user : gmap str (list str);
  transformations : list Transformation;
  posting_results : gmap string PlatformResults;
  errors : list str;
  summary : option Summary
}.

(** [[r['transformed_content'][platform] for r in results
      if platform in r.get('transformed_content', {})]] *)
Definition content_for (platform : string)
    (transformation_results : list Transformation) : list ContentDict :=
  omap (fun r => transformed_content r !! platform) transformation_results.

(** Every list of results stored for a platform has one entry per
    content transformed for that platform. *)
Definition one_result_per_content (ts : list Transformation)
    (posted : gmap string PlatformResults) : Prop :=
  forall name rs,
    posted !! name = Some (ResultList rs) ->
    length rs = length (content_for name ts).

Definition summarize_platform (results : PlatformResults)
    : option PostingSummary :=
  match results with
  | ResultList rs =>
      let successful := length (List.filter succeeded rs) in
      let total := length rs in
      Some {| successful := successful;
              total := total;
              success_rate :=
                if (0 <? total)%nat
                then (inject_Z (Z.of_nat successful)
                      / inject_Z (Z.of_nat total) * 100)%Q
                else 0%Q |}
  | ResultError _ => None
  end.

Definition _generate_workflow_summary (workflow_results : WorkflowResults)
    : Summary :=
  {| total_users_processed := length (target_users workflow_results);
     total_videos_extracted := length (extracted_videos workflow_results);
     total_transformations := length (transformations workflow_results);
     posting_summary :=
       omap summarize_platform (posting_results workflow_results);
     errors_count := length (errors workflow_results) |}.

Section Agents.

Variable nonascii_word : char -> bool.
Variable set_to_list : list str -> list str.
Variable analyze_video_content : str -> str -> World -> Analysis * World.
Variable openai_acreate : nat -> str -> Z -> result str.
Variable anthropic_create : nat -> str -> Z -> result str.
Variable random_choice : nat -> nat.
Variable PLATFORM_CONFIGS : gmap string PlatformConfig.
Variable CONTENT_PROMPTS : gmap string PromptTemplate.
Variable text_generator : TextGenerator.
Variable post_tweet : nat -> PostData -> result PosterReply.
Variable create_post : nat -> PostData -> result PosterReply.

(** [execute_extraction users] is the list of videos the Instagram agent
    extracts, or the exception it raises. *)
Variable execute_extraction : list str -> result (list VideoData).

(** [_execute_posting] with [schedule_posts = False], the default. *)
Fixpoint _execute_posting (transformation_results : list Transformation)
    (platforms : list string)
    (posting_results : gmap string PlatformResults)
    : Run (gmap string PlatformResults) :=
  match platforms with
  | [] => ret posting_results
  | platform :: rest =>
      let* posting_results :=
        try_except
          (let platform_content :=
             content_for platform transformation_results in
           match platform_content with
           | [] => ret posting_results
           | _ =>
               if bool_decide (platform = "twitter"%string) then
                 let* results :=
                   TwitterAgent.execute_posting post_tweet
                     platform_content in
                 ret (<["twitter"%string := ResultList results]>
                        posting_results)
               else if bool_decide (platform = "linkedin"%string) then
                 let* results :=
                   LinkedInAgent.execute_posting create_post
                     platform_content in
                 ret (<["linkedin"%string := ResultList results]>
                        posting_results)
               else ret posting_results
           end)
          (fun e => ret (<[platform := ResultError e]> posting_results)) in
      _execute_posting transformation_results rest posting_results
  end.

(** [execute_full_workflow] with [schedule_posts = False].  Every
    exception is caught by the handler of the function, which adds
    ["Workflow error: ..."] to the errors of the dictionary as it is at
    that point. *)
Definition execute_full_workflow (target_users : list str)
    (platforms : list string) : Run WorkflowResults :=
  let workflow_results extracted grouped transformed posted errs :=
    {| target_users := target_users;
       platforms := platforms;
       extracted_videos := extracted;
       videos_by_user := grouped;
       transformations := transformed;
       posting_results := posted;
       errors := errs;
       summary := None |} in
  fun w =>
    match execute_extraction target_users with
    | Raise e =>
        (Ok (workflow_results [] ∅ [] ∅ [lit "Workflow error: " ++ e]), w)
    | Ok extraction_results =>
        match _group_by_user (user_video <$> extraction_results) with
        | Raise e =>
            (Ok (workflow_results [] ∅ [] ∅ [lit "Workflow error: " ++ e]),
             w)
        | Ok grouped =>
            match extraction_results with
            | [] =>
                (Ok (workflow_results [] grouped [] ∅
                       [lit "No content extracted from Instagram"]), w)
            | _ =>
                match
                  execute_transformation nonascii_word set_to_list
                    analyze_video_content openai_acreate anthropic_create
                    random_choice PLATFORM_CONFIGS CONTENT_PROMPTS
                    text_generator extraction_results platforms w
                with
                | (Raise e, w1) =>
                    (Ok (workflow_results extraction_results grouped [] ∅
                           [lit "Workflow error: " ++ e]), w1)
                | (Ok [], w1) =>
                    (Ok (workflow_results extraction_results grouped [] ∅
                           [lit "Content transformation failed"]), w1)
                | (Ok transformation_results, w1) =>
                    match
                      _execute_posting transformation_results platforms ∅ w1
                    with
                    | (Raise e, w2) =>
                        (Ok (workflow_results extraction_results grouped
                               transformation_results ∅
                               [lit "Workflow error: " ++ e]), w2)
                    | (Ok posted, w2) =>
                        let results :=
                          workflow_results extraction_results grouped
                            transformation_results posted [] in
                        (Ok {| target_users := target_users;
                               platforms := platforms;
                               extracted_videos := extraction_results;
                               videos_by_user := grouped;
                               transformations := transformation_results;
                               posting_results := posted;
                               errors := [];
                               summary :=
                                 Some (_generate_workflow_summary results) |},
                         w2)
                    end
                end
            end
        end
    end.

End Agents.

End Orchestrator.
Export Orchestrator.

(** ** complete_pipeline.py and specific_video_poster.py *)

Module Pipelines.

Definition full_stop : char := 46%N.

(** [l[0]], which raises [IndexError] on an empty list. *)
Definition first_item {A} (l : list A) : result A :=
  match l with
  | x :: _ => Ok x
  | [] => Raise (lit "list index out of range")
  end.

(** [sentences[0] if sentences else caption] *)
Definition main_content_of (caption : str) : result str :=
  let sentences := split_on full_stop caption in
  match sentences with
  | [] => Ok caption
  | _ => first_item sentences
  end.

Definition fire : str := [128293%N].
Definition rocket : str := [128640%N].

(** The text [_rule_based_transform] has composed when it reaches its
    length guard: the first words, the engagement boost and the
    hashtags. *)
Definition rule_based_text (caption : str) (likes comments : Z)
    (hashtags : list str) : result str :=
  match main_content_of caption with
  | Raise e => Raise e
  | Ok main_content =>
      let words := take 25 (split_ws main_content) in
      let transformed := join space words in
      let transformed :=
        if likes >? 1000
        then transformed ++ space ++ fire ++ lit " ("
             ++ format_thousands likes ++ lit " likes!)"
        else if likes >? 500 then transformed ++ space ++ rocket
        else transformed in
      let relevant_hashtags :=
        match hashtags with
        | [] => [lit "#AI"; lit "#Innovation"]
        | _ => slice_to 2 hashtags
        end in
      Ok (transformed ++ space ++ join space relevant_hashtags)
  end.

(** [complete_pipeline.py], [_rule_based_transform] *)
Definition _rule_based_transform (caption : str) (likes comments : Z)
    (hashtags : list str) : result str :=
  match main_content_of caption with
  | Raise e => Raise e
  | Ok main_content =>
      let words := take 25 (split_ws main_content) in
      let transformed := join space words in
      let transformed :=
        if likes >? 1000
        then transformed ++ space ++ fire ++ lit " ("
             ++ format_thousands likes ++ lit " likes!)"
        else if likes >? 500 then transformed ++ space ++ rocket
        else transformed in
      let relevant_hashtags :=
        match hashtags with
        | [] => [lit "#AI"; lit "#Innovation"]
        | _ => slice_to 2 hashtags
        end in
      let transformed :=
        transformed ++ space ++ join space relevant_hashtags in
      Ok (if len transformed >? 280
          then slice_to 277 transformed ++ ellipsis
          else transformed)
  end.

(** [specific_video_poster.py], [optimize_for_twitter] *)
Definition optimize_for_twitter (caption : str) (likes comments : Z)
    (hashtags : list str) : result str :=
  match main_content_of caption with
  | Raise e => Raise e
  | Ok main_content =>
      let words := take 35 (split_ws main_content) in
      let content := join space words in
      Ok (if len content >? 250
          then slice_to 247 content ++ ellipsis
          else content)
  end.

End Pipelines.
Export Pipelines.

(** ** The adaptation policy as the specification words it *)

Module Policy.

(** Deduplication that keeps the first occurrence of every element. *)
Fixpoint dedup_first_seen (seen l : list str) : list str :=
  match l with
  | [] => []
  | x :: l' =>
      if bool_decide (x ∈ seen) then dedup_first_seen seen l'
      else x :: dedup_first_seen (x :: seen) l'
  end.

(** A hashtag normalized to have a leading ['#']. *)
Definition normalize_hashtag (tag : str) : str :=
  if startswith hash_sign tag then tag else hash_sign :: tag.

(** Hashtag selection in the words of the specification: the inline
    hashtags, then the normalized originals, first occurrences only, in
    discovery order, cut to the limit. *)
Definition select_hashtags (inline original_hashtags : list str)
    (max_hashtags : Z) : list str :=
  slice_to max_hashtags
    (dedup_first_seen [] (inline ++ (normalize_hashtag <$> original_hashtags))).

(** A whitespace character occurs among the first [max_text_length - 3]
    characters of the text. *)
Definition boundary_available (max_text_length : Z) (raw_text : str)
    : bool :=
  existsb isspace (slice_to (max_text_length - 3) raw_text).

(** The prefix [kept] of [raw_text] stops at a whitespace boundary: it
    ends with whitespace, or whitespace follows it in [raw_text]. *)
Definition cut_at_whitespace (raw_text kept : str) : bool :=
  match last kept, drop (length kept) raw_text with
  | Some c, next :: _ => isspace c || isspace next
  | Some c, [] => true
  | None, _ => true
  end.

(** The validation gate in the words of the specification, for a
    profile: empty text, text over the limit, or a video over the
    duration or size limit. *)
Definition profile_gate_rejects (profile : PlatformConfig)
    (content : PlatformContent) : bool :=
  match text content with
  | [] => true
  | _ =>
      (len (text content) >? max_length profile)
      || match media content with
         | MediaVideo _ duration size _ =>
             negb (Qle_bool duration (video_max_duration profile))
             || (size >? video_max_size profile)
         | _ => false
         end
  end.

(** An iteration order a Python set can have: every element of the list
    once, whatever the order. *)
Definition set_order_ok (set_to_list : list str -> list str) : Prop :=
  forall l, NoDup (set_to_list l) /\ forall x, x ∈ set_to_list l <-> x ∈ l.

End Policy.
Export Policy.

(** ** Sample data *)

Module Samples.

Definition ascii_only (c : char) : bool := false.

(** Two set orders: first insertion first, and the reverse. *)
Definition insertion_order (l : list str) : list str :=
  dedup_first_seen [] l.
Definition reverse_order (l : list str) : list str :=
  reverse (dedup_first_seen [] l).

Definition video_info_ok : VideoInfo :=
  {| vi_duration := Some 30%Q; vi_file_size := Some 1000000 |}.

Definition video (id caption : string) (tags : list str)
    (info : VideoInfo) : VideoData :=
  {| vd_id := Some (lit id);
     vd_username := Some (lit "someone");
     vd_caption := Some (lit caption);
     vd_hashtags := Some tags;
     vd_video_path := Some (lit "/tmp/" ++ lit id ++ lit ".mp4");
     vd_video_info := Some info;
     vd_thumbnail_url := Some (lit "https://cdn/" ++ lit id ++ lit ".jpg") |}.

Definition video1 : VideoData :=
  video "v1" "Launch day. It went well" [lit "AI"] video_info_ok.

Definition analysis0 : Analysis :=
  {| an_description := None;
     an_engagement_score := None;
     an_topics := None;
     an_sentiment := None |}.

Definition analyzer0 (video_path caption : str) (w : World)
    : Analysis * World := (analysis0, w).

Definition replies (content : string) (n : nat) (prompt : str)
    (max_length : Z) : result str := Ok (lit content).
Definition provider_down (n : nat) (prompt : str) (max_length : Z)
    : result str := Raise (lit "provider unavailable").
Definition always_pick (k : nat) (n : nat) : nat := k.

Definition with_openai : TextGenerator :=
  {| openai_available := true; anthropic_available := false |}.
Definition without_providers : TextGenerator :=
  {| openai_available := false; anthropic_available := false |}.

Definition profile (max_text hashtags_max : Z) : PlatformConfig :=
  {| max_length := max_text;
     hashtag_limit := hashtags_max;
     video_max_duration := 140%Q;
     video_max_size := 512 * 1024 * 1024 |}.

Definition twitter_profile : PlatformConfig := profile 280 10.

Definition accepted (n : nat) : PosterReply :=
  {| reply_success := true;
     reply_id := Some (lit "tweet-" ++ format_thousands (Z.of_nat n));
     reply_url := None;
     reply_error := None |}.

(** A poster whose second call raises. *)
Definition second_call_raises (n : nat) (tweet_data : PostData)
    : result PosterReply :=
  if (n =? 1)%nat then Raise (lit "connection reset") else Ok (accepted n).

Definition post (body : string) (m : Media) : PlatformContent :=
  {| text := lit body;
     hashtags := [];
     media := m;
     original_id := lit "v1";
     platform := "twitter";
     engagement_score := 0%Q;
     topics := [];
     sentiment := lit "neutral" |}.

(** A short video of 512 MB plus one byte. *)
Definition big_video : Media :=
  MediaVideo (lit "/tmp/v1.mp4") 10%Q (512 * 1024 * 1024 + 1) None.

(** The step of the pipeline under the default configuration. *)
Definition transform_with (openai : nat -> str -> Z -> result str)
    (pick : nat) (configs : gmap string PlatformConfig)
    (generator : TextGenerator) (video_data : VideoData)
    : result ContentDict * World :=
  _transform_for_platform ascii_only insertion_order openai provider_down
    (always_pick pick) configs CONTENT_PROMPTS generator video_data
    analysis0 "twitter" world0.

(** A profile of 10 characters, with no provider configured. *)
Definition small_profile_post : ContentDict :=
  default None
    (returned (transform_with provider_down 3
                 {[ "twitter"%string := profile 10 10 ]}
                 without_providers video1)).

(** The same call of the fallback path in two runs, in which
    [random.choice] picks the first and the fourth template. *)
Definition fallback_post (pick : nat) : ContentDict :=
  default None
    (returned (transform_with provider_down pick
                 (PLATFORM_CONFIGS default_settings) without_providers
                 video1)).

(** A world in which the collaborators have been called before. *)
Definition later_world : World := mkWorld 4 0 7 2 0 60.

(** A provider that gives the same reply to the first call of one run
    and to the fifth call of another. *)
Definition replies_again (content : string) (n : nat) (prompt : str)
    (max_length : Z) : result str :=
  if (n =? 4)%nat then Ok (lit content)
  else Raise (lit "rate limit").

Definition always_accepts (n : nat) (post_data : PostData)
    : result PosterReply := Ok (accepted n).

(** A video one second over the limit of Twitter. *)
Definition long_video : VideoData :=
  video "v2" "Full keynote" []
    {| vi_duration := Some (140 + 1)%Q; vi_file_size := Some 1000000 |}.

End Samples.

(** ** utils/text_generator.py, the generators built on [generate_text] *)

Module Generators.

Definition newline_char : char := 10%N.

(** [f"{n}"] for an integer. *)
Definition format_int (n : Z) : str :=
  let digits := uint_digits (N.to_uint (Z.abs_N n)) in
  if n <? 0 then 45%N :: digits else digits.

(** Twelve spaces, the indentation of the prompt literals. *)
Definition indent : str := lit "            ".

Definition _get_default_hashtags (platform : string) : list str :=
  if bool_decide (platform = "twitter"%string)
  then [ lit "#viral"; lit "#content"; lit "#video"; lit "#social";
         lit "#trending" ]
  else if bool_decide (platform = "linkedin"%string)
  then [ lit "#professional"; lit "#business"; lit "#content";
         lit "#networking"; lit "#industry" ]
  else [ lit "#content"; lit "#video"; lit "#social" ].

(** The loop of [generate_hashtags] over the lines of the generated
    text. *)
Fixpoint collect_hashtags (max_hashtags : Z) (lines hashtags : list str)
    : list str :=
  match lines with
  | [] => hashtags
  | line :: rest =>
      let line := strip line in
      if startswith hash_sign line && (len hashtags <? max_hashtags)
      then collect_hashtags max_hashtags rest (hashtags ++ [line])
      else collect_hashtags max_hashtags rest hashtags
  end.

(** The loop of [generate_thread] over the lines of the generated text,
    with its [break]. *)
Fixpoint collect_tweets (max_tweets : Z) (lines tweets : list str)
    : list str :=
  match lines with
  | [] => tweets
  | line :: rest =>
      let line := strip line in
      match line with
      | [] => collect_tweets max_tweets rest tweets
      | _ =>
          if len line <=? 280 then
            let tweets := tweets ++ [line] in
            if len tweets >=? max_tweets then tweets
            else collect_tweets max_tweets rest tweets
          else collect_tweets max_tweets rest tweets
      end
  end.

Definition hashtags_prompt (content : str) (platform : string)
    (max_hashtags : Z) : str :=
  join [newline_char]
    [ lit "";
      indent ++ lit "Generate " ++ format_int max_hashtags
        ++ lit " relevant hashtags for this " ++ lit platform
        ++ lit " content:";
      indent;
      indent ++ lit "Content: " ++ content;
      indent;
      indent ++ lit "Requirements:";
      indent ++ lit "- Hashtags should be relevant and trending";
      indent ++ lit "- Mix of broad and specific hashtags";
      indent ++ lit "- Appropriate for " ++ lit platform ++ lit " audience";
      indent ++ lit "- Return only hashtags, one per line, with # symbol";
      indent ].

Definition optimize_prompt (text : str) (platform tone : string)
    (max_length : Z) : str :=
  join [newline_char]
    [ lit "";
      indent ++ lit "Optimize this content for " ++ lit platform ++ lit ":";
      indent;
      indent ++ lit "Original: " ++ text;
      indent;
      indent ++ lit "Requirements:";
      indent ++ lit "- " ++ lit tone ++ lit " tone";
      indent ++ lit "- Maximum " ++ format_int max_length
        ++ lit " characters";
      indent ++ lit "- Platform-appropriate language and style";
      indent ++ lit "- Maintain core message";
      indent ].

Definition thread_prompt (content : str) (max_tweets : Z) : str :=
  join [newline_char]
    [ lit "";
      indent ++ lit "Convert this content into a Twitter thread of "
        ++ format_int max_tweets ++ lit " tweets maximum:";
      indent;
      indent ++ content;
      indent;
      indent ++ lit "Requirements:";
      indent ++ lit "- Each tweet must be under 280 characters";
      indent ++ lit "- Maintain narrative flow";
      indent ++ lit "- Use thread numbering (1/n, 2/n, etc.)";
      indent ++ lit "- Engaging and informative";
      indent ].

Section Providers.

Variable openai_acreate : nat -> str -> Z -> result str.
Variable anthropic_create : nat -> str -> Z -> result str.
Variable random_choice : nat -> nat.
Variable self : TextGenerator.

Definition generate_hashtags (content : str) (platform : string)
    (max_hashtags : Z) : Run (list str) :=
  try_except
    (let prompt := hashtags_prompt content platform max_hashtags in
     let* generated_text :=
       generate_text openai_acreate anthropic_create random_choice self
         prompt 500 "openai" in
     let hashtags :=
       collect_hashtags max_hashtags
         (split_on newline_char generated_text) [] in
     ret (slice_to max_hashtags hashtags))
    (fun _ => ret (_get_default_hashtags platform)).

Definition optimize_for_platform (text : str) (platform : string)
    : Run str :=
  try_except
    (let '(max_length, tone) :=
       if bool_decide (platform = "twitter"%string)
       then (280, "casual and engaging"%string)
       else if bool_decide (platform = "linkedin"%string)
       then (3000, "professional and insightful"%string)
       else (500, "engaging"%string) in
     let prompt := optimize_prompt text platform tone max_length in
     generate_text openai_acreate anthropic_create random_choice self
       prompt max_length "openai")
    (fun _ =>
       ret (if bool_decide (platform = "twitter"%string)
            then slice_to 280 text else text)).

Definition generate_thread (content : str) (max_tweets : Z)
    : Run (list str) :=
  try_except
    (let prompt := thread_prompt content max_tweets in
     let* thread_text :=
       generate_text openai_acreate anthropic_create random_choice self
         prompt 1400 "openai" in
     ret (collect_tweets max_tweets (split_on newline_char thread_text) []))
    (fun _ => ret [slice_to 280 content]).

End Providers.

End Generators.
Export Generators.

(** ** services/instagram_scraper.py *)

Module Scraper.

Section Patterns.

Variable nonascii_word : char -> bool.

(** The group a scan has just finished reading, if any. *)
Definition emit_group (cur : option str) : list str :=
  match cur with
  | Some (c :: w) => [reverse (c :: w)]
  | _ => []
  end.

(** [re.findall(r'#(\w+)', caption)]: the same scan as for [#\w+], but
    each match yields its group, the word after the ['#']. *)
Fixpoint findall_group_from (cur : option str) (s : str) : list str :=
  match s with
  | [] => emit_group cur
  | c :: s' =>
      if is_word nonascii_word c then
        match cur with
        | Some w => findall_group_from (Some (c :: w)) s'
        | None => findall_group_from None s'
        end
      else
        emit_group cur
        ++ findall_group_from
             (if (c =? hash_sign)%N then Some [] else None) s'
  end.

(** [InstagramScraper._extract_hashtags] *)
Definition scraper_extract_hashtags (caption : str) : list str :=
  findall_group_from None caption.

End Patterns.

End Scraper.
Export Scraper.

(** ** services/content_analyzer.py, scores and recommendations *)

Module Analyzer.

(** The keys of [analysis['visual_analysis']] the scoring reads. *)
Record VisualAnalysis := {
  va_duration : option Q;
  va_motion_level : option string
}.

(** The keys of [analysis['text_analysis']] the scoring reads. *)
Record TextAnalysis := {
  ta_sentiment : option string;
  ta_hashtag_count : option Z;
  ta_word_count : option Z;
  ta_topics : option (list string)
}.

Record ContentAnalysis := {
  ca_visual : option VisualAnalysis;
  ca_text : option TextAnalysis
}.

(** [analysis.get('visual_analysis', {}).get('duration', 0)] *)
Definition analysis_duration (analysis : ContentAnalysis) : Q :=
  default 0%Q (ca_visual analysis ≫= va_duration).

Definition _calculate_engagement_score (analysis : ContentAnalysis) : Z :=
  let score := 50 in
  let duration := analysis_duration analysis in
  let score :=
    if Qle_bool 15 duration && Qle_bool duration 60 then score + 15
    else if negb (Qle_bool 15 duration) then score + 5
    else score in
  let motion :=
    default "low"%string (ca_visual analysis ≫= va_motion_level) in
  let score :=
    if bool_decide (motion = "medium"%string) then score + 10
    else if bool_decide (motion = "high"%string) then score + 5
    else score in
  let sentiment :=
    default "neutral"%string (ca_text analysis ≫= ta_sentiment) in
  let score :=
    if bool_decide (sentiment = "positive"%string) then score + 15
    else if bool_decide (sentiment = "negative"%string) then score - 5
    else score in
  let hashtag_count := default 0 (ca_text analysis ≫= ta_hashtag_count) in
  let score :=
    if (3 <=? hashtag_count) && (hashtag_count <=? 7) then score + 10
    else if hashtag_count >? 10 then score - 5
    else score in
  let word_count := default 0 (ca_text analysis ≫= ta_word_count) in
  let score :=
    if (20 <=? word_count) && (word_count <=? 100) then score + 10
    else score in
  Z.max 0 (Z.min 100 score).

Definition _categorize_engagement (score : Z) : string :=
  if score >=? 80 then "high"
  else if score >=? 60 then "medium"
  else "low".

(** [any(topic in names for topic in topics)] *)
Definition any_topic_in (names topics : list string) : bool :=
  existsb (fun topic => bool_decide (topic ∈ names)) topics.

Definition _recommend_platforms (analysis : ContentAnalysis)
    : list string :=
  let duration := analysis_duration analysis in
  let topics := default [] (ca_text analysis ≫= ta_topics) in
  let recommendations := [] in
  let recommendations :=
    if Qle_bool duration 140
       && any_topic_in ["news"; "entertainment"; "comedy"]%string topics
    then recommendations ++ ["twitter"%string]
    else recommendations in
  let recommendations :=
    if any_topic_in ["business"; "technology"; "education"]%string topics
    then recommendations ++ ["linkedin"%string]
    else recommendations in
  match recommendations with
  | [] => ["twitter"; "linkedin"]%string
  | _ => recommendations
  end.

End Analyzer.
Export Analyzer.

(** ** complete_pipeline.py and specific_video_poster.py, the callers *)

Module Posters.

(** The post dictionary read by [transform_for_twitter] and
    [_fallback_transform], keys being looked up with [get]. *)
Record InstagramPost := {
  ip_caption : option str;
  ip_likes : option Z;
  ip_comments : option Z;
  ip_hashtags : option (list str)
}.

(** The video dictionary indexed by [post_video_content]. *)
Record PosterVideo := {
  pv_shortcode : option str;
  pv_caption : option str;
  pv_likes : option Z;
  pv_comments : option Z;
  pv_hashtags : option (list str)
}.

(** The dictionary returned by [post_video_content]. *)
Inductive VideoPostResult :=
| VideoPosted (post_id url content : str)
| VideoNotPosted (error : str).

Definition double_quote : char := 34%N.

(** [complete_pipeline.py], [_fallback_transform] *)
Definition _fallback_transform (post : InstagramPost) : str :=
  let caption :=
    default (lit "Check out this amazing content!") (ip_caption post) in
  let likes := default 0 (ip_likes post) in
  let words := slice_to 20 (split_ws caption) in
  let content := join space words in
  let content :=
    if likes >? 1000
    then content ++ space ++ fire ++ lit " (" ++ format_thousands likes
         ++ lit " likes!)"
    else content in
  let content := content ++ lit " #AI #SocialMedia" in
  slice_to 280 content.

Definition ai_prompt (caption : str) (likes comments : Z)
    (hashtags : list str) : str :=
  join [newline_char]
    [ lit "";
      lit "Transform this Instagram video caption into an engaging Twitter post:";
      lit "";
      lit "Original Caption: " ++ [double_quote] ++ caption
        ++ [double_quote];
      lit "Engagement: " ++ format_int likes ++ lit " likes, "
        ++ format_int comments ++ lit " comments";
      lit "Original Hashtags: " ++ join (lit ", ") hashtags;
      lit "";
      lit "Requirements:";
      lit "- Keep it under 280 characters";
      lit "- Make it Twitter-friendly and engaging";
      lit "- Add 1-2 relevant emojis";
      lit "- Include a call to action or question";
      lit "- Maintain the core message";
      lit "- Make it more conversational";
      lit "- Add 1-2 relevant hashtags (not more)";
      lit "- If the content has high engagement, mention it";
      lit "";
      lit "Twitter Post:" ].

(** A raised exception leaves the pure computation. *)
Definition lift {A} (r : result A) : Run A := fun w => (r, w).

(** The text after the provider call of [_ai_transform]: stripped,
    without surrounding quotes, within 280 characters. *)
Definition clean_reply (content : str) : str :=
  let transformed := strip content in
  let transformed :=
    if startswith double_quote transformed
       && endswith [double_quote] transformed
    then slice_to (-1) (drop 1 transformed)
    else transformed in
  if len transformed >? 280 then slice_to 277 transformed ++ ellipsis
  else transformed.

Section Clients.

(** [openai_create n prompt] is the message content answered to the
    [n]-th call of [openai.ChatCompletion.create], or the exception it
    raises; [create_tweet n text] is the identifier of the tweet created
    by the [n]-th call of [tweepy.Client.create_tweet], or the exception
    it raises. *)
Variable openai_create : nat -> str -> result str.
Variable create_tweet : nat -> str -> result str.

Definition _ai_transform (caption : str) (likes comments : Z)
    (hashtags : list str) : Run str :=
  try_except
    (fun w =>
       match openai_create (openai_calls w)
               (ai_prompt caption likes comments hashtags) with
       | Ok content => (Ok (clean_reply content), tick_openai w)
       | Raise e => (Raise e, tick_openai w)
       end)
    (fun _ => lift (_rule_based_transform caption likes comments hashtags)).

(** [transform_for_twitter]; [openai_key] tells whether the key is set. *)
Definition transform_for_twitter (openai_key : bool)
    (instagram_post : InstagramPost) : Run str :=
  try_except
    (let original_caption := default [] (ip_caption instagram_post) in
     let likes := default 0 (ip_likes instagram_post) in
     let comments := default 0 (ip_comments instagram_post) in
     let hashtags := default [] (ip_hashtags instagram_post) in
     if openai_key && (len original_caption >? 20)
     then _ai_transform original_caption likes comments hashtags
     else lift (_rule_based_transform original_caption likes comments
                  hashtags))
    (fun _ => ret (_fallback_transform instagram_post)).

Definition attribution (shortcode : str) : str :=
  [newline_char; newline_char] ++ lit "@idxcodehub " ++ [128248%N]
  ++ space ++ shortcode.

(** [specific_video_poster.py], [post_video_content] *)
Definition post_video_content (video_data : PosterVideo)
    : Run VideoPostResult :=
  try_except
    (let* shortcode := getitem "shortcode" (pv_shortcode video_data) in
     let* caption := getitem "caption" (pv_caption video_data) in
     let* likes := getitem "likes" (pv_likes video_data) in
     let* comments := getitem "comments" (pv_comments video_data) in
     let* hashtags := getitem "hashtags" (pv_hashtags video_data) in
     let* optimized_content :=
       lift (optimize_for_twitter caption likes comments hashtags) in
     let* shortcode_again :=
       getitem "shortcode" (pv_shortcode video_data) in
     let optimized_content :=
       optimized_content ++ attribution shortcode_again in
     let optimized_content :=
       if len optimized_content >? 280
       then slice_to 277 optimized_content ++ ellipsis
       else optimized_content in
     let* tweet_id :=
       (fun w => (create_tweet (twitter_calls w) optimized_content,
                  tick_twitter w)) in
     ret (VideoPosted tweet_id
            (lit "https://twitter.com/user/status/" ++ tweet_id)
            optimized_content))
    (fun e => ret (VideoNotPosted e)).

End Clients.

End Posters.
Export Posters.

(** ** Decidable forms of the conditions of the batch *)

Module Conditions.

Definition has_required_keys_b (video_data : VideoData) : bool :=
  match vd_id video_data, vd_video_path video_data,
        vd_caption video_data with
  | Some _, Some _, Some _ => true
  | _, _, _ => false
  end.

(** The platform has an entry in the platform table. *)
Definition configured (configs : gmap string PlatformConfig)
    (name : string) : bool :=
  match configs !! name with Some _ => true | None => false end.

(** The video survives [execute_transformation]. *)
Definition transformable (configs : gmap string PlatformConfig)
    (target_platforms : list string) (video_data : VideoData) : bool :=
  has_required_keys_b video_data
  && existsb (configured configs) target_platforms.

(** The text a poster may be called with by the Twitter agent. *)
Definition tweetable (tweet_data : PostData) : bool :=
  (0 <? len (pd_text tweet_data)) && (len (pd_text tweet_data) <=? 280).

(** The call of the poster failed: it raised, or it answered a
    dictionary without ['success']. *)
Definition publisher_failed (outcome : result PosterReply) : bool :=
  match outcome with
  | Ok reply => negb (reply_success reply)
  | Raise _ => true
  end.

(** The error value of a failed call: the message of the exception, or
    the reply's ['error']. *)
Definition publisher_error (outcome : result PosterReply) : option str :=
  match outcome with
  | Ok reply => reply_error reply
  | Raise e => Some e
  end.

(** [result] records what happened to [content_data] at the agent of
    [platform], when the call number [n] of the poster is the one made
    for it: a content that does not pass the gate is a failure that
    says so; otherwise the poster is called with the prepared payload,
    and a failed call is a failure carrying its error value, any other
    call a success carrying the reply's identifier and URL. *)
Definition recorded_for (platform : string)
    (validate : ContentDict -> bool) (prepare : ContentDict -> Run PostData)
    (poster : nat -> PostData -> result PosterReply) (n : nat)
    (content_data : ContentDict) (result : PostResult) : Prop :=
  if validate content_data then
    exists post_data,
      (forall w, prepare content_data w = (Ok post_data, w))
      /\ let outcome := poster n post_data in
         if publisher_failed outcome
         then result = NotPosted (publisher_error outcome)
         else exists reply,
                outcome = Ok reply
                /\ result = Posted (reply_id reply) (reply_url reply)
                              platform (original_id <$> content_data)
  else result = NotPosted (Some (lit "Content validation failed")).

(** The results stored for a platform record, in order, the contents
    transformed for it, each through one call of the platform's poster
    at most. *)
Definition records_of (post_tweet create_post
                         : nat -> PostData -> result PosterReply)
    (name : string) (contents : list ContentDict)
    (results : list PostResult) : Prop :=
  (name = "twitter"%string
   /\ Forall2 (fun content_data result =>
                 exists n,
                   recorded_for "twitter" TwitterAgent._validate_content
                     TwitterAgent._prepare_tweet_data post_tweet n
                     content_data result)
              contents results)
  \/ (name = "linkedin"%string
      /\ Forall2 (fun content_data result =>
                    exists n,
                      recorded_for "linkedin"
                        LinkedInAgent._validate_content
                        LinkedInAgent._prepare_post_data create_post n
                        content_data result)
                 contents results).

(** The part of the world the posting loops leave alone. *)
Definition same_generators (w w' : World) : Prop :=
  openai_calls w' = openai_calls w
  /\ anthropic_calls w' = anthropic_calls w
  /\ random_calls w' = random_calls w.

End Conditions.
Export Conditions.

(** ** More sample data *)

Module Fixtures.

(** A poster that refuses the payloads the Twitter agent never sends. *)
Definition strict_poster (n : nat) (tweet_data : PostData)
    : result PosterReply :=
  if tweetable tweet_data then Ok (Samples.accepted n)
  else Raise (lit "text out of bounds").

Definition reel : PosterVideo :=
  {| pv_shortcode := Some (lit "DLcS9JbI4Rp");
     pv_caption := Some (lit "Ship it. Then fix it");
     pv_likes := Some 1200;
     pv_comments := Some 15;
     pv_hashtags := Some [lit "#dev"] |}.

(** A short video whose dictionary has no key ['video_path']. *)
Definition video_without_path : VideoData :=
  {| vd_id := Some (lit "v3");
     vd_username := Some (lit "someone");
     vd_caption := Some (lit "Behind the scenes");
     vd_hashtags := Some [];
     vd_video_path := None;
     vd_video_info := Some Samples.video_info_ok;
     vd_thumbnail_url := None |}.

(** A video dictionary without the key ['id']. *)
Definition video_without_id : VideoData :=
  {| vd_id := None;
     vd_username := Some (lit "someone");
     vd_caption := Some (lit "Untitled");
     vd_hashtags := Some [];
     vd_video_path := Some (lit "/tmp/v4.mp4");
     vd_video_info := Some Samples.video_info_ok;
     vd_thumbnail_url := None |}.

(** The Twitter entry of the default prompts. *)
Definition twitter_prompt : PromptTemplate :=
  default {| before_content := []; before_description := [];
             after_description := [] |}
          (CONTENT_PROMPTS !! "twitter"%string).

(** A poster without credentials: every call is answered with a
    failure dictionary. *)
Definition not_initialized (n : nat) (post_data : PostData)
    : result PosterReply :=
  Ok {| reply_success := false;
        reply_id := None;
        reply_url := None;
        reply_error := Some (lit "Twitter API not initialized") |}.

(** A poster whose second call is answered with a failure dictionary. *)
Definition second_call_refused (n : nat) (post_data : PostData)
    : result PosterReply :=
  if (n =? 1)%nat
  then Ok {| reply_success := false;
             reply_id := None;
             reply_url := None;
             reply_error := Some (lit "Failed to create tweet") |}
  else Ok (Samples.accepted n).

(** A provider that answers every call with [reply]. *)
Definition answers (reply : str) (n : nat) (prompt : str) (max_length : Z)
    : result str := Ok reply.

(** The workflow for the videos [videos] of one user, under the default
    configuration. *)
Definition batch (poster : nat -> PostData -> result PosterReply)
    (videos : list VideoData) (target_platforms : list string)
    : option WorkflowResults :=
  returned
    (execute_full_workflow Samples.ascii_only Samples.insertion_order
       Samples.analyzer0 (Samples.replies "Launch day #AI")
       Samples.provider_down (Samples.always_pick 0)
       (PLATFORM_CONFIGS default_settings) CONTENT_PROMPTS
       Samples.with_openai poster poster (fun users => Ok videos)
       [lit "someone"] target_platforms world0).

(** Two videos asked for a platform without configuration. *)
Definition hopeless_batch : option WorkflowResults :=
  batch Samples.always_accepts [Samples.video1; Samples.long_video]
    ["facebook"%string].

(** One video, which the poster of Twitter refuses. *)
Definition refused_batch : option WorkflowResults :=
  batch not_initialized [Samples.video1] ["twitter"%string].

Definition tweet_created (n : nat) (text : str) : result str :=
  Ok (lit "19" ++ format_int (Z.of_nat n)).

Definition chat_unused (n : nat) (prompt : str) : result str :=
  Raise (lit "no provider").

End Fixtures.

(** * Properties *)

(** ** Lengths and slices *)

Lemma len_app {A} (l1 l2 : list A) : len (l1 ++ l2) = len l1 + len l2.
Proof. unfold len. rewrite length_app. lia. Qed.

Lemma len_nonneg {A} (l : list A) : 0 <= len l.
Proof. unfold len. lia. Qed.

Lemma len_nil_iff {A} (l : list A) : len l = 0 <-> l = [].
Proof.
  unfold len. split.
  - intros H. destruct l; [reflexivity | simpl in H; lia].
  - intros ->. reflexivity.
Qed.

Lemma slice_to_nonneg {A} (k : Z) (l : list A) :
  0 <= k -> slice_to k l = take (Z.to_nat k) l.
Proof.
  intros Hk. unfold slice_to.
  destruct (k <? 0) eqn:E; [apply Z.ltb_lt in E; lia | reflexivity].
Qed.

Lemma len_slice_to_le {A} (k : Z) (l : list A) :
  0 <= k -> len (slice_to k l) <= k.
Proof.
  intros Hk. rewrite slice_to_nonneg by assumption.
  unfold len. rewrite length_take. lia.
Qed.

Lemma len_slice_to_exact {A} (k : Z) (l : list A) :
  0 <= k <= len l -> len (slice_to k l) = k.
Proof.
  intros [Hk Hl]. rewrite slice_to_nonneg by assumption.
  unfold len in *. rewrite length_take. lia.
Qed.

Lemma slice_to_incl {A} (k : Z) (l : list A) (x : A) :
  x ∈ slice_to k l -> x ∈ l.
Proof.
  unfold slice_to. destruct (k <? 0); intros H;
    apply list_elem_of_lookup in H as [i Hi];
    apply lookup_take_Some in Hi as [Hi _];
    apply list_elem_of_lookup; eauto.
Qed.

Lemma slice_to_all {A} (k : Z) (l : list A) :
  len l <= k -> slice_to k l = l.
Proof.
  intros Hk. pose proof (len_nonneg l).
  rewrite slice_to_nonneg by lia.
  apply take_ge. unfold len in *. lia.
Qed.

Lemma slice_to_NoDup {A} (k : Z) (l : list A) :
  NoDup l -> NoDup (slice_to k l).
Proof.
  intros H. unfold slice_to.
  destruct (k <? 0);
    match goal with
    | |- NoDup (take ?n l) =>
        rewrite <- (take_drop n l) in H; apply NoDup_app in H as [H _];
        exact H
    end.
Qed.

Lemma endswith_app (p suffix : str) : endswith suffix (p ++ suffix) = true.
Proof.
  unfold endswith. apply bool_decide_eq_true. rewrite length_app. split.
  - replace (length p + length suffix - length suffix)%nat
      with (length p) by lia.
    apply drop_app_length.
  - lia.
Qed.

(** ** The length guard of the text generator *)

Lemma ensure_length_short (max_length : Z) (t : str) :
  len t <= max_length -> ensure_length max_length t = t.
Proof.
  intros H. unfold ensure_length.
  destruct (len t >? max_length) eqn:E; [| reflexivity].
  apply Z.gtb_lt in E. lia.
Qed.

Lemma ensure_length_long (max_length : Z) (t : str) :
  max_length < len t ->
  ensure_length max_length t = slice_to (max_length - 3) t ++ ellipsis.
Proof.
  intros H. unfold ensure_length.
  destruct (len t >? max_length) eqn:E; [reflexivity |].
  rewrite Z.gtb_ltb in E. apply Z.ltb_ge in E. lia.
Qed.

Lemma ensure_length_bound (max_length : Z) (t : str) :
  3 <= max_length -> len (ensure_length max_length t) <= max_length.
Proof.
  intros H3. destruct (Z_lt_le_dec max_length (len t)) as [Hlt | Hle].
  - rewrite ensure_length_long by assumption.
    rewrite len_app.
    pose proof (len_slice_to_le (max_length - 3) t ltac:(lia)).
    change (len ellipsis) with 3. lia.
  - rewrite ensure_length_short by assumption. exact Hle.
Qed.

(** A text longer than the limit is cut to exactly its first
    [max_length - 3] characters and ["..."] is appended; a text within
    the limit is left as it is. *)
Lemma ensure_length_cases (max_length : Z) (t : str) :
  3 <= max_length ->
  len (ensure_length max_length t) <= max_length
  /\ (max_length < len t ->
      ensure_length max_length t
      = take (Z.to_nat (max_length - 3)) t ++ lit "..."
      /\ len (ensure_length max_length t) = max_length
      /\ endswith (lit "...") (ensure_length max_length t) = true)
  /\ (len t <= max_length -> ensure_length max_length t = t).
Proof.
  intros H3. split; [apply ensure_length_bound; exact H3 |]. split.
  - intros Hlong. rewrite ensure_length_long by assumption.
    rewrite slice_to_nonneg by lia.
    split; [reflexivity |]. split.
    + rewrite len_app. unfold len in *. rewrite length_take. simpl. lia.
    + apply endswith_app.
  - apply ensure_length_short.
Qed.

(** ** Hashtag extraction *)

Lemma dedup_first_seen_spec (l seen : list str) :
  NoDup (dedup_first_seen seen l)
  /\ forall x, x ∈ dedup_first_seen seen l <-> x ∈ l /\ x ∉ seen.
Proof.
  revert seen. induction l as [| a l IH]; intros seen; simpl.
  - split; [constructor |]. intros x. split.
    + intros H. inversion H.
    + intros [H _]. inversion H.
  - case_bool_decide as Ha.
    + destruct (IH seen) as [Hnd Hin]. split; [exact Hnd |].
      intros x. rewrite Hin, elem_of_cons. split.
      * intros [H1 H2]. auto.
      * intros [[-> | H1] H2]; [contradiction | auto].
    + destruct (IH (a :: seen)) as [Hnd Hin]. split.
      * constructor; [| exact Hnd].
        rewrite Hin. intros [_ H]. apply H. left.
      * intros x. rewrite !elem_of_cons, Hin, elem_of_cons. split.
        -- intros [-> | [H1 H2]]; [auto |]. split; [auto |].
           intros H. apply H2. right. exact H.
        -- intros [[-> | H1] H2]; [auto |].
           destruct (decide (x = a)) as [-> | Hne]; [auto |].
           right. split; [exact H1 |]. intros [-> | H]; contradiction.
Qed.

Lemma insertion_order_ok : set_order_ok Samples.insertion_order.
Proof.
  intros l. unfold Samples.insertion_order.
  destruct (dedup_first_seen_spec l []) as [Hnd Hin].
  split; [exact Hnd |]. intros x. rewrite Hin. split.
  - intros [H _]. exact H.
  - intros H. split; [exact H |]. intros H'. inversion H'.
Qed.

Lemma reverse_order_ok : set_order_ok Samples.reverse_order.
Proof.
  intros l. unfold Samples.reverse_order.
  destruct (insertion_order_ok l) as [Hnd Hin].
  split.
  - rewrite reverse_Permutation. exact Hnd.
  - intros x. rewrite elem_of_reverse. apply Hin.
Qed.

(** A duplicate-free list whose only possible element is [a], and which
    contains [a], is the singleton. *)
Lemma NoDup_singleton_eq (a : str) (l : list str) :
  NoDup l -> (forall x, x ∈ l <-> x = a) -> l = [a].
Proof.
  intros Hnd Hin. destruct l as [| b l].
  - assert (H : a ∈ @nil str) by (apply Hin; reflexivity). inversion H.
  - assert (b = a) as -> by (apply Hin; left).
    destruct l as [| c l]; [reflexivity |].
    assert (c = a) as -> by (apply Hin; right; left).
    inversion Hnd as [| ? ? Hnotin _]. exfalso. apply Hnotin. left.
Qed.

Section Hashtags.

Variable nonascii_word : char -> bool.
Variable set_to_list : list str -> list str.
Hypothesis set_order : set_order_ok set_to_list.

Local Abbreviation findall := (findall_hashtags nonascii_word).
Local Abbreviation extract := (_extract_hashtags nonascii_word set_to_list).
Local Abbreviation candidates := (hashtag_candidates nonascii_word).

Lemma extract_unfold text original_hashtags limit :
  extract text original_hashtags limit
  = slice_to limit (set_to_list (candidates text original_hashtags)).
Proof. reflexivity. Qed.

Lemma elem_of_candidates text original_hashtags h :
  h ∈ candidates text original_hashtags
  <-> h ∈ findall text
      \/ exists tag, tag ∈ original_hashtags
                     /\ startswith hash_sign tag = false
                     /\ h = hash_sign :: tag.
Proof.
  unfold candidates. rewrite elem_of_app, list_elem_of_fmap.
  split; intros [H | H]; auto; right.
  - destruct H as (tag & -> & Htag).
    apply list_elem_of_In, filter_In in Htag as [Hin Hpre].
    exists tag. split; [apply list_elem_of_In; exact Hin |].
    split; [| reflexivity]. destruct (startswith hash_sign tag); easy.
  - destruct H as (tag & Hin & Hpre & ->). exists tag.
    split; [reflexivity |].
    apply list_elem_of_In, filter_In. split.
    + apply list_elem_of_In. exact Hin.
    + rewrite Hpre. reflexivity.
Qed.

Lemma extract_NoDup text original_hashtags limit :
  NoDup (extract text original_hashtags limit).
Proof.
  rewrite extract_unfold. apply slice_to_NoDup, set_order.
Qed.

Lemma extract_sound text original_hashtags limit h :
  h ∈ extract text original_hashtags limit ->
  h ∈ candidates text original_hashtags.
Proof.
  rewrite extract_unfold. intros H. apply slice_to_incl in H.
  destruct (set_order (candidates text original_hashtags)) as [_ Hin].
  apply Hin. exact H.
Qed.

Lemma length_set_to_list_le (l : list str) :
  (length (set_to_list l) <= length l)%nat.
Proof.
  destruct (set_order l) as [Hnd Hin].
  apply submseteq_length, NoDup_submseteq; [exact Hnd |].
  intros x Hx. apply Hin. exact Hx.
Qed.

Lemma extract_complete text original_hashtags limit h :
  len (candidates text original_hashtags) <= limit ->
  h ∈ candidates text original_hashtags ->
  h ∈ extract text original_hashtags limit.
Proof.
  intros Hlimit Hh. rewrite extract_unfold, slice_to_all.
  - destruct (set_order (candidates text original_hashtags)) as [_ Hin].
    apply Hin. exact Hh.
  - pose proof (length_set_to_list_le (candidates text original_hashtags)).
    unfold len in *. lia.
Qed.

End Hashtags.

Lemma len_candidates_le nonascii_word text (original_hashtags : list str) :
  len (hashtag_candidates nonascii_word text original_hashtags)
  <= len (findall_hashtags nonascii_word text) + len original_hashtags.
Proof.
  unfold hashtag_candidates. rewrite len_app. unfold len.
  rewrite length_fmap.
  apply Z.add_le_mono_l, Nat2Z.inj_le.
  exact (List.filter_length_le
           (fun tag => negb (startswith hash_sign tag)) original_hashtags).
Qed.




Lemma filter_unprefixed_idem (l : list str) :
  List.filter (fun t => negb (startswith hash_sign t))
    (List.filter (fun t => negb (startswith hash_sign t)) l)
  = List.filter (fun t => negb (startswith hash_sign t)) l.
Proof.
  induction l as [| a l IH]; [reflexivity |].
  simpl. destruct (startswith hash_sign a) eqn:Ea; simpl.
  - exact IH.
  - rewrite Ea. simpl. f_equal. exact IH.
Qed.

(** With the originals [["#AI"; "AI"]] and a text without hashtags, the
    output contains ["#AI"], an original with the prefix, although no
    inline hashtag occurs: it is the image of its twin ["AI"]. *)
Lemma prefixed_original_returned_without_inline :
  startswith hash_sign (lit "#AI") = true
  /\ findall_hashtags Samples.ascii_only (lit "no tags") = []
  /\ _extract_hashtags Samples.ascii_only Samples.insertion_order
       (lit "no tags") [lit "#AI"; lit "AI"] 10 = [lit "#AI"].
Proof. repeat split; reflexivity. Qed.

(** C10 (amended): original hashtags that begin with ['#'] contribute
    nothing to the combined list, only those without the prefix are
    prefixed and included; so an original with the prefix is in the
    output only if the identical token is an inline hashtag of the text
    or is ['#' + twin] for another original [twin] without the prefix. *)
Theorem prefixed_original_excluded (nonascii_word : char -> bool)
    (set_to_list : list str -> list str) (text : str)
    (original_hashtags : list str) (limit : Z) (tag : str) :
  set_order_ok set_to_list ->
  tag ∈ original_hashtags ->
  startswith hash_sign tag = true ->
  _extract_hashtags nonascii_word set_to_list text original_hashtags limit
  = _extract_hashtags nonascii_word set_to_list text
      (List.filter (fun t => negb (startswith hash_sign t))
         original_hashtags) limit
  /\ (tag ∈ _extract_hashtags nonascii_word set_to_list text
              original_hashtags limit ->
      tag ∈ findall_hashtags nonascii_word text
      \/ exists twin, twin ∈ original_hashtags
                      /\ startswith hash_sign twin = false
                      /\ tag = hash_sign :: twin).
Proof.
  intros Hset Hin Hpre. split.
  - unfold _extract_hashtags. rewrite filter_unprefixed_idem. reflexivity.
  - intros Hout. apply elem_of_candidates.
    apply (extract_sound _ _ Hset) in Hout. exact Hout.
Qed.

Lemma prefixed_original_excluded_sample :
  set_order_ok Samples.insertion_order
  /\ lit "#AI" ∈ [lit "#AI"; lit "ML"]
  /\ startswith hash_sign (lit "#AI") = true
  /\ _extract_hashtags Samples.ascii_only Samples.insertion_order
       (lit "plain text") [lit "#AI"; lit "ML"] 10
     = _extract_hashtags Samples.ascii_only Samples.insertion_order
         (lit "plain text") [lit "ML"] 10.
Proof.
  split; [exact insertion_order_ok |].
  split; [left |]. split; [reflexivity |].
  apply (prefixed_original_excluded Samples.ascii_only
           Samples.insertion_order (lit "plain text")
           [lit "#AI"; lit "ML"] 10 (lit "#AI") insertion_order_ok);
    [left | reflexivity].
Defined.

(** ** Text generation *)

Lemma ok_pair_inj {A} (a b : A) (w w' : World) :
  (Ok a, w) = (Ok b, w') -> a = b /\ w = w'.
Proof. intros H. inversion H. split; reflexivity. Qed.

Lemma add_hashtags_while_fit_bound (max_length : Z) (hashtags : list str)
    (base_text : str) :
  len (add_hashtags_while_fit max_length base_text hashtags)
  <= Z.max max_length (len base_text).
Proof.
  revert base_text. induction hashtags as [| h hs IH]; intros base_text.
  - simpl. lia.
  - cbn [add_hashtags_while_fit].
    destruct (len base_text + len h + 1 <=? max_length) eqn:E.
    + specialize (IH (base_text ++ space ++ h)).
      rewrite !len_app in IH. change (len space) with 1 in IH.
      apply Z.leb_le in E. lia.
    + lia.
Qed.

Lemma template_length (k : nat) : len (nth k templates []) <= 35.
Proof.
  do 5 (destruct k as [| k]; [vm_compute; discriminate |]).
  destruct k; vm_compute; discriminate.
Qed.

(** The text of the fallback generator for a given pick. *)
Lemma fallback_text_bound (max_length : Z) (k : nat) :
  len (add_hashtags_while_fit max_length (nth k templates [])
         fallback_hashtags)
  <= Z.max max_length 35.
Proof.
  pose proof (add_hashtags_while_fit_bound max_length fallback_hashtags
                (nth k templates [])).
  pose proof (template_length k). lia.
Qed.

Section Generation.

Variable openai_acreate : nat -> str -> Z -> result str.
Variable anthropic_create : nat -> str -> Z -> result str.
Variable random_choice : nat -> nat.
Variable self : TextGenerator.

Local Abbreviation generate :=
  (generate_text openai_acreate anthropic_create random_choice self).

Lemma generate_fallback_run (prompt : str) (max_length : Z) (w : World) :
  _generate_fallback random_choice prompt max_length w
  = (Ok (add_hashtags_while_fit max_length
           (nth (random_choice (random_calls w) mod 5) templates [])
           fallback_hashtags),
     tick_random w).
Proof. reflexivity. Qed.

(** [generate_text] with the default model never raises; its text is a
    provider reply, stripped and guarded, or a fallback text. *)
Lemma generate_text_openai_cases (prompt : str) (max_length : Z)
    (w : World) :
  (openai_available self = true
   /\ exists content,
        openai_acreate (openai_calls w) prompt max_length = Ok content
        /\ generate prompt max_length "openai" w
           = (Ok (ensure_length max_length (strip content)),
              tick_openai w))
  \/ ((openai_available self = false
       \/ exists e,
            openai_acreate (openai_calls w) prompt max_length = Raise e)
      /\ exists w0,
           generate prompt max_length "openai" w
           = (Ok (add_hashtags_while_fit max_length
                    (nth (random_choice (random_calls w0) mod 5)
                         templates [])
                    fallback_hashtags),
              tick_random w0)
           /\ random_calls w0 = random_calls w).
Proof.
  unfold generate_text, try_except. simpl.
  destruct (openai_available self) eqn:Eav; simpl.
  - unfold _generate_with_openai.
    destruct (openai_acreate (openai_calls w) prompt max_length)
      as [content | e] eqn:Ereply.
    + left. split; [reflexivity |]. exists content. split; reflexivity.
    + right. split; [right; exists e; reflexivity |].
      exists (tick_openai w). split; reflexivity.
  - right. split; [left; reflexivity |]. exists w. split; reflexivity.
Qed.

Lemma generate_text_openai_bound (prompt : str) (max_length : Z)
    (w : World) :
  3 <= max_length ->
  exists t w',
    generate prompt max_length "openai" w = (Ok t, w')
    /\ len t <= Z.max max_length 35
    /\ (openai_available self = true ->
        (exists content,
           openai_acreate (openai_calls w) prompt max_length = Ok content) ->
        len t <= max_length).
Proof.
  intros H3.
  destruct (generate_text_openai_cases prompt max_length w)
    as [(Hav & content & Hreply & Hrun)
       | ([Hav | (e & Hreply)] & w0 & Hrun & _)];
    rewrite Hrun; eexists; eexists; (split; [reflexivity |]).
  - pose proof (ensure_length_bound max_length (strip content) H3).
    split; [lia | intros _ _; assumption].
  - split; [apply fallback_text_bound |].
    intros Hav'. congruence.
  - split; [apply fallback_text_bound |].
    intros _ (content & Hreply'). congruence.
Qed.

End Generation.

(** ** Media preparation *)

Lemma prepare_media_run (video_data : VideoData)
    (platform_config : PlatformConfig) (w : World) :
  exists m,
    _prepare_media_for_platform video_data platform_config w = (Ok m, w)
    /\ (media_is_video m = true ->
        Qle_bool (video_duration video_data)
                 (video_max_duration platform_config) = true
        /\ video_file_size video_data
           <= video_max_size platform_config
        /\ media_duration m = video_duration video_data)
    /\ (Qle_bool (video_duration video_data)
                 (video_max_duration platform_config)
        && (video_file_size video_data
            <=? video_max_size platform_config) = false ->
        m = MediaImage (vd_thumbnail_url video_data) thumbnail_note).
Proof.
  unfold _prepare_media_for_platform, try_except.
  destruct (Qle_bool (video_duration video_data)
                     (video_max_duration platform_config)) eqn:Ed;
    destruct (video_file_size video_data
              <=? video_max_size platform_config) eqn:Es; simpl.
  - unfold bind, getitem.
    destruct (vd_video_path video_data) as [path |]; simpl.
    + eexists. split; [reflexivity |]. split; [| discriminate].
      intros _. apply Z.leb_le in Es. auto.
    + eexists. split; [reflexivity |]. split; discriminate.
  - eexists. split; [reflexivity |]. split; [discriminate | reflexivity].
  - eexists. split; [reflexivity |]. split; [discriminate | reflexivity].
  - eexists. split; [reflexivity |]. split; [discriminate | reflexivity].
Qed.

Lemma over_limit_fails_check (video_data : VideoData)
    (platform_config : PlatformConfig) :
  (video_max_duration platform_config < video_duration video_data)%Q
  \/ video_max_size platform_config < video_file_size video_data ->
  Qle_bool (video_duration video_data)
           (video_max_duration platform_config)
  && (video_file_size video_data <=? video_max_size platform_config)
  = false.
Proof.
  intros [Hd | Hs].
  - apply andb_false_iff. left.
    destruct (Qle_bool _ _) eqn:E; [| reflexivity].
    apply Qle_bool_iff in E. exfalso. revert E. apply Qlt_not_le. exact Hd.
  - apply andb_false_iff. right. apply Z.leb_gt. exact Hs.
Qed.

(** ** One platform *)

Section Transform.

Variable nonascii_word : char -> bool.
Variable set_to_list : list str -> list str.
Variable analyze_video_content : str -> str -> World -> Analysis * World.
Variable openai_acreate : nat -> str -> Z -> result str.
Variable anthropic_create : nat -> str -> Z -> result str.
Variable random_choice : nat -> nat.
Variable PLATFORM_CONFIGS : gmap string PlatformConfig.
Variable CONTENT_PROMPTS : gmap string PromptTemplate.
Variable text_generator : TextGenerator.

Local Abbreviation transform :=
  (_transform_for_platform nonascii_word set_to_list openai_acreate
     anthropic_create random_choice PLATFORM_CONFIGS CONTENT_PROMPTS
     text_generator).

(** [_transform_for_platform] never raises. *)
Lemma transform_never_raises video_data analysis name w :
  exists c w', transform video_data analysis name w = (Ok c, w').
Proof.
  unfold _transform_for_platform, try_except.
  destruct (bind _ _ w) as [[c | e] w']; eauto.
Qed.

(** What a content dictionary returned by [_transform_for_platform] is
    made of. *)
Lemma transform_inv video_data analysis name w c w' :
  transform video_data analysis name w = (Ok (Some c), w') ->
  exists platform_config template caption id w1,
    PLATFORM_CONFIGS !! name = Some platform_config
    /\ CONTENT_PROMPTS !! name = Some template
    /\ vd_caption video_data = Some caption
    /\ vd_id video_data = Some id
    /\ generate_text openai_acreate anthropic_create random_choice
         text_generator
         (format_prompt template caption
            (default [] (an_description analysis)))
         (max_length platform_config) "openai" w
       = (Ok (text c), w1)
    /\ _prepare_media_for_platform video_data platform_config w1
       = (Ok (media c), w')
    /\ hashtags c
       = _extract_hashtags nonascii_word set_to_list (text c)
           (default [] (vd_hashtags video_data))
           (hashtag_limit platform_config)
    /\ original_id c = id
    /\ platform c = name.
Proof.
  unfold _transform_for_platform, try_except, bind, getitem.
  destruct (PLATFORM_CONFIGS !! name) as [platform_config |];
    [| simpl; intros H; inversion H].
  destruct (CONTENT_PROMPTS !! name) as [template |];
    [| simpl; intros H; inversion H].
  destruct (vd_caption video_data) as [caption |];
    [| simpl; intros H; inversion H].
  cbn [ret raise].
  destruct (generate_text _ _ _ _ _ _ _ w) as [[t | e] w1] eqn:Egen;
    [| intros H; inversion H].
  destruct (_prepare_media_for_platform video_data platform_config w1)
    as [[m | e] w2] eqn:Emedia; [| intros H; inversion H].
  destruct (vd_id video_data) as [id |];
    [| simpl; intros H; inversion H].
  cbn [ret]. intros H. inversion H; subst; clear H. cbn.
  exists platform_config, template, caption, id, w1.
  repeat split; auto.
Qed.

End Transform.

(** ** The validation gates *)

Lemma validate_with_spec (text_limit : Z) (duration_limit : Q)
    (content_data : ContentDict) :
  validate_with text_limit duration_limit content_data = false
  <-> content_data = None
      \/ exists content,
           content_data = Some content
           /\ (text content = []
               \/ text_limit < len (text content)
               \/ (media_is_video (media content) = true
                   /\ (duration_limit < media_duration (media content))%Q)).
Proof.
  unfold validate_with. destruct content_data as [content |].
  2: { split; [intros _; left; reflexivity | reflexivity]. }
  destruct (text content) as [| c0 t0] eqn:Et.
  { split; [| reflexivity]. intros _. right. exists content.
    split; [reflexivity |]. left. exact Et. }
  destruct (len (c0 :: t0) >? text_limit) eqn:El.
  { split; [| reflexivity]. intros _. right. exists content.
    split; [reflexivity |]. right. left. rewrite Et.
    apply Z.gtb_lt in El. lia. }
  assert (Hl : ~ text_limit < len (text content)).
  { rewrite Et. rewrite Z.gtb_ltb in El. apply Z.ltb_ge in El. lia. }
  destruct (media_is_video (media content)) eqn:Ev; simpl.
  - destruct (Qle_bool (media_duration (media content)) duration_limit)
      eqn:Ed; simpl.
    + split; [discriminate |].
      intros [H | (c' & Hc & Hcases)]; [discriminate |].
      inversion Hc; subst c'. destruct Hcases as [H | [H | [_ H]]].
      * congruence.
      * contradiction.
      * apply Qle_bool_iff in Ed. exfalso. revert Ed.
        apply Qlt_not_le. exact H.
    + split; [| reflexivity]. intros _. right. exists content.
      split; [reflexivity |]. right. right. split; [exact Ev |].
      apply Qnot_le_lt. intros H. apply Qle_bool_iff in H. congruence.
  - split; [discriminate |].
    intros [H | (c' & Hc & Hcases)]; [discriminate |].
    inversion Hc; subst c'. destruct Hcases as [H | [H | [H _]]].
    + congruence.
    + contradiction.
    + congruence.
Qed.

(** A Twitter post with a short video of 512 MB plus one byte passes the
    gate, although its size is over the limit of the Twitter profile. *)
Lemma twitter_gate_ignores_size :
  TwitterAgent._validate_content
    (Some (Samples.post "hi" Samples.big_video)) = true
  /\ profile_gate_rejects Samples.twitter_profile
       (Samples.post "hi" Samples.big_video) = true.
Proof. split; reflexivity. Qed.

(** C5 (amended): the gate of the Twitter agent rejects a post if and
    only if the post has no text, or the text is empty, or the text has
    more than 280 characters, or the media is a video longer than 140
    seconds; the gate of the LinkedIn agent does the same with 3000
    characters and 600 seconds.  The limits are constants of the agents,
    and the size of the video is not examined. *)
Theorem validate_content_rejects_iff (content_data : ContentDict) :
  (TwitterAgent._validate_content content_data = false
   <-> content_data = None
       \/ exists content,
            content_data = Some content
            /\ (text content = []
                \/ 280 < len (text content)
                \/ (media_is_video (media content) = true
                    /\ (140 < media_duration (media content))%Q)))
  /\ (LinkedInAgent._validate_content content_data = false
      <-> content_data = None
          \/ exists content,
               content_data = Some content
               /\ (text content = []
                   \/ 3000 < len (text content)
                   \/ (media_is_video (media content) = true
                       /\ (600 < media_duration (media content))%Q))).
Proof.
  split; apply validate_with_spec.
Qed.

Lemma twitter_gate_accepts_bound (content : PlatformContent) :
  TwitterAgent._validate_content (Some content) = true ->
  0 < len (text content) <= 280.
Proof.
  intros Hv.
  destruct (Z_lt_le_dec 280 (len (text content))) as [Hlong | Hok].
  - assert (H : TwitterAgent._validate_content (Some content) = false).
    { apply validate_with_spec. right. exists content. auto. }
    congruence.
  - split; [| exact Hok].
    destruct (text content) as [| c0 t0] eqn:Et.
    + assert (H : TwitterAgent._validate_content (Some content) = false).
      { apply validate_with_spec. right. exists content. auto. }
      congruence.
    + unfold len. simpl. lia.
Qed.

(** ** The adapted post *)

Section AdaptedPost.

Variable nonascii_word : char -> bool.
Variable set_to_list : list str -> list str.
Variable openai_acreate : nat -> str -> Z -> result str.
Variable anthropic_create : nat -> str -> Z -> result str.
Variable random_choice : nat -> nat.
Variable PLATFORM_CONFIGS : gmap string PlatformConfig.
Variable CONTENT_PROMPTS : gmap string PromptTemplate.
Variable text_generator : TextGenerator.

Local Abbreviation transform :=
  (_transform_for_platform nonascii_word set_to_list openai_acreate
     anthropic_create random_choice PLATFORM_CONFIGS CONTENT_PROMPTS
     text_generator).

(** What holds of every transformed post, for a profile with a text
    limit of at least 3 and a hashtag limit of at least 0: it has at
    most [hashtag_limit] hashtags, and its text has at most [max_length]
    characters when the provider answered the call or when [max_length]
    is at least 35.  The gate of the Twitter agent accepts a post only
    if its text has between 1 and 280 characters. *)
Theorem transform_within_bounds (video_data : VideoData)
    (analysis : Analysis) (name : string) (profile : PlatformConfig)
    (w w' : World) (content : PlatformContent) :
  PLATFORM_CONFIGS !! name = Some profile ->
  3 <= max_length profile ->
  0 <= hashtag_limit profile ->
  transform video_data analysis name w = (Ok (Some content), w') ->
  len (hashtags content) <= hashtag_limit profile
  /\ len (text content) <= Z.max (max_length profile) 35
  /\ (35 <= max_length profile
      \/ (openai_available text_generator = true
          /\ forall prompt, exists reply,
               openai_acreate (openai_calls w) prompt (max_length profile)
               = Ok reply) ->
      len (text content) <= max_length profile)
  /\ (TwitterAgent._validate_content (Some content) = true ->
      0 < len (text content) <= 280).
Proof.
  intros Hprofile H3 Hlimit Hrun.
  apply transform_inv in Hrun
    as (cfg & template & caption & id & w1 & Hcfg & _ & _ & _ & Hgen
        & _ & Htags & _ & _).
  rewrite Hprofile in Hcfg. inversion Hcfg; subst cfg; clear Hcfg.
  destruct (generate_text_openai_bound openai_acreate anthropic_create
              random_choice text_generator
              (format_prompt template caption
                 (default [] (an_description analysis)))
              (max_length profile) w H3)
    as (t & w2 & Hgen' & Hgeneral & Hprovider).
  rewrite Hgen in Hgen'. apply ok_pair_inj in Hgen' as [Ht Hw].
  subst t w2.
  split; [rewrite Htags; apply len_slice_to_le; exact Hlimit |].
  split; [exact Hgeneral |].
  split; [| apply twitter_gate_accepts_bound].
  intros [Hwide | [Hav Hreply]].
  - lia.
  - apply Hprovider; [exact Hav | apply Hreply].
Qed.

(** C4: when the duration or the size of the video is over the limit of
    the profile, the media of the transformed post is the image
    reference with the thumbnail and the note, never a video. *)
Theorem oversized_video_degrades_to_image (video_data : VideoData)
    (analysis : Analysis) (name : string) (profile : PlatformConfig)
    (w w' : World) (content : PlatformContent) :
  PLATFORM_CONFIGS !! name = Some profile ->
  (video_max_duration profile < video_duration video_data)%Q
  \/ video_max_size profile < video_file_size video_data ->
  transform video_data analysis name w = (Ok (Some content), w') ->
  media content
  = MediaImage (vd_thumbnail_url video_data)
      (lit "Video too large/long for platform, using thumbnail")
  /\ media_is_video (media content) = false
  /\ returned (_prepare_media_for_platform video_data profile w)
     = Some (media content).
Proof.
  intros Hprofile Hover Hrun.
  apply transform_inv in Hrun
    as (cfg & template & caption & id & w1 & Hcfg & _ & _ & _ & _
        & Hmedia & _).
  rewrite Hprofile in Hcfg. inversion Hcfg; subst cfg; clear Hcfg.
  destruct (prepare_media_run video_data profile w1)
    as (m & Hrun1 & _ & Himage).
  rewrite Hmedia in Hrun1. inversion Hrun1; subst m.
  specialize (Himage (over_limit_fails_check _ _ Hover)).
  rewrite Himage. split; [reflexivity |]. split; [reflexivity |].
  destruct (prepare_media_run video_data profile w)
    as (m' & Hrun' & _ & Himage').
  rewrite Hrun'. simpl. f_equal.
  apply Himage', over_limit_fails_check, Hover.
Qed.

End AdaptedPost.

(** C1 (defect of the code): with [max_length = 10] and no provider,
    [generate_text] returns a fallback template whole, 23 characters,
    although [max_length] is documented as the maximum length of the
    generated text and the provider path, at the same limit, cuts its
    text down to 10 characters.  The transformed post for a profile of
    10 characters carries the 23 characters, and the gate of the Twitter
    agent accepts it. *)
Theorem fallback_text_exceeds_small_profile :
  returned (generate_text Samples.provider_down Samples.provider_down
              (Samples.always_pick 3) Samples.without_providers [] 10
              "openai" world0)
  = Some (lit "You have to see this! " ++ [128064%N])
  /\ 10 < len (lit "You have to see this! " ++ [128064%N])
  /\ returned (generate_text (Samples.replies "You have to see this! Now")
                 Samples.provider_down (Samples.always_pick 3)
                 Samples.with_openai [] 10 "openai" world0)
     = Some (lit "You hav...")
  /\ text <$> Samples.small_profile_post
     = Some (lit "You have to see this! " ++ [128064%N])
  /\ max_length (Samples.profile 10 10)
     < len (lit "You have to see this! " ++ [128064%N])
  /\ TwitterAgent._validate_content Samples.small_profile_post = true.
Proof. repeat split; vm_compute; reflexivity. Qed.

Lemma transform_within_bounds_twitter :
  exists content w',
    Samples.transform_with (Samples.replies "  Big launch today #AI #AI  ")
      0 (PLATFORM_CONFIGS default_settings) Samples.with_openai
      Samples.video1
    = (Ok (Some content), w')
    /\ len (hashtags content) <= 10
    /\ len (text content) <= 280.
Proof.
  eexists. eexists. split; [vm_compute; reflexivity |].
  destruct (transform_within_bounds Samples.ascii_only
              Samples.insertion_order
              (Samples.replies "  Big launch today #AI #AI  ")
              Samples.provider_down (Samples.always_pick 0)
              (PLATFORM_CONFIGS default_settings) CONTENT_PROMPTS
              Samples.with_openai Samples.video1 Samples.analysis0
              "twitter" Samples.twitter_profile world0)
    with (w' := tick_openai world0)
         (content :=
            {| text := lit "Big launch today #AI #AI";
               hashtags := [lit "#AI"];
               media :=
                 MediaVideo (lit "/tmp/v1.mp4") 30%Q 1000000
                   (Some (lit "https://cdn/v1.jpg"));
               original_id := lit "v1";
               platform := "twitter";
               engagement_score := 0%Q;
               topics := [];
               sentiment := lit "neutral" |})
    as (Htags & _ & Htext & _).
  - reflexivity.
  - simpl. lia.
  - simpl. lia.
  - reflexivity.
  - split; [exact Htags |]. apply Htext. left. simpl. lia.
Defined.

Lemma oversized_video_degrades_to_image_twitter :
  exists content w',
    (video_max_duration Samples.twitter_profile
     < video_duration Samples.long_video)%Q
    /\ Samples.transform_with (Samples.replies "Watch the keynote") 0
         (PLATFORM_CONFIGS default_settings) Samples.with_openai
         Samples.long_video
       = (Ok (Some content), w')
    /\ media_is_video (media content) = false.
Proof.
  eexists. eexists. split; [reflexivity |].
  split; [vm_compute; reflexivity |].
  apply (oversized_video_degrades_to_image Samples.ascii_only
           Samples.insertion_order (Samples.replies "Watch the keynote")
           Samples.provider_down (Samples.always_pick 0)
           (PLATFORM_CONFIGS default_settings) CONTENT_PROMPTS
           Samples.with_openai Samples.long_video Samples.analysis0
           "twitter" Samples.twitter_profile world0 (tick_openai world0)).
  - reflexivity.
  - left. reflexivity.
  - reflexivity.
Defined.

(** ** The rule-based text transforms *)

Lemma split_on_nonempty (sep : char) (s : str) : split_on sep s <> [].
Proof.
  destruct s as [| c s]; simpl; [discriminate |].
  destruct (c =? sep)%N; [discriminate |].
  destruct (split_on sep s); discriminate.
Qed.

(** The guard [sentences[0] if sentences else caption] never raises. *)
Lemma main_content_of_ok (caption : str) :
  exists main_content, main_content_of caption = Ok main_content.
Proof.
  unfold main_content_of.
  pose proof (split_on_nonempty full_stop caption) as Hne.
  destruct (split_on full_stop caption) as [| s0 rest];
    [contradiction | simpl; eauto].
Qed.

Lemma split_ws_from_nil_iff (s cur : str) :
  split_ws_from cur s = [] <-> cur = [] /\ forallb isspace s = true.
Proof.
  revert cur. induction s as [| c s IH]; intros cur; simpl.
  - destruct cur; split; try discriminate; auto.
    intros [H _]. discriminate.
  - destruct (isspace c) eqn:Ec; simpl.
    + destruct cur as [| c0 cur0].
      * rewrite IH. tauto.
      * split; [discriminate |]. intros [H _]. discriminate.
    + rewrite IH. split; [intros [H _]; discriminate |].
      intros [_ H]. discriminate.
Qed.

Lemma split_ws_from_words (s cur : str) :
  Forall (fun word => word <> []) (split_ws_from cur s).
Proof.
  revert cur. induction s as [| c s IH]; intros cur; simpl.
  - destruct cur as [| c0 cur0]; [constructor |].
    constructor; [| constructor].
    intros H. apply (f_equal length) in H.
    rewrite length_reverse in H. discriminate.
  - destruct (isspace c).
    + destruct cur as [| c0 cur0]; [apply IH |].
      constructor; [| apply IH].
      intros H. apply (f_equal length) in H.
      rewrite length_reverse in H. discriminate.
    + apply IH.
Qed.

Lemma join_nil_iff (sep : str) (parts : list str) :
  Forall (fun word => word <> []) parts ->
  (join sep parts = [] <-> parts = []).
Proof.
  intros Hparts. split; [| intros ->; reflexivity].
  destruct parts as [| p ps]; [reflexivity |].
  inversion Hparts as [| ? ? Hp _]; subst.
  simpl. destruct ps; intros H.
  - contradiction.
  - apply app_eq_nil in H as [H _]. contradiction.
Qed.

Lemma take_words_nil_iff (n : nat) (words : list str) :
  take (S n) words = [] <-> words = [].
Proof. destruct words; simpl; split; auto; discriminate. Qed.

(** The closing guard of both transforms. *)
Lemma tail_guard (limit : Z) (t : str) :
  3 <= limit ->
  len (if len t >? limit then slice_to (limit - 3) t ++ ellipsis else t)
  <= limit
  /\ ((if len t >? limit then slice_to (limit - 3) t ++ ellipsis else t)
      = [] <-> t = []).
Proof.
  intros H3.
  change (if len t >? limit then slice_to (limit - 3) t ++ ellipsis else t)
    with (ensure_length limit t).
  split; [apply ensure_length_bound; exact H3 |].
  destruct (Z_lt_le_dec limit (len t)) as [Hlong | Hshort].
  - rewrite ensure_length_long by exact Hlong. split.
    + intros H. apply app_eq_nil in H as [_ H]. discriminate.
    + intros ->. unfold len in Hlong. simpl in Hlong. lia.
  - rewrite ensure_length_short by exact Hshort. reflexivity.
Qed.

(** A caption whose first sentence is empty makes [optimize_for_twitter]
    return the empty string. *)
Lemma optimize_for_twitter_empty_output :
  lit "." <> []
  /\ optimize_for_twitter (lit ".") 5000 3 [lit "#AI"] = Ok [].
Proof. split; [discriminate | reflexivity]. Qed.

(** C6 (amended): both rule-based transforms are total, they return a
    string for every caption, likes, comments and hashtags.  The result
    of [_rule_based_transform] is never empty, for any caption, and has
    at most 280 characters.  The result of [optimize_for_twitter] has at
    most 250 characters and is empty exactly when the first sentence of
    the caption, the text before the first full stop, consists of
    whitespace only. *)
Theorem rule_based_transforms_total (caption : str) (likes comments : Z)
    (hashtags : list str) :
  (exists transformed,
     _rule_based_transform caption likes comments hashtags = Ok transformed
     /\ transformed <> []
     /\ len transformed <= 280)
  /\ (exists content main_content,
        optimize_for_twitter caption likes comments hashtags = Ok content
        /\ main_content_of caption = Ok main_content
        /\ len content <= 250
        /\ (content = [] <-> forallb isspace main_content = true)).
Proof.
  destruct (main_content_of_ok caption) as [main_content Hmain].
  unfold _rule_based_transform, optimize_for_twitter. rewrite Hmain.
  split.
  - eexists. split; [reflexivity |].
    match goal with
    | |- (if len ?t >? 280 then _ else _) <> [] /\ _ =>
        destruct (tail_guard 280 t ltac:(lia)) as [Hlen Hnil];
        change (280 - 3) with 277 in Hlen, Hnil
    end.
    split; [| exact Hlen].
    intros H. apply Hnil in H.
    apply app_eq_nil in H as [_ H]. discriminate.
  - eexists. exists main_content. split; [reflexivity |].
    split; [reflexivity |].
    destruct (tail_guard 250 (join space (take 35 (split_ws main_content)))
                ltac:(lia)) as [Hlen Hnil].
    change (250 - 3) with 247 in Hlen, Hnil.
    split; [exact Hlen |].
    rewrite Hnil. rewrite join_nil_iff.
    + rewrite take_words_nil_iff. unfold split_ws.
      rewrite split_ws_from_nil_iff. tauto.
    + apply Forall_take, split_ws_from_words.
Qed.

(** ** Truncation where the code applies it *)

(** The provider path cuts the stripped reply at character
    [max_length - 3] wherever that falls: with a limit of 10,
    ["hello world foo"] becomes ["hello w..."], cut inside a word
    although a whitespace boundary was available.  A reply that is
    longer than the limit only by its surrounding whitespace is not cut
    at all: one space and 280 times ['a'], 281 characters, come back as
    the 280 times ['a'], without ["..."]. *)
Lemma provider_text_cut_inside_word :
  (10 < len (lit "hello world foo")
   /\ boundary_available 10 (lit "hello world foo") = true
   /\ returned (_generate_with_openai
                  (Fixtures.answers (lit "hello world foo")) [] 10 world0)
      = Some (lit "hello w" ++ lit "...")
   /\ cut_at_whitespace (lit "hello world foo") (lit "hello w") = false)
  /\ (280 < len (space ++ replicate 280 97%N)
      /\ returned (_generate_with_openai
                     (Fixtures.answers (space ++ replicate 280 97%N)) []
                     280 world0)
         = Some (replicate 280 97%N)
      /\ endswith (lit "...") (replicate 280 97%N) = false).
Proof. repeat split; vm_compute; reflexivity. Qed.

Lemma rule_based_transform_guard (caption : str) (likes comments : Z)
    (hashtags : list str) :
  exists composed,
    rule_based_text caption likes comments hashtags = Ok composed
    /\ _rule_based_transform caption likes comments hashtags
       = Ok (ensure_length 280 composed).
Proof.
  destruct (main_content_of_ok caption) as [main_content Hmain].
  unfold rule_based_text, _rule_based_transform. rewrite Hmain.
  eexists. split; reflexivity.
Qed.

(** C2 (amended): the text a provider answers is stripped of its
    surrounding whitespace first.  For a limit of at least 3, a stripped
    text longer than [max_length] is cut to exactly its first
    [max_length - 3] characters, with no adjustment to a whitespace
    boundary, and ["..."] is appended: the result has exactly
    [max_length] characters; a stripped text within the limit is
    returned whole, whatever the length of the raw reply.  Either way
    the result has at most [max_length] characters.  The same holds for
    both providers, and for the text composed by [_rule_based_transform]
    with the limit 280. *)
Theorem text_shaping_truncates :
  (forall (provider : nat -> str -> Z -> result str)
          (prompt raw_text : str) (max_length : Z) (w : World),
     3 <= max_length ->
     (provider (openai_calls w) prompt max_length = Ok raw_text ->
      exists generated_text,
        _generate_with_openai provider prompt max_length w
        = (Ok generated_text, tick_openai w)
        /\ len generated_text <= max_length
        /\ (max_length < len (strip raw_text) ->
            generated_text
            = take (Z.to_nat (max_length - 3)) (strip raw_text)
              ++ lit "..."
            /\ len generated_text = max_length
            /\ endswith (lit "...") generated_text = true)
        /\ (len (strip raw_text) <= max_length ->
            generated_text = strip raw_text))
     /\ (provider (anthropic_calls w) prompt max_length = Ok raw_text ->
         exists generated_text,
           _generate_with_anthropic provider prompt max_length w
           = (Ok generated_text, tick_anthropic w)
           /\ len generated_text <= max_length
           /\ (max_length < len (strip raw_text) ->
               generated_text
               = take (Z.to_nat (max_length - 3)) (strip raw_text)
                 ++ lit "..."
               /\ len generated_text = max_length
               /\ endswith (lit "...") generated_text = true)
           /\ (len (strip raw_text) <= max_length ->
               generated_text = strip raw_text)))
  /\ (forall (caption : str) (likes comments : Z) (hashtags : list str),
        exists composed transformed,
          rule_based_text caption likes comments hashtags = Ok composed
          /\ _rule_based_transform caption likes comments hashtags
             = Ok transformed
          /\ len transformed <= 280
          /\ (280 < len composed ->
              transformed = take 277 composed ++ lit "..."
              /\ len transformed = 280
              /\ endswith (lit "...") transformed = true)
          /\ (len composed <= 280 -> transformed = composed)).
Proof.
  split.
  - intros provider prompt raw_text max_length w H3.
    pose proof (ensure_length_cases max_length (strip raw_text) H3)
      as Hcases.
    split; intros Hreply.
    + unfold _generate_with_openai. rewrite Hreply. cbv zeta.
      eexists. split; [reflexivity | exact Hcases].
    + unfold _generate_with_anthropic. rewrite Hreply. cbv zeta.
      eexists. split; [reflexivity | exact Hcases].
  - intros caption likes comments hashtags.
    destruct (rule_based_transform_guard caption likes comments hashtags)
      as (composed & Hcomposed & Hrun).
    exists composed, (ensure_length 280 composed).
    split; [exact Hcomposed |]. split; [exact Hrun |].
    apply (ensure_length_cases 280 composed). lia.
Qed.

(** The scenario of the specification: limit 280, a reply of 300 times
    ['a']. *)
Lemma text_shaping_300_a :
  exists generated_text,
    _generate_with_openai (Fixtures.answers (replicate 300 97%N)) [] 280
      world0
    = (Ok generated_text, tick_openai world0)
    /\ len generated_text = 280
    /\ endswith (lit "...") generated_text = true.
Proof.
  destruct (proj1 (proj1 text_shaping_truncates
                     (Fixtures.answers (replicate 300 97%N)) []
                     (replicate 300 97%N) 280 world0 ltac:(lia))
              eq_refl)
    as (generated_text & Hrun & _ & Hlong & _).
  exists generated_text. split; [exact Hrun |].
  destruct Hlong as (_ & Hlen & Hend); [vm_compute; reflexivity |].
  split; [exact Hlen | exact Hend].
Defined.

(** ** Batch posting *)

Section Batch.

Variable post_tweet : nat -> PostData -> result PosterReply.

Local Abbreviation post_content := (TwitterAgent.post_content post_tweet).
Local Abbreviation post_all := (TwitterAgent.post_all post_tweet).

(** [post_content] never raises: an exception of the poster becomes a
    failed result.  The poster is called exactly when the content passes
    the gate. *)
Lemma post_content_run (content_data : ContentDict) (w : World) :
  exists result,
    post_content content_data w
    = (Ok result,
       if TwitterAgent._validate_content content_data
       then tick_twitter w else w)
    /\ (forall e tweet_data,
          TwitterAgent._validate_content content_data = true ->
          post_tweet (twitter_calls w) tweet_data = Raise e ->
          returned (TwitterAgent._prepare_tweet_data content_data w)
          = Some tweet_data ->
          result = NotPosted (Some e)).
Proof.
  unfold TwitterAgent.post_content, try_except.
  destruct (TwitterAgent._validate_content content_data) eqn:Ev; simpl.
  - destruct content_data as [content |]; [| discriminate].
    unfold bind, TwitterAgent._prepare_tweet_data, getitem,
      TwitterAgent.call_post_tweet. simpl.
    destruct (post_tweet (twitter_calls w) _) as [reply | e] eqn:Ecall.
    + destruct (reply_success reply); eexists;
        (split; [reflexivity |]); intros e td _ Hraise Htd;
        inversion Htd; subst td; congruence.
    + eexists. split; [reflexivity |]. intros e' td _ Hraise Htd.
      inversion Htd; subst td. congruence.
  - eexists. split; [reflexivity |]. intros e td H. discriminate.
Qed.

(** What [post_content] records for a content, from the answer of the
    poster to the call made for it. *)
Lemma post_content_recorded (content_data : ContentDict) (w : World) :
  exists result,
    post_content content_data w
    = (Ok result,
       if TwitterAgent._validate_content content_data
       then tick_twitter w else w)
    /\ recorded_for "twitter" TwitterAgent._validate_content
         TwitterAgent._prepare_tweet_data post_tweet (twitter_calls w)
         content_data result.
Proof.
  unfold TwitterAgent.post_content, try_except, recorded_for.
  destruct (TwitterAgent._validate_content content_data) eqn:Ev;
    cbn [negb]; [| eexists; split; reflexivity].
  destruct content_data as [content |]; [| discriminate].
  unfold bind, TwitterAgent._prepare_tweet_data, getitem,
    TwitterAgent.call_post_tweet. simpl.
  match goal with
  | |- context [post_tweet (twitter_calls w) ?d] =>
      destruct (post_tweet (twitter_calls w) d) as [reply | e] eqn:Ecall
  end.
  - destruct (reply_success reply) eqn:Es; eexists;
      (split; [reflexivity |]); eexists;
      (split; [intros w0; reflexivity |]); cbv zeta; rewrite Ecall;
      unfold publisher_failed, publisher_error; rewrite Es; cbn [negb].
    + exists reply. split; reflexivity.
    + reflexivity.
  - eexists. split; [reflexivity |]. eexists.
    split; [intros w0; reflexivity |]. cbv zeta. rewrite Ecall.
    reflexivity.
Qed.

(** The number of poster calls depends on the contents alone. *)
Lemma twitter_calls_after (content_data : ContentDict) (w : World) :
  twitter_calls
    (if TwitterAgent._validate_content content_data
     then tick_twitter w else w)
  = (twitter_calls w
     + if TwitterAgent._validate_content content_data then 1 else 0)%nat.
Proof.
  destruct (TwitterAgent._validate_content content_data); simpl; lia.
Qed.

(** The loop handles every content: whatever the earlier results, each
    content adds exactly one result, obtained by [post_content] at a
    world in which the poster has received one call per earlier content
    that passed the gate. *)
Lemma post_all_run (content_list : list ContentDict) :
  forall (results : list PostResult) (w : World),
  exists new_results w',
    post_all content_list results w = (Ok (results ++ new_results), w')
    /\ length new_results = length content_list
    /\ twitter_calls w'
       = (twitter_calls w
          + length (List.filter TwitterAgent._validate_content
                      content_list))%nat
    /\ (forall i content_data,
          content_list !! i = Some content_data ->
          exists wi,
            twitter_calls wi
            = (twitter_calls w
               + length (List.filter TwitterAgent._validate_content
                           (take i content_list)))%nat
            /\ Some <$> new_results !! i
               = Some (returned (post_content content_data wi))).
Proof.
  induction content_list as [| content_data rest IH]; intros results w.
  - exists [], w. simpl. rewrite app_nil_r.
    split; [reflexivity |]. split; [reflexivity |].
    split; [lia |]. intros i c H. rewrite lookup_nil in H. discriminate.
  - cbn [TwitterAgent.post_all].
    unfold bind at 1.
    set (delay := match results with [] => ret tt | _ => sleep 30 end).
    assert (Hdelay : exists w0, delay w = (Ok tt, w0)
                                /\ twitter_calls w0 = twitter_calls w).
    { subst delay. destruct results; eexists; split; reflexivity. }
    destruct Hdelay as (w0 & -> & Hcalls0).
    unfold bind at 1.
    destruct (post_content_run content_data w0) as (result & Hrun & _).
    rewrite Hrun.
    destruct (IH (results ++ [result])
                (if TwitterAgent._validate_content content_data
                 then tick_twitter w0 else w0))
      as (rs & w' & Hrest & Hlen & Hcalls & Hith).
    exists (result :: rs), w'.
    split; [rewrite Hrest, <- app_assoc; reflexivity |].
    split; [simpl; rewrite Hlen; reflexivity |].
    rewrite twitter_calls_after in Hcalls, Hith.
    split.
    + rewrite Hcalls. cbn [List.filter].
      destruct (TwitterAgent._validate_content content_data); simpl; lia.
    + intros [| i] c Hc.
      * simpl in Hc. inversion Hc; subst c. exists w0.
        split; [simpl; lia |]. simpl. rewrite Hrun. reflexivity.
      * simpl in Hc. destruct (Hith i c Hc) as (wi & Hwi & Hres).
        exists wi. split; [| exact Hres].
        rewrite Hwi. cbn [take List.filter].
        destruct (TwitterAgent._validate_content content_data);
          simpl; lia.
Qed.

(** Every content of the batch is recorded, in order, with the answer
    to the call made for it: the call whose number is the number of
    earlier contents that passed the gate. *)
Lemma post_all_recorded (content_list : list ContentDict) (w : World) :
  exists results w',
    TwitterAgent.execute_posting post_tweet content_list w
    = (Ok results, w')
    /\ length results = length content_list
    /\ twitter_calls w'
       = (twitter_calls w
          + length (List.filter TwitterAgent._validate_content
                      content_list))%nat
    /\ (forall i content_data,
          content_list !! i = Some content_data ->
          exists result,
            results !! i = Some result
            /\ recorded_for "twitter" TwitterAgent._validate_content
                 TwitterAgent._prepare_tweet_data post_tweet
                 (twitter_calls w
                  + length (List.filter TwitterAgent._validate_content
                              (take i content_list)))
                 content_data result).
Proof.
  destruct (post_all_run content_list [] w)
    as (rs & w' & Hrun & Hlen & Hcalls & Hith).
  exists rs, w'. unfold TwitterAgent.execute_posting.
  split; [exact Hrun |]. split; [exact Hlen |]. split; [exact Hcalls |].
  intros i content_data Hi.
  destruct (Hith i content_data Hi) as (wi & Hwi & Hres).
  destruct (post_content_recorded content_data wi)
    as (result & Hpost & Hrec).
  rewrite Hpost in Hres. cbn [returned] in Hres.
  exists result. rewrite Hwi in Hrec. split; [| exact Hrec].
  destruct (rs !! i) as [r |]; cbn in Hres; congruence.
Qed.

Lemma post_all_records (content_list : list ContentDict) (w : World) :
  exists results w',
    TwitterAgent.execute_posting post_tweet content_list w
    = (Ok results, w')
    /\ Forall2 (fun content_data result =>
                  exists n,
                    recorded_for "twitter" TwitterAgent._validate_content
                      TwitterAgent._prepare_tweet_data post_tweet n
                      content_data result)
               content_list results.
Proof.
  destruct (post_all_recorded content_list w)
    as (rs & w' & Hrun & Hlen & _ & Hith).
  exists rs, w'. split; [exact Hrun |].
  apply Forall2_same_length_lookup_2; [symmetry; exact Hlen |].
  intros i content_data result Hc Hr.
  destruct (Hith i content_data Hc) as (result' & Hr' & Hrec).
  rewrite Hr in Hr'. inversion Hr'; subst result'.
  eexists. exact Hrec.
Qed.

End Batch.

(** C8: [execute_posting] returns one result per content of the batch,
    in order, whatever the poster does.  A content that passes the gate
    gets one call of the poster; a failure of that call, be it a raised
    exception or an answer without success, is recorded as a failed
    result carrying the error value, and any other answer as a success.
    The loop goes on after a failure: the call made for a content is the
    one numbered by the earlier contents that passed the gate, failed or
    not.  For three posts, with a poster whose second call raises, or
    whose second call is refused, the results are a success, a failure
    and a success, and the poster has been called three times. *)
Theorem execute_posting_continues_after_failure :
  (forall (post_tweet : nat -> PostData -> result PosterReply)
          (content_list : list ContentDict) (w : World),
     exists results w',
       TwitterAgent.execute_posting post_tweet content_list w
       = (Ok results, w')
       /\ length results = length content_list
       /\ twitter_calls w'
          = (twitter_calls w
             + length (List.filter TwitterAgent._validate_content
                         content_list))%nat
       /\ (forall i content_data,
             content_list !! i = Some content_data ->
             exists result,
               results !! i = Some result
               /\ recorded_for "twitter" TwitterAgent._validate_content
                    TwitterAgent._prepare_tweet_data post_tweet
                    (twitter_calls w
                     + length (List.filter TwitterAgent._validate_content
                                 (take i content_list)))
                    content_data result))
  /\ (forall (post_tweet : nat -> PostData -> result PosterReply)
             (content : PlatformContent) (n : nat) (result : PostResult),
        TwitterAgent._validate_content (Some content) = true ->
        recorded_for "twitter" TwitterAgent._validate_content
          TwitterAgent._prepare_tweet_data post_tweet n (Some content)
          result ->
        exists tweet_data,
          pd_text tweet_data = text content
          /\ match post_tweet n tweet_data with
             | Raise e => result = NotPosted (Some e)
             | Ok reply =>
                 if reply_success reply
                 then result = Posted (reply_id reply) (reply_url reply)
                                 "twitter" (Some (original_id content))
                 else result = NotPosted (reply_error reply)
             end)
  /\ (exists w',
        TwitterAgent.execute_posting Samples.second_call_raises
          [ Some (Samples.post "first" MediaNone);
            Some (Samples.post "second" MediaNone);
            Some (Samples.post "third" MediaNone) ] world0
        = (Ok [ Posted (Some (lit "tweet-0")) None "twitter"
                  (Some (lit "v1"));
                NotPosted (Some (lit "connection reset"));
                Posted (Some (lit "tweet-2")) None "twitter"
                  (Some (lit "v1")) ], w')
        /\ twitter_calls w' = 3%nat)
  /\ (exists w',
        TwitterAgent.execute_posting Fixtures.second_call_refused
          [ Some (Samples.post "first" MediaNone);
            Some (Samples.post "second" MediaNone);
            Some (Samples.post "third" MediaNone) ] world0
        = (Ok [ Posted (Some (lit "tweet-0")) None "twitter"
                  (Some (lit "v1"));
                NotPosted (Some (lit "Failed to create tweet"));
                Posted (Some (lit "tweet-2")) None "twitter"
                  (Some (lit "v1")) ], w')
        /\ twitter_calls w' = 3%nat).
Proof.
  split; [| split; [| split]].
  - intros post_tweet content_list w.
    apply post_all_recorded.
  - intros post_tweet content n result Hv Hrec.
    unfold recorded_for in Hrec. rewrite Hv in Hrec.
    destruct Hrec as (tweet_data & Hprepare & Hrec).
    exists tweet_data. split.
    + specialize (Hprepare world0).
      unfold TwitterAgent._prepare_tweet_data, bind, getitem in Hprepare.
      cbn [ret] in Hprepare. apply ok_pair_inj in Hprepare as [<- _].
      reflexivity.
    + cbv zeta in Hrec. unfold publisher_failed, publisher_error in Hrec.
      destruct (post_tweet n tweet_data) as [reply | e];
        [| exact Hrec].
      destruct (reply_success reply); cbn [negb] in Hrec;
        [| exact Hrec].
      destruct Hrec as (reply' & Hreply & ->).
      inversion Hreply; subst reply'. reflexivity.
  - eexists. split; [vm_compute; reflexivity | reflexivity].
  - eexists. split; [vm_compute; reflexivity | reflexivity].
Qed.

(** The refused call of the scenario, read off the general statement. *)
Lemma execute_posting_refused_sample :
  exists results w',
    TwitterAgent.execute_posting Fixtures.second_call_refused
      [ Some (Samples.post "first" MediaNone);
        Some (Samples.post "second" MediaNone);
        Some (Samples.post "third" MediaNone) ] world0
    = (Ok results, w')
    /\ results !! 1%nat
       = Some (NotPosted (Some (lit "Failed to create tweet"))).
Proof.
  destruct (proj1 execute_posting_continues_after_failure
              Fixtures.second_call_refused
              [ Some (Samples.post "first" MediaNone);
                Some (Samples.post "second" MediaNone);
                Some (Samples.post "third" MediaNone) ] world0)
    as (results & w' & Hrun & _ & _ & Hith).
  exists results, w'. split; [exact Hrun |].
  destruct (Hith 1%nat (Some (Samples.post "second" MediaNone)) eq_refl)
    as (result & Hres & Hrec).
  rewrite Hres. f_equal.
  destruct (proj1 (proj2 execute_posting_continues_after_failure)
              Fixtures.second_call_refused
              (Samples.post "second" MediaNone) _ result eq_refl Hrec)
    as (tweet_data & _ & Hcase).
  vm_compute in Hcase. exact Hcase.
Defined.

(** ** Determinism *)

Lemma prepare_media_world_independent (video_data : VideoData)
    (platform_config : PlatformConfig) (w1 w2 : World) :
  returned (_prepare_media_for_platform video_data platform_config w1)
  = returned (_prepare_media_for_platform video_data platform_config w2).
Proof.
  unfold _prepare_media_for_platform, try_except.
  destruct (Qle_bool _ _ && (_ <=? _)); [| reflexivity].
  unfold bind, getitem.
  destruct (vd_video_path video_data); reflexivity.
Qed.

(** Without a provider, the text of the post depends on the template
    [random.choice] picks: the same video, analysis and profile give two
    different posts in two runs. *)
Lemma fallback_text_depends_on_draw :
  text <$> Samples.fallback_post 0
  = Some (lit "Check out this amazing content! " ++ [128293%N]
          ++ lit " #viral #amazing #content #video #social")
  /\ text <$> Samples.fallback_post 3
     = Some (lit "You have to see this! " ++ [128064%N]
             ++ lit " #viral #amazing #content #video #social")
  /\ Samples.fallback_post 0 <> Samples.fallback_post 3.
Proof.
  split; [reflexivity |]. split; [reflexivity |].
  intros H. apply (f_equal (fmap text)) in H.
  vm_compute in H. discriminate.
Qed.

Section Determinism.

Variable nonascii_word : char -> bool.
Variable set_to_list : list str -> list str.
Variable PLATFORM_CONFIGS : gmap string PlatformConfig.
Variable CONTENT_PROMPTS : gmap string PromptTemplate.
Variable text_generator : TextGenerator.

(** C7 (amended): two calls of the transformation with the same video,
    analysis and platform, in the same process (same set order), made
    at any two states of the collaborators, return posts with the same
    media, source identifier and platform, which are identical as soon
    as their texts are; the texts are the same when the provider gives
    both calls the same answer and [random.choice] picks the same
    template in both.  The fallback text itself is drawn at random. *)
Theorem transform_deterministic_given_draws
    (openai1 openai2 anthropic1 anthropic2 : nat -> str -> Z -> result str)
    (random1 random2 : nat -> nat)
    (video_data : VideoData) (analysis : Analysis) (name : string)
    (w1 w1' w2 w2' : World) (c1 c2 : PlatformContent) :
  _transform_for_platform nonascii_word set_to_list openai1 anthropic1
    random1 PLATFORM_CONFIGS CONTENT_PROMPTS text_generator video_data
    analysis name w1 = (Ok (Some c1), w1') ->
  _transform_for_platform nonascii_word set_to_list openai2 anthropic2
    random2 PLATFORM_CONFIGS CONTENT_PROMPTS text_generator video_data
    analysis name w2 = (Ok (Some c2), w2') ->
  media c1 = media c2
  /\ original_id c1 = original_id c2
  /\ platform c1 = platform c2
  /\ (text c1 = text c2 -> c1 = c2)
  /\ ((forall prompt max_length,
         openai1 (openai_calls w1) prompt max_length
         = openai2 (openai_calls w2) prompt max_length) ->
      (random1 (random_calls w1) mod 5 = random2 (random_calls w2) mod 5)%nat ->
      c1 = c2).
Proof.
  intros Hrun1 Hrun2.
  pose proof Hrun1 as Hinv1. pose proof Hrun2 as Hinv2.
  apply transform_inv in Hinv1
    as (cfg & template & caption & id & v1 & Hcfg & Htpl & Hcap & Hid
        & Hgen1 & Hmedia1 & Htags1 & Hid1 & Hname1).
  apply transform_inv in Hinv2
    as (cfg' & template' & caption' & id' & v2 & Hcfg' & Htpl' & Hcap'
        & Hid' & Hgen2 & Hmedia2 & Htags2 & Hid2 & Hname2).
  rewrite Hcfg in Hcfg'. rewrite Htpl in Htpl'. rewrite Hcap in Hcap'.
  rewrite Hid in Hid'.
  inversion Hcfg'; inversion Htpl'; inversion Hcap'; inversion Hid'.
  subst cfg' template' caption' id'. clear Hcfg' Htpl' Hcap' Hid'.
  assert (Hmedia : media c1 = media c2).
  { pose proof (prepare_media_world_independent video_data cfg v1 v2)
      as H.
    rewrite Hmedia1, Hmedia2 in H. simpl in H. congruence. }
  assert (Hsame : text c1 = text c2 -> c1 = c2).
  { intros Htext. rewrite Htext in Htags1. rewrite <- Htags2 in Htags1.
    revert Hrun1 Hrun2.
    unfold _transform_for_platform, try_except, bind, getitem.
    rewrite Hcfg, Htpl, Hcap. cbn [ret].
    rewrite Hgen1, Hgen2, Hmedia1, Hmedia2, Hid. cbn [ret].
    intros E1 E2. injection E1 as Ec1. injection E2 as Ec2.
    rewrite <- Ec1 at 1. rewrite <- Ec2 at 1.
    rewrite Htext, Hmedia. reflexivity. }
  split; [exact Hmedia |]. split; [congruence |]. split; [congruence |].
  split; [exact Hsame |].
  intros Hreply Hdraw. apply Hsame.
  set (prompt := format_prompt template caption
                   (default [] (an_description analysis))) in *.
  destruct (generate_text_openai_cases openai1 anthropic1 random1
              text_generator prompt (max_length cfg) w1)
    as [(Hav1 & content1 & Hreply1 & Hg1)
       | (Hdown1 & u1 & Hg1 & Hu1)];
    destruct (generate_text_openai_cases openai2 anthropic2 random2
                text_generator prompt (max_length cfg) w2)
      as [(Hav2 & content2 & Hreply2 & Hg2)
         | (Hdown2 & u2 & Hg2 & Hu2)];
    rewrite Hgen1 in Hg1; rewrite Hgen2 in Hg2;
    apply ok_pair_inj in Hg1 as [Ht1 Hw1];
    apply ok_pair_inj in Hg2 as [Ht2 Hw2].
  - rewrite Hreply in Hreply1. congruence.
  - exfalso. destruct Hdown2 as [Hoff | (e & Hraise)]; [congruence |].
    rewrite Hreply in Hreply1. congruence.
  - exfalso. destruct Hdown1 as [Hoff | (e & Hraise)]; [congruence |].
    rewrite Hreply in Hraise. congruence.
  - rewrite Ht1, Ht2, Hu1, Hu2, Hdraw. reflexivity.
Qed.

End Determinism.

Lemma transform_deterministic_sample :
  exists c1 c2 w1' w2',
    _transform_for_platform Samples.ascii_only Samples.insertion_order
      (Samples.replies "Launch day #AI") Samples.provider_down
      (Samples.always_pick 0) (PLATFORM_CONFIGS default_settings)
      CONTENT_PROMPTS Samples.with_openai Samples.video1
      Samples.analysis0 "twitter" world0 = (Ok (Some c1), w1')
    /\ _transform_for_platform Samples.ascii_only Samples.insertion_order
         (Samples.replies_again "Launch day #AI") Samples.provider_down
         (Samples.always_pick 2) (PLATFORM_CONFIGS default_settings)
         CONTENT_PROMPTS Samples.with_openai Samples.video1
         Samples.analysis0 "twitter" Samples.later_world
       = (Ok (Some c2), w2')
    /\ media c1 = media c2.
Proof.
  eexists. eexists. eexists. eexists.
  split; [vm_compute; reflexivity |].
  split; [vm_compute; reflexivity |].
  apply (transform_deterministic_given_draws Samples.ascii_only
           Samples.insertion_order (PLATFORM_CONFIGS default_settings)
           CONTENT_PROMPTS Samples.with_openai
           (Samples.replies "Launch day #AI")
           (Samples.replies_again "Launch day #AI")
           Samples.provider_down Samples.provider_down
           (Samples.always_pick 0) (Samples.always_pick 2)
           Samples.video1 Samples.analysis0 "twitter"
           world0 (tick_openai world0)
           Samples.later_world (tick_openai Samples.later_world));
    reflexivity.
Defined.

(** ** The batch and its summary *)

Lemma linkedin_post_content_run
    (create_post : nat -> PostData -> result PosterReply)
    (content_data : ContentDict) (w : World) :
  exists result w',
    LinkedInAgent.post_content create_post content_data w = (Ok result, w').
Proof.
  unfold LinkedInAgent.post_content, try_except.
  match goal with
  | |- context [match ?body w with _ => _ end] =>
      destruct (body w) as [[r | e] w']
  end; eexists; eexists; reflexivity.
Qed.

Lemma linkedin_post_all_run
    (create_post : nat -> PostData -> result PosterReply)
    (content_list : list ContentDict) :
  forall (results : list PostResult) (w : World),
  exists new_results w',
    LinkedInAgent.post_all create_post content_list results w
    = (Ok (results ++ new_results), w')
    /\ length new_results = length content_list.
Proof.
  induction content_list as [| content_data rest IH]; intros results w.
  - exists [], w. simpl. rewrite app_nil_r. split; reflexivity.
  - cbn [LinkedInAgent.post_all]. unfold bind at 1.
    set (delay := match results with [] => ret tt | _ => sleep 60 end).
    assert (Hdelay : exists w0, delay w = (Ok tt, w0)).
    { subst delay. destruct results; eexists; reflexivity. }
    destruct Hdelay as (w0 & ->). unfold bind at 1.
    destruct (linkedin_post_content_run create_post content_data w0)
      as (result & w1 & ->).
    destruct (IH (results ++ [result]) w1) as (rs & w' & Hrest & Hlen).
    exists (result :: rs), w'. split.
    + rewrite Hrest, <- app_assoc. reflexivity.
    + simpl. rewrite Hlen. reflexivity.
Qed.

Lemma linkedin_post_content_recorded
    (create_post : nat -> PostData -> result PosterReply)
    (content_data : ContentDict) (w : World) :
  exists result w',
    LinkedInAgent.post_content create_post content_data w = (Ok result, w')
    /\ recorded_for "linkedin" LinkedInAgent._validate_content
         LinkedInAgent._prepare_post_data create_post (linkedin_calls w)
         content_data result.
Proof.
  unfold LinkedInAgent.post_content, try_except, recorded_for.
  destruct (LinkedInAgent._validate_content content_data) eqn:Ev;
    cbn [negb]; [| eexists; eexists; split; reflexivity].
  destruct content_data as [content |]; [| discriminate].
  unfold LinkedInAgent._prepare_post_data, getitem,
    LinkedInAgent.call_create_post, bind. simpl.
  match goal with
  | |- context [create_post (linkedin_calls w) ?d] =>
      destruct (create_post (linkedin_calls w) d) as [reply | e] eqn:Ecall
  end.
  - destruct (reply_success reply) eqn:Es; eexists; eexists;
      (split; [reflexivity |]); eexists;
      (split; [intros w0; reflexivity |]); cbv zeta; rewrite Ecall;
      unfold publisher_failed, publisher_error; rewrite Es; cbn [negb].
    + exists reply. split; reflexivity.
    + reflexivity.
  - eexists. eexists. split; [reflexivity |]. eexists.
    split; [intros w0; reflexivity |]. cbv zeta. rewrite Ecall.
    reflexivity.
Qed.

Lemma linkedin_post_all_records
    (create_post : nat -> PostData -> result PosterReply)
    (content_list : list ContentDict) :
  forall (results : list PostResult) (w : World),
  exists new_results w',
    LinkedInAgent.post_all create_post content_list results w
    = (Ok (results ++ new_results), w')
    /\ Forall2 (fun content_data result =>
                  exists n,
                    recorded_for "linkedin"
                      LinkedInAgent._validate_content
                      LinkedInAgent._prepare_post_data create_post n
                      content_data result)
               content_list new_results.
Proof.
  induction content_list as [| content_data rest IH]; intros results w.
  - exists [], w. simpl. rewrite app_nil_r. split; [reflexivity |].
    constructor.
  - cbn [LinkedInAgent.post_all]. unfold bind at 1.
    set (delay := match results with [] => ret tt | _ => sleep 60 end).
    assert (Hdelay : exists w0, delay w = (Ok tt, w0)).
    { subst delay. destruct results; eexists; reflexivity. }
    destruct Hdelay as (w0 & ->). unfold bind at 1.
    destruct (linkedin_post_content_recorded create_post content_data w0)
      as (result & w1 & -> & Hrec).
    destruct (IH (results ++ [result]) w1) as (rs & w' & Hrest & Hall).
    exists (result :: rs), w'. split.
    + rewrite Hrest, <- app_assoc. reflexivity.
    + constructor; [eexists; exact Hrec | exact Hall].
Qed.

Section Workflow.

Variable nonascii_word : char -> bool.
Variable set_to_list : list str -> list str.
Variable analyze_video_content : str -> str -> World -> Analysis * World.
Variable openai_acreate : nat -> str -> Z -> result str.
Variable anthropic_create : nat -> str -> Z -> result str.
Variable random_choice : nat -> nat.
Variable PLATFORM_CONFIGS : gmap string PlatformConfig.
Variable CONTENT_PROMPTS : gmap string PromptTemplate.
Variable text_generator : TextGenerator.
Variable post_tweet : nat -> PostData -> result PosterReply.
Variable create_post : nat -> PostData -> result PosterReply.
Variable execute_extraction : list str -> result (list VideoData).

Local Abbreviation transform_all :=
  (transform_platforms nonascii_word set_to_list openai_acreate
     anthropic_create random_choice PLATFORM_CONFIGS CONTENT_PROMPTS
     text_generator).
Local Abbreviation transform_one :=
  (transform_content nonascii_word set_to_list analyze_video_content
     openai_acreate anthropic_create random_choice PLATFORM_CONFIGS
     CONTENT_PROMPTS text_generator).
Local Abbreviation transform_list :=
  (transform_videos nonascii_word set_to_list analyze_video_content
     openai_acreate anthropic_create random_choice PLATFORM_CONFIGS
     CONTENT_PROMPTS text_generator).
Local Abbreviation post_platforms :=
  (_execute_posting post_tweet create_post).

Lemma transform_platforms_run video_data analysis target_platforms :
  forall acc w,
  exists m w',
    transform_all video_data analysis target_platforms acc w = (Ok m, w').
Proof.
  induction target_platforms as [| name rest IH]; intros acc w.
  - eexists. eexists. reflexivity.
  - cbn [transform_platforms].
    destruct (PLATFORM_CONFIGS !! name); [| apply IH].
    unfold bind at 1.
    destruct (transform_never_raises nonascii_word set_to_list
                openai_acreate anthropic_create random_choice
                PLATFORM_CONFIGS CONTENT_PROMPTS text_generator
                video_data analysis name w) as (c & w1 & ->).
    apply IH.
Qed.

Lemma transform_content_run video_data target_platforms w :
  exists m w',
    transform_one video_data target_platforms w = (Ok m, w')
    /\ (m <> ∅ -> has_required_keys video_data).
Proof.
  unfold transform_content, try_except, bind at 1, getitem.
  destruct (vd_id video_data) as [id |] eqn:Eid; cbn [ret raise];
    [| exists ∅, w; split; [reflexivity | intros H; contradiction]].
  unfold bind at 1.
  destruct (vd_video_path video_data) as [path |] eqn:Epath;
    cbn [ret raise];
    [| exists ∅, w; split; [reflexivity | intros H; contradiction]].
  unfold bind at 1.
  destruct (vd_caption video_data) as [caption |] eqn:Ecap;
    cbn [ret raise];
    [| exists ∅, w; split; [reflexivity | intros H; contradiction]].
  unfold bind at 1.
  destruct (analyze_video_content path caption w) as [analysis w1].
  destruct (transform_platforms_run video_data analysis target_platforms
              ∅ w1) as (m & w' & ->).
  exists m, w'. split; [reflexivity |]. intros _.
  unfold has_required_keys. rewrite Eid, Epath, Ecap.
  repeat split; eexists; reflexivity.
Qed.

(** [execute_transformation] keeps, in order, the videos whose
    transformed content is not empty, and leaves the others out. *)
Lemma transform_videos_run video_data_list target_platforms :
  forall acc w,
  exists kept w',
    transform_list video_data_list target_platforms acc w
    = (Ok (acc ++ kept), w')
    /\ sublist (original_video <$> kept) video_data_list
    /\ Forall (fun t => has_required_keys (original_video t)
                        /\ transformed_content t <> ∅) kept.
Proof.
  induction video_data_list as [| video_data rest IH]; intros acc w.
  - exists [], w. simpl. rewrite app_nil_r.
    split; [reflexivity |]. split; constructor.
  - cbn [transform_videos]. unfold bind at 1.
    destruct (transform_content_run video_data target_platforms w)
      as (m & w1 & -> & Hkeys).
    case_bool_decide as Hm.
    + destruct (IH acc w1) as (kept & w' & -> & Hsub & Hall).
      exists kept, w'. split; [reflexivity |].
      split; [apply sublist_cons; exact Hsub | exact Hall].
    + destruct (IH (acc ++ [ {| original_video := video_data;
                                transformed_content := m |} ]) w1)
        as (kept & w' & -> & Hsub & Hall).
      exists ({| original_video := video_data;
                 transformed_content := m |} :: kept), w'.
      split; [rewrite <- app_assoc; reflexivity |].
      split; [apply sublist_skip; exact Hsub |].
      constructor; [| exact Hall]. simpl. auto.
Qed.

End Workflow.

Section Summary.

Variable nonascii_word : char -> bool.
Variable set_to_list : list str -> list str.
Variable analyze_video_content : str -> str -> World -> Analysis * World.
Variable openai_acreate : nat -> str -> Z -> result str.
Variable anthropic_create : nat -> str -> Z -> result str.
Variable random_choice : nat -> nat.
Variable PLATFORM_CONFIGS : gmap string PlatformConfig.
Variable CONTENT_PROMPTS : gmap string PromptTemplate.
Variable text_generator : TextGenerator.
Variable post_tweet : nat -> PostData -> result PosterReply.
Variable create_post : nat -> PostData -> result PosterReply.
Variable execute_extraction : list str -> result (list VideoData).

Local Abbreviation post_platforms :=
  (_execute_posting post_tweet create_post).
Lemma one_result_per_content_insert ts posted name rs :
  one_result_per_content ts posted ->
  length rs = length (content_for name ts) ->
  one_result_per_content ts (<[name := ResultList rs]> posted).
Proof.
  intros Hinv Hlen name' rs' Hlookup.
  destruct (decide (name = name')) as [<- | Hne].
  - rewrite lookup_insert_eq in Hlookup. congruence.
  - rewrite lookup_insert_ne in Hlookup by exact Hne.
    apply Hinv. exact Hlookup.
Qed.

Lemma execute_posting_run ts target_platforms :
  forall posted w,
    one_result_per_content ts posted ->
    exists posted' w',
      post_platforms ts target_platforms posted w = (Ok posted', w')
      /\ one_result_per_content ts posted'.
Proof.
  induction target_platforms as [| name rest IH]; intros posted w Hinv.
  - exists posted, w. split; [reflexivity | exact Hinv].
  - cbn [_execute_posting]. unfold bind at 1, try_except.
    match goal with
    | |- context [match ?body w with _ => _ end] =>
        assert (exists p1 w1, body w = (Ok p1, w1)
                              /\ one_result_per_content ts p1)
          as (p1 & w1 & -> & Hinv1)
    end.
    { destruct (content_for name ts) as [| c cs] eqn:Ec.
      { exists posted, w. split; [reflexivity | exact Hinv]. }
      case_bool_decide as Htw.
      { subst name. unfold bind, TwitterAgent.execute_posting.
        destruct (post_all_run post_tweet (c :: cs) [] w)
          as (rs & w1 & -> & Hlen & _).
        eexists. eexists. split; [reflexivity |].
        apply one_result_per_content_insert; [exact Hinv |].
        rewrite Ec. exact Hlen. }
      case_bool_decide as Hli.
      { subst name. unfold bind, LinkedInAgent.execute_posting.
        destruct (linkedin_post_all_run create_post (c :: cs) [] w)
          as (rs & w1 & -> & Hlen).
        eexists. eexists. split; [reflexivity |].
        apply one_result_per_content_insert; [exact Hinv |].
        rewrite Ec. exact Hlen. }
      exists posted, w. split; [reflexivity | exact Hinv]. }
    apply IH. exact Hinv1.
Qed.

(** The list stored for a platform records the contents transformed
    for it, one by one. *)
Lemma execute_posting_records ts target_platforms :
  forall posted w,
    (forall name rs,
       posted !! name = Some (ResultList rs) ->
       records_of post_tweet create_post name (content_for name ts) rs) ->
    exists posted' w',
      post_platforms ts target_platforms posted w = (Ok posted', w')
      /\ (forall name rs,
            posted' !! name = Some (ResultList rs) ->
            records_of post_tweet create_post name (content_for name ts)
              rs).
Proof.
  induction target_platforms as [| name rest IH]; intros posted w Hinv.
  - exists posted, w. split; [reflexivity | exact Hinv].
  - cbn [_execute_posting]. unfold bind at 1, try_except.
    match goal with
    | |- context [match ?body w with _ => _ end] =>
        assert (exists p1 w1,
                  body w = (Ok p1, w1)
                  /\ (forall name' rs,
                        p1 !! name' = Some (ResultList rs) ->
                        records_of post_tweet create_post name'
                          (content_for name' ts) rs))
          as (p1 & w1 & -> & Hinv1)
    end.
    { assert (Hins : forall rs,
                records_of post_tweet create_post name
                  (content_for name ts) rs ->
                forall name' rs',
                  <[name := ResultList rs]> posted !! name'
                  = Some (ResultList rs') ->
                  records_of post_tweet create_post name'
                    (content_for name' ts) rs').
      { intros rs Hrs name' rs' Hlookup.
        destruct (decide (name = name')) as [<- | Hne].
        - rewrite lookup_insert_eq in Hlookup.
          inversion Hlookup; subst rs'. exact Hrs.
        - rewrite lookup_insert_ne in Hlookup by exact Hne.
          apply Hinv. exact Hlookup. }
      destruct (content_for name ts) as [| c cs] eqn:Ec.
      { exists posted, w. split; [reflexivity | exact Hinv]. }
      case_bool_decide as Htw.
      { subst name. unfold bind.
        destruct (post_all_records post_tweet (c :: cs) w)
          as (rs & w1 & -> & Hall).
        eexists. eexists. split; [reflexivity |].
        apply Hins. left. split; [reflexivity | exact Hall]. }
      case_bool_decide as Hli.
      { subst name. unfold bind, LinkedInAgent.execute_posting.
        destruct (linkedin_post_all_records create_post (c :: cs) [] w)
          as (rs & w1 & -> & Hall).
        eexists. eexists. split; [reflexivity |].
        apply Hins. right. split; [reflexivity | exact Hall]. }
      exists posted, w. split; [reflexivity | exact Hinv]. }
    apply IH. exact Hinv1.
Qed.

Lemma summary_counts (wr : WorkflowResults) (name : string)
    (rs : list PostResult) :
  posting_results wr !! name = Some (ResultList rs) ->
  total <$> (posting_summary (_generate_workflow_summary wr) !! name)
  = Some (length rs)
  /\ successful
     <$> (posting_summary (_generate_workflow_summary wr) !! name)
     = Some (length (List.filter succeeded rs)).
Proof.
  intros Hlookup. unfold _generate_workflow_summary. simpl.
  rewrite lookup_omap, Hlookup. simpl. split; reflexivity.
Qed.

End Summary.

(** * Further properties of the code *)

(** ** Lines and stripping *)

Lemma len_slice_to_le_len {A} (k : Z) (l : list A) :
  len (slice_to k l) <= len l.
Proof.
  unfold slice_to, len. destruct (k <? 0); rewrite length_take; lia.
Qed.

Lemma slice_to_nil {A} (k : Z) : slice_to k (@nil A) = [].
Proof. unfold slice_to. destruct (k <? 0); apply take_nil. Qed.

Lemma split_on_no_sep (sep : char) (s : str) :
  Forall (fun piece => sep ∉ piece) (split_on sep s).
Proof.
  induction s as [| c s IH]; simpl.
  - constructor; [| constructor]. intros H. inversion H.
  - destruct (c =? sep)%N eqn:Ec.
    + constructor; [| exact IH]. intros H. inversion H.
    + destruct (split_on sep s) as [| piece pieces].
      * constructor; [| constructor].
        intros H. apply list_elem_of_singleton in H. subst c.
        rewrite N.eqb_refl in Ec. discriminate.
      * inversion IH as [| ? ? Hpiece Hpieces]; subst.
        constructor; [| exact Hpieces].
        intros H. apply elem_of_cons in H as [-> | H].
        -- rewrite N.eqb_refl in Ec. discriminate.
        -- contradiction.
Qed.

Lemma elem_of_lstrip (x : char) (s : str) : x ∈ lstrip s -> x ∈ s.
Proof.
  induction s as [| c s IH]; simpl; [auto |].
  destruct (isspace c); [| auto]. intros H. right. apply IH. exact H.
Qed.

Lemma elem_of_strip (x : char) (s : str) : x ∈ strip s -> x ∈ s.
Proof.
  unfold strip, rstrip. intros H.
  apply elem_of_lstrip in H. rewrite elem_of_reverse in H.
  apply elem_of_lstrip in H. rewrite elem_of_reverse in H. exact H.
Qed.

(** ** The hashtag and thread generators *)

Lemma collect_hashtags_spec (max_hashtags : Z) (lines : list str) :
  Forall (fun line => newline_char ∉ line) lines ->
  forall hashtags,
    Forall (fun h => startswith hash_sign h = true /\ newline_char ∉ h)
           hashtags ->
    len hashtags <= Z.max 0 max_hashtags ->
    Forall (fun h => startswith hash_sign h = true /\ newline_char ∉ h)
           (collect_hashtags max_hashtags lines hashtags)
    /\ len (collect_hashtags max_hashtags lines hashtags)
       <= Z.max 0 max_hashtags.
Proof.
  induction 1 as [| line rest Hline Hrest IH]; intros hashtags Hall Hlen.
  - simpl. auto.
  - cbn [collect_hashtags].
    destruct (startswith hash_sign (strip line)) eqn:Estart; simpl.
    + destruct (len hashtags <? max_hashtags) eqn:Eroom.
      * apply IH.
        -- apply Forall_app. split; [exact Hall |].
           constructor; [| constructor]. split; [exact Estart |].
           intros H. apply Hline, elem_of_strip. exact H.
        -- rewrite len_app. change (len [strip line]) with 1.
           apply Z.ltb_lt in Eroom. lia.
      * apply IH; assumption.
    + apply IH; assumption.
Qed.

Lemma collect_tweets_spec (max_tweets : Z) (lines : list str) :
  Forall (fun line => newline_char ∉ line) lines ->
  forall tweets,
    Forall (fun t => t <> [] /\ len t <= 280 /\ newline_char ∉ t) tweets ->
    tweets = [] \/ len tweets < max_tweets ->
    Forall (fun t => t <> [] /\ len t <= 280 /\ newline_char ∉ t)
           (collect_tweets max_tweets lines tweets)
    /\ len (collect_tweets max_tweets lines tweets) <= Z.max 1 max_tweets.
Proof.
  induction 1 as [| line rest Hline Hrest IH]; intros tweets Hall Hinv.
  - simpl. split; [exact Hall |].
    destruct Hinv as [-> | Hlt]; [unfold len; simpl; lia |].
    eapply Z.le_trans; [apply Z.lt_le_incl; exact Hlt | lia].
  - cbn [collect_tweets].
    destruct (strip line) as [| c0 t0] eqn:Estrip; [apply IH; assumption |].
    destruct (len (c0 :: t0) <=? 280) eqn:Efit; [| apply IH; assumption].
    cbv zeta.
    assert (Hall' : Forall (fun t => t <> [] /\ len t <= 280
                                     /\ newline_char ∉ t)
                           (tweets ++ [c0 :: t0])).
    { apply Forall_app. split; [exact Hall |].
      constructor; [| constructor]. split; [discriminate |].
      split; [apply Z.leb_le; exact Efit |].
      intros H. apply Hline, elem_of_strip. rewrite Estrip. exact H. }
    match goal with
    | |- context [if ?full then _ else _] => destruct full eqn:Efull
    end.
    + split; [exact Hall' |].
      rewrite len_app. change (len [c0 :: t0]) with 1.
      destruct Hinv as [-> | Hlt]; [unfold len; simpl; lia |].
      apply Z.le_trans with max_tweets; [| lia].
      apply Zlt_le_succ in Hlt. exact Hlt.
    + apply IH; [exact Hall' |]. right.
      rewrite Z.geb_leb in Efull. apply Z.leb_gt in Efull. exact Efull.
Qed.

Section MoreGeneration.

Variable openai_acreate : nat -> str -> Z -> result str.
Variable anthropic_create : nat -> str -> Z -> result str.
Variable random_choice : nat -> nat.
Variable self : TextGenerator.

Local Abbreviation generate :=
  (generate_text openai_acreate anthropic_create random_choice self).

Lemma generate_text_run (prompt : str) (max_length : Z)
    (model : string) (w : World) :
  exists t w',
    generate prompt max_length model w = (Ok t, w')
    /\ (3 <= max_length -> len t <= Z.max max_length 35)
    /\ (openai_calls w' <= S (openai_calls w))%nat
    /\ (anthropic_calls w' <= S (anthropic_calls w))%nat
    /\ (random_calls w' <= S (random_calls w))%nat
    /\ twitter_calls w' = twitter_calls w
    /\ linkedin_calls w' = linkedin_calls w.
Proof.
  unfold generate_text, try_except.
  destruct (bool_decide (model = "openai"%string)
            && openai_available self).
  - unfold _generate_with_openai.
    destruct (openai_acreate (openai_calls w) prompt max_length)
      as [content | e].
    + eexists. eexists. split; [reflexivity |].
      split; [| simpl; repeat split; lia].
      intros H3. pose proof (ensure_length_bound max_length
                               (strip content) H3). lia.
    + rewrite generate_fallback_run.
      eexists. eexists. split; [reflexivity |].
      split; [intros _; apply fallback_text_bound |].
      simpl. repeat split; lia.
  - destruct (bool_decide (model = "anthropic"%string)
              && anthropic_available self).
    + unfold _generate_with_anthropic.
      destruct (anthropic_create (anthropic_calls w) prompt max_length)
        as [content | e].
      * eexists. eexists. split; [reflexivity |].
        split; [| simpl; repeat split; lia].
        intros H3. pose proof (ensure_length_bound max_length
                                 (strip content) H3). lia.
      * rewrite generate_fallback_run.
        eexists. eexists. split; [reflexivity |].
        split; [intros _; apply fallback_text_bound |].
        simpl. repeat split; lia.
    + rewrite generate_fallback_run.
      eexists. eexists. split; [reflexivity |].
      split; [intros _; apply fallback_text_bound |].
      simpl. repeat split; lia.
Qed.

(** X1: [generate_text] never raises, whatever the model name and
    whatever the providers do: it returns a text after at most one call
    to each provider and at most one random draw, and for a limit of at
    least 3 the text has at most [max (max_length) 35] characters. *)
Theorem generate_text_never_raises (prompt : str) (max_length : Z)
    (model : string) (w : World) :
  exists t w',
    generate prompt max_length model w = (Ok t, w')
    /\ (3 <= max_length -> len t <= Z.max max_length 35)
    /\ (openai_calls w' <= S (openai_calls w))%nat
    /\ (anthropic_calls w' <= S (anthropic_calls w))%nat
    /\ (random_calls w' <= S (random_calls w))%nat
    /\ twitter_calls w' = twitter_calls w
    /\ linkedin_calls w' = linkedin_calls w.
Proof. apply generate_text_run. Qed.

End MoreGeneration.

(** ** The shape of the fallback text *)

Lemma add_hashtags_while_fit_prefix (max_length : Z) (hashtags : list str) :
  forall base_text,
  exists k,
    (k <= length hashtags)%nat
    /\ add_hashtags_while_fit max_length base_text hashtags
       = base_text ++ concat ((fun h => space ++ h) <$> take k hashtags)
    /\ (len base_text + len (concat ((fun h => space ++ h) <$> hashtags))
        <= max_length -> k = length hashtags).
Proof.
  induction hashtags as [| h hs IH]; intros base_text.
  - exists 0%nat. simpl. rewrite app_nil_r. auto.
  - cbn [add_hashtags_while_fit].
    destruct (len base_text + len h + 1 <=? max_length) eqn:Efit.
    + destruct (IH (base_text ++ space ++ h)) as (k & Hk & Hrun & Hall).
      exists (S k). split; [simpl; lia |]. split.
      * rewrite Hrun. cbn [take]. rewrite fmap_cons. cbn [concat].
        rewrite <- !app_assoc. reflexivity.
      * intros Hroom. cbn [length]. f_equal. apply Hall.
        rewrite fmap_cons in Hroom. cbn [concat] in Hroom.
        rewrite !len_app in *. lia.
    + exists 0%nat. split; [lia |]. split.
      * simpl. rewrite app_nil_r. reflexivity.
      * intros Hroom. exfalso. apply Z.leb_gt in Efit.
        rewrite fmap_cons in Hroom. cbn [concat] in Hroom.
        rewrite !len_app in Hroom. change (len space) with 1 in Hroom.
        pose proof (len_nonneg (concat ((fun h0 => space ++ h0) <$> hs))).
        lia.
Qed.


Lemma fallback_text_has_no_hashtag_line (n : nat) (max_hashtags : Z) :
  collect_hashtags max_hashtags
    (split_on newline_char
       (add_hashtags_while_fit 500 (nth (n mod 5) templates [])
          fallback_hashtags)) []
  = [].
Proof.
  assert (Hlt : (n mod 5 < 5)%nat)
    by (apply Nat.mod_upper_bound; discriminate).
  destruct (n mod 5)%nat as [| [| [| [| [| k]]]]]; try reflexivity.
  lia.
Qed.

Section Generated.

Variable openai_acreate : nat -> str -> Z -> result str.
Variable anthropic_create : nat -> str -> Z -> result str.
Variable random_choice : nat -> nat.
Variable self : TextGenerator.

Local Abbreviation generate :=
  (generate_text openai_acreate anthropic_create random_choice self).

(** X3: [generate_hashtags] never raises; every hashtag it returns is a
    stripped line of the generated text that starts with ['#'], and it
    returns at most [max_hashtags] of them, none if [max_hashtags] is
    not positive. *)
Theorem generate_hashtags_wellformed (content : str) (platform : string)
    (max_hashtags : Z) (w : World) :
  exists hashtags w',
    generate_hashtags openai_acreate anthropic_create random_choice self
      content platform max_hashtags w = (Ok hashtags, w')
    /\ Forall (fun h => startswith hash_sign h = true
                        /\ newline_char ∉ h) hashtags
    /\ len hashtags <= Z.max 0 max_hashtags.
Proof.
  unfold generate_hashtags, try_except, bind.
  destruct (generate_text_run openai_acreate anthropic_create
              random_choice self
              (hashtags_prompt content platform max_hashtags) 500
              "openai" w) as (t & w' & -> & _).
  eexists. eexists. split; [reflexivity |].
  destruct (collect_hashtags_spec max_hashtags
              (split_on newline_char t) (split_on_no_sep newline_char t)
              [] (Forall_nil_2 _)) as [Hall Hlen].
  { unfold len. simpl. lia. }
  split.
  - apply Forall_forall. intros h Hh. apply slice_to_incl in Hh.
    revert h Hh. apply Forall_forall. exact Hall.
  - pose proof (len_slice_to_le_len max_hashtags
                  (collect_hashtags max_hashtags
                     (split_on newline_char t) [])).
    lia.
Qed.

(** X4: when no provider answers, [generate_hashtags] returns the empty
    list, not the default hashtags of the platform: the fallback text is
    a single line that does not start with ['#'], and the defaults are
    only returned from the exception handler. *)
Theorem generate_hashtags_without_provider (content : str)
    (platform : string) (max_hashtags : Z) (w : World) :
  openai_available self = false
  \/ (exists e,
        openai_acreate (openai_calls w)
          (hashtags_prompt content platform max_hashtags) 500 = Raise e) ->
  returned (generate_hashtags openai_acreate anthropic_create
              random_choice self content platform max_hashtags w)
  = Some [].
Proof.
  intros Hdown. unfold generate_hashtags, try_except, bind.
  destruct (generate_text_openai_cases openai_acreate anthropic_create
              random_choice self
              (hashtags_prompt content platform max_hashtags) 500 w)
    as [(Hav & reply & Hreply & _) | (_ & w0 & -> & _)].
  - exfalso. destruct Hdown as [Hoff | (e & Hraise)]; congruence.
  - cbn [ret returned]. rewrite fallback_text_has_no_hashtag_line.
    rewrite slice_to_nil. reflexivity.
Qed.

(** The limit [optimize_for_platform] uses for a platform. *)
Lemma optimize_for_platform_run (text : str) (platform : string)
    (limit : Z) (tone : string) (w : World) :
  35 <= limit ->
  exists t w',
    generate (optimize_prompt text platform tone limit) limit "openai" w
    = (Ok t, w')
    /\ len t <= limit.
Proof.
  intros Hlimit.
  destruct (generate_text_run openai_acreate anthropic_create
              random_choice self
              (optimize_prompt text platform tone limit) limit "openai" w)
    as (t & w' & Hrun & Hlen & _).
  exists t, w'. split; [exact Hrun |].
  specialize (Hlen ltac:(lia)). lia.
Qed.

(** X5: [optimize_for_platform] never raises and returns a text of at
    most 280 characters for Twitter, 3000 for LinkedIn and 500 for any
    other platform. *)
Theorem optimize_for_platform_within_limit (text : str)
    (platform : string) (w : World) :
  exists t w',
    optimize_for_platform openai_acreate anthropic_create random_choice
      self text platform w = (Ok t, w')
    /\ len t <= (if bool_decide (platform = "twitter"%string) then 280
                 else if bool_decide (platform = "linkedin"%string)
                 then 3000 else 500).
Proof.
  unfold optimize_for_platform, try_except.
  destruct (bool_decide (platform = "twitter"%string));
    [| destruct (bool_decide (platform = "linkedin"%string))];
    match goal with
    | |- context [generate_text _ _ _ _ (optimize_prompt _ _ ?tone ?limit)] =>
        destruct (optimize_for_platform_run text platform limit tone w
                    ltac:(lia)) as (t & w' & -> & Hlen)
    end;
    exists t, w'; (split; [reflexivity | exact Hlen]).
Qed.

(** X6: [generate_thread] never raises; every tweet of the thread is a
    non-empty stripped line of at most 280 characters, and the thread
    has at most [max_tweets] tweets, or one tweet when [max_tweets] is
    less than 1, the limit being tested after a tweet is added. *)
Theorem generate_thread_wellformed (content : str) (max_tweets : Z)
    (w : World) :
  exists tweets w',
    generate_thread openai_acreate anthropic_create random_choice self
      content max_tweets w = (Ok tweets, w')
    /\ Forall (fun t => t <> [] /\ len t <= 280 /\ newline_char ∉ t) tweets
    /\ len tweets <= Z.max 1 max_tweets.
Proof.
  unfold generate_thread, try_except, bind.
  destruct (generate_text_run openai_acreate anthropic_create
              random_choice self (thread_prompt content max_tweets) 1400
              "openai" w) as (t & w' & -> & _).
  eexists. eexists. split; [reflexivity |].
  apply (collect_tweets_spec max_tweets (split_on newline_char t)
           (split_on_no_sep newline_char t) [] (Forall_nil_2 _)).
  left. reflexivity.
Qed.

End Generated.

Lemma generate_hashtags_without_provider_sample :
  openai_available Samples.without_providers = false
  /\ returned (generate_hashtags Samples.provider_down
                 Samples.provider_down (Samples.always_pick 1)
                 Samples.without_providers (lit "New office tour")
                 "twitter" 5 world0)
     = Some [].
Proof.
  split; [reflexivity |].
  apply generate_hashtags_without_provider. left. reflexivity.
Defined.

(** ** Keys and platforms of the transformation *)

Section Keys.

Variable nonascii_word : char -> bool.
Variable set_to_list : list str -> list str.
Variable analyze_video_content : str -> str -> World -> Analysis * World.
Variable openai_acreate : nat -> str -> Z -> result str.
Variable anthropic_create : nat -> str -> Z -> result str.
Variable random_choice : nat -> nat.
Variable PLATFORM_CONFIGS : gmap string PlatformConfig.
Variable CONTENT_PROMPTS : gmap string PromptTemplate.
Variable text_generator : TextGenerator.

Local Abbreviation transform :=
  (_transform_for_platform nonascii_word set_to_list openai_acreate
     anthropic_create random_choice PLATFORM_CONFIGS CONTENT_PROMPTS
     text_generator).
Local Abbreviation transform_all :=
  (transform_platforms nonascii_word set_to_list openai_acreate
     anthropic_create random_choice PLATFORM_CONFIGS CONTENT_PROMPTS
     text_generator).
Local Abbreviation transform_one :=
  (transform_content nonascii_word set_to_list analyze_video_content
     openai_acreate anthropic_create random_choice PLATFORM_CONFIGS
     CONTENT_PROMPTS text_generator).
Local Abbreviation transform_list :=
  (transform_videos nonascii_word set_to_list analyze_video_content
     openai_acreate anthropic_create random_choice PLATFORM_CONFIGS
     CONTENT_PROMPTS text_generator).

(** X7: [_transform_for_platform] never raises, and it returns the
    empty dictionary exactly when the platform has no configuration or
    no prompt, or the video has no ['caption'] or no ['id'] key; a
    failure of the text provider or a missing video path does not empty
    the result. *)
Theorem transform_for_platform_empty_iff (video_data : VideoData)
    (analysis : Analysis) (name : string) (w : World) :
  exists c w',
    transform video_data analysis name w = (Ok c, w')
    /\ (c = None
        <-> PLATFORM_CONFIGS !! name = None
            \/ CONTENT_PROMPTS !! name = None
            \/ vd_caption video_data = None
            \/ vd_id video_data = None).
Proof.
  unfold _transform_for_platform, try_except, bind, getitem.
  destruct (PLATFORM_CONFIGS !! name) as [cfg |];
    [| eexists; eexists; split; [reflexivity | tauto]].
  destruct (CONTENT_PROMPTS !! name) as [template |];
    [| eexists; eexists; split; [reflexivity | tauto]].
  destruct (vd_caption video_data) as [caption |];
    [| eexists; eexists; split; [reflexivity | tauto]].
  cbn [ret].
  destruct (generate_text_run openai_acreate anthropic_create
              random_choice text_generator
              (format_prompt template caption
                 (default [] (an_description analysis)))
              (max_length cfg) "openai" w) as (t & w1 & -> & _).
  destruct (prepare_media_run video_data cfg w1) as (m & -> & _).
  destruct (vd_id video_data) as [id |].
  - eexists. eexists. split; [reflexivity |].
    split; [discriminate |].
    intros [H | [H | [H | H]]]; discriminate.
  - eexists. eexists. split; [reflexivity | tauto].
Qed.

Lemma transform_platforms_keys video_data analysis target_platforms :
  forall acc w,
  exists m w',
    transform_all video_data analysis target_platforms acc w = (Ok m, w')
    /\ forall p,
         is_Some (m !! p)
         <-> is_Some (acc !! p)
             \/ (p ∈ target_platforms
                 /\ configured PLATFORM_CONFIGS p = true).
Proof.
  induction target_platforms as [| name rest IH]; intros acc w.
  - exists acc, w. split; [reflexivity |]. intros p. split; [auto |].
    intros [H | [H _]]; [exact H | inversion H].
  - cbn [transform_platforms].
    destruct (PLATFORM_CONFIGS !! name) as [cfg |] eqn:Ecfg.
    + unfold bind at 1.
      destruct (transform_never_raises nonascii_word set_to_list
                  openai_acreate anthropic_create random_choice
                  PLATFORM_CONFIGS CONTENT_PROMPTS text_generator
                  video_data analysis name w) as (c & w1 & ->).
      destruct (IH (<[name := c]> acc) w1) as (m & w' & -> & Hkeys).
      exists m, w'. split; [reflexivity |]. intros p.
      rewrite Hkeys, elem_of_cons.
      destruct (decide (name = p)) as [<- | Hne].
      * rewrite lookup_insert_eq. unfold configured. rewrite Ecfg.
        split; [intros _; right; auto | intros _; left; eauto].
      * rewrite lookup_insert_ne by exact Hne.
        split; intros [H | [H1 H2]]; auto.
        destruct H1 as [-> | H1]; [contradiction | auto].
    + destruct (IH acc w) as (m & w' & -> & Hkeys).
      exists m, w'. split; [reflexivity |]. intros p.
      rewrite Hkeys, elem_of_cons.
      split; intros [H | [H1 H2]]; auto.
      destruct H1 as [-> | H1]; [| auto].
      unfold configured in H2. rewrite Ecfg in H2. discriminate.
Qed.

Lemma transform_content_run_keys (video_data : VideoData)
    (target_platforms : list string) (w : World) :
  exists m w',
    transform_one video_data target_platforms w = (Ok m, w')
    /\ (has_required_keys_b video_data = false -> m = ∅ /\ w' = w)
    /\ (has_required_keys_b video_data = true ->
        forall p,
          is_Some (m !! p)
          <-> p ∈ target_platforms
              /\ configured PLATFORM_CONFIGS p = true).
Proof.
  unfold transform_content, try_except, bind at 1, getitem,
    has_required_keys_b.
  destruct (vd_id video_data) as [id |]; cbn [ret raise];
    [| exists ∅, w; split; [reflexivity |];
       split; [auto | discriminate]].
  unfold bind at 1.
  destruct (vd_video_path video_data) as [path |]; cbn [ret raise];
    [| exists ∅, w; split; [reflexivity |];
       split; [auto | discriminate]].
  unfold bind at 1.
  destruct (vd_caption video_data) as [caption |]; cbn [ret raise];
    [| exists ∅, w; split; [reflexivity |];
       split; [auto | discriminate]].
  unfold bind at 1.
  destruct (analyze_video_content path caption w) as [analysis w1].
  destruct (transform_platforms_keys video_data analysis target_platforms
              ∅ w1) as (m & w' & -> & Hkeys).
  exists m, w'. split; [reflexivity |]. split; [discriminate |].
  intros _ p. rewrite Hkeys, lookup_empty. split.
  - intros [H | H]; [destruct H as [x Hx]; discriminate | exact H].
  - auto.
Qed.

(** X8: [transform_content] never raises.  For a video without one of
    the keys ['id'], ['video_path'] and ['caption'] it returns the empty
    dictionary without calling any collaborator; otherwise the result
    has an entry for exactly the target platforms that are configured,
    the others being skipped silently. *)
Theorem transform_content_keys (video_data : VideoData)
    (target_platforms : list string) (w : World) :
  exists m w',
    transform_one video_data target_platforms w = (Ok m, w')
    /\ (has_required_keys_b video_data = false -> m = ∅ /\ w' = w)
    /\ (has_required_keys_b video_data = true ->
        forall p,
          is_Some (m !! p)
          <-> p ∈ target_platforms
              /\ configured PLATFORM_CONFIGS p = true).
Proof. apply transform_content_run_keys. Qed.

Lemma transformable_iff (video_data : VideoData)
    (target_platforms : list string) (m : gmap string ContentDict) :
  (has_required_keys_b video_data = false -> m = ∅) ->
  (has_required_keys_b video_data = true ->
   forall p,
     is_Some (m !! p)
     <-> p ∈ target_platforms /\ configured PLATFORM_CONFIGS p = true) ->
  (m = ∅ <-> transformable PLATFORM_CONFIGS target_platforms video_data
             = false).
Proof.
  intros Hnone Hsome. unfold transformable.
  destruct (has_required_keys_b video_data).
  - specialize (Hsome eq_refl). simpl. split.
    + intros ->.
      destruct (existsb (configured PLATFORM_CONFIGS) target_platforms)
        eqn:E; [| reflexivity].
      apply existsb_exists in E as (p & Hin & Hp).
      assert (H : is_Some ((∅ : gmap string ContentDict) !! p)).
      { apply Hsome. split; [apply list_elem_of_In; exact Hin | exact Hp]. }
      rewrite lookup_empty in H. destruct H as [x Hx]. discriminate.
    + intros E. apply map_empty. intros p.
      destruct (m !! p) as [c |] eqn:Ep; [| reflexivity].
      assert (H : is_Some (m !! p)) by (rewrite Ep; eauto).
      apply Hsome in H as [Hin Hp].
      assert (existsb (configured PLATFORM_CONFIGS) target_platforms
              = true).
      { apply existsb_exists. exists p.
        split; [apply list_elem_of_In; exact Hin | exact Hp]. }
      congruence.
  - simpl. split; [reflexivity | intros _; apply Hnone; reflexivity].
Qed.

Lemma transform_videos_filter video_data_list target_platforms :
  forall acc w,
  exists kept w',
    transform_list video_data_list target_platforms acc w
    = (Ok (acc ++ kept), w')
    /\ original_video <$> kept
       = List.filter (transformable PLATFORM_CONFIGS target_platforms)
           video_data_list.
Proof.
  induction video_data_list as [| video_data rest IH]; intros acc w.
  - exists [], w. simpl. rewrite app_nil_r. split; reflexivity.
  - cbn [transform_videos List.filter]. unfold bind at 1.
    destruct (transform_content_run_keys video_data target_platforms w)
      as (m & w1 & -> & Hnone & Hsome).
    pose proof (transformable_iff video_data target_platforms m
                  (fun H => proj1 (Hnone H)) Hsome) as Hiff.
    case_bool_decide as Hm.
    + rewrite (proj1 Hiff Hm). apply IH.
    + destruct (transformable PLATFORM_CONFIGS target_platforms
                  video_data) eqn:Et;
        [| exfalso; apply Hm, Hiff; reflexivity].
      destruct (IH (acc ++ [ {| original_video := video_data;
                                transformed_content := m |} ]) w1)
        as (kept & w' & -> & Hkept).
      exists ({| original_video := video_data;
                 transformed_content := m |} :: kept), w'.
      split; [rewrite <- app_assoc; reflexivity |].
      rewrite fmap_cons, Hkept. reflexivity.
Qed.

(** X9: [execute_transformation] never raises and keeps, in their
    order, exactly the videos that have the three required keys when at
    least one target platform is configured; every other video is left
    out of the returned list. *)
Theorem execute_transformation_keeps_transformable
    (video_data_list : list VideoData) (target_platforms : list string)
    (w : World) :
  exists kept w',
    execute_transformation nonascii_word set_to_list
      analyze_video_content openai_acreate anthropic_create random_choice
      PLATFORM_CONFIGS CONTENT_PROMPTS text_generator video_data_list
      target_platforms w = (Ok kept, w')
    /\ original_video <$> kept
       = List.filter (transformable PLATFORM_CONFIGS target_platforms)
           video_data_list.
Proof.
  unfold execute_transformation.
  destruct (transform_videos_filter video_data_list target_platforms [] w)
    as (kept & w' & Hrun & Hkept).
  exists kept, w'. split; [exact Hrun | exact Hkept].
Qed.

(** X10: a video without the key ['video_path'] whose duration and size
    are within the limits is still transformed: the exception is caught
    while the media is prepared, and the post is returned with an empty
    media dictionary. *)
Theorem missing_video_path_gives_empty_media (video_data : VideoData)
    (analysis : Analysis) (name : string) (profile : PlatformConfig)
    (template : PromptTemplate) (w : World) :
  PLATFORM_CONFIGS !! name = Some profile ->
  CONTENT_PROMPTS !! name = Some template ->
  is_Some (vd_caption video_data) ->
  is_Some (vd_id video_data) ->
  vd_video_path video_data = None ->
  (video_duration video_data <= video_max_duration profile)%Q ->
  video_file_size video_data <= video_max_size profile ->
  exists content w',
    transform video_data analysis name w = (Ok (Some content), w')
    /\ media content = MediaNone.
Proof.
  intros Hcfg Htpl [caption Hcap] [id Hid] Hpath Hdur Hsize.
  unfold _transform_for_platform, try_except, bind, getitem.
  rewrite Hcfg, Htpl, Hcap. cbn [ret].
  destruct (generate_text_run openai_acreate anthropic_create
              random_choice text_generator
              (format_prompt template caption
                 (default [] (an_description analysis)))
              (max_length profile) "openai" w) as (t & w1 & -> & _).
  assert (Hmedia : _prepare_media_for_platform video_data profile w1
                   = (Ok MediaNone, w1)).
  { unfold _prepare_media_for_platform, try_except, bind, getitem.
    apply Qle_bool_iff in Hdur. rewrite Hdur.
    apply Z.leb_le in Hsize. rewrite Hsize, Hpath. reflexivity. }
  rewrite Hmedia, Hid. cbn [ret].
  eexists. eexists. split; reflexivity.
Qed.

End Keys.

Lemma missing_video_path_sample :
  exists content w',
    vd_video_path Fixtures.video_without_path = None
    /\ _transform_for_platform Samples.ascii_only Samples.insertion_order
         (Samples.replies "Backstage today") Samples.provider_down
         (Samples.always_pick 0) (PLATFORM_CONFIGS default_settings)
         CONTENT_PROMPTS Samples.with_openai Fixtures.video_without_path
         Samples.analysis0 "twitter" world0
       = (Ok (Some content), w')
    /\ media content = MediaNone.
Proof.
  destruct (missing_video_path_gives_empty_media Samples.ascii_only
              Samples.insertion_order (Samples.replies "Backstage today")
              Samples.provider_down (Samples.always_pick 0)
              (PLATFORM_CONFIGS default_settings) CONTENT_PROMPTS
              Samples.with_openai Fixtures.video_without_path
              Samples.analysis0 "twitter" Samples.twitter_profile
              Fixtures.twitter_prompt world0)
    as (content & w' & Hrun & Hmedia).
  - reflexivity.
  - reflexivity.
  - eexists. reflexivity.
  - eexists. reflexivity.
  - reflexivity.
  - vm_compute. discriminate.
  - vm_compute. discriminate.
  - exists content, w'. split; [reflexivity |]. split; assumption.
Defined.

(** ** The hashtags of the scraper *)

Section ScrapedHashtags.

Variable nonascii_word : char -> bool.
Variable set_to_list : list str -> list str.

Lemma is_word_hash_sign : is_word nonascii_word hash_sign = false.
Proof. reflexivity. Qed.

Lemma findall_group_from_prefixed (s : str) :
  forall cur,
    (fun tag => hash_sign :: tag) <$> findall_group_from nonascii_word cur s
    = findall_from nonascii_word cur s.
Proof.
  assert (Hemit : forall cur,
            (fun tag => hash_sign :: tag) <$> emit_group cur = emit cur).
  { intros [[| c w] |]; reflexivity. }
  induction s as [| c s IH]; intros cur; simpl.
  - apply Hemit.
  - destruct (is_word nonascii_word c).
    + destruct cur; apply IH.
    + rewrite fmap_app, Hemit, IH. reflexivity.
Qed.

Lemma findall_group_from_unprefixed (s : str) :
  forall cur,
    (forall w, cur = Some w ->
               Forall (fun c => is_word nonascii_word c = true) w) ->
    Forall (fun tag => startswith hash_sign tag = false)
           (findall_group_from nonascii_word cur s).
Proof.
  assert (Hemit : forall cur,
            (forall w, cur = Some w ->
                       Forall (fun c => is_word nonascii_word c = true) w) ->
            Forall (fun tag => startswith hash_sign tag = false)
                   (emit_group cur)).
  { intros [[| c w] |] Hcur; simpl; try constructor; [| constructor].
    specialize (Hcur _ eq_refl).
    destruct (reverse (c :: w)) as [| c0 l] eqn:Erev; [reflexivity |].
    assert (Hin : c0 ∈ c :: w).
    { apply elem_of_reverse. rewrite Erev. left. }
    rewrite Forall_forall in Hcur. specialize (Hcur c0 Hin).
    simpl. destruct (c0 =? hash_sign)%N eqn:E; [| reflexivity].
    apply N.eqb_eq in E. subst c0.
    rewrite is_word_hash_sign in Hcur. discriminate. }
  induction s as [| c s IH]; intros cur Hcur; simpl.
  - apply Hemit. exact Hcur.
  - destruct (is_word nonascii_word c) eqn:Ec.
    + destruct cur as [w |].
      * apply IH. intros w' Hw'. inversion Hw'; subst.
        constructor; [exact Ec | apply Hcur; reflexivity].
      * apply IH. intros w' Hw'. discriminate.
    + apply Forall_app. split; [apply Hemit; exact Hcur |].
      apply IH. intros w' Hw'.
      destruct (c =? hash_sign)%N; inversion Hw'. constructor.
Qed.

Lemma filter_all_true {A} (f : A -> bool) (l : list A) :
  Forall (fun x => f x = true) l -> List.filter f l = l.
Proof.
  induction 1 as [| x l Hx _ IH]; simpl; [reflexivity |].
  rewrite Hx, IH. reflexivity.
Qed.

(** X11: the hashtags the scraper extracts from a caption carry no
    ['#'], so that none of them is filtered out by [_extract_hashtags]:
    with the scraped hashtags as originals, the result is drawn from the
    inline hashtags of the generated text followed by the inline
    hashtags of the caption. *)
Theorem scraped_hashtags_all_included (text caption : str) (limit : Z) :
  Forall (fun tag => startswith hash_sign tag = false)
         (scraper_extract_hashtags nonascii_word caption)
  /\ _extract_hashtags nonascii_word set_to_list text
       (scraper_extract_hashtags nonascii_word caption) limit
     = slice_to limit
         (set_to_list (findall_hashtags nonascii_word text
                       ++ findall_hashtags nonascii_word caption)).
Proof.
  assert (Hun : Forall (fun tag => startswith hash_sign tag = false)
                       (scraper_extract_hashtags nonascii_word caption)).
  { apply findall_group_from_unprefixed. intros w Hw. discriminate. }
  split; [exact Hun |].
  unfold _extract_hashtags. rewrite filter_all_true.
  - unfold scraper_extract_hashtags.
    rewrite findall_group_from_prefixed. reflexivity.
  - eapply Forall_impl; [exact Hun |].
    intros tag Htag. simpl in Htag. rewrite Htag. reflexivity.
Qed.

End ScrapedHashtags.

(** ** What the posting agents send and wait for *)

Lemma validated_is_tweetable (content : PlatformContent)
    (tweet_data : PostData) (w : World) :
  TwitterAgent._validate_content (Some content) = true ->
  returned (TwitterAgent._prepare_tweet_data (Some content) w)
  = Some tweet_data ->
  tweetable tweet_data = true.
Proof.
  intros Hvalid Hdata. apply twitter_gate_accepts_bound in Hvalid.
  unfold TwitterAgent._prepare_tweet_data, bind, getitem in Hdata.
  cbn [ret returned] in Hdata. injection Hdata as <-.
  unfold tweetable. cbn [pd_text].
  apply andb_true_iff. split; [apply Z.ltb_lt | apply Z.leb_le]; lia.
Qed.

Section SamePosts.

Variable post1 post2 : nat -> PostData -> result PosterReply.
Hypothesis same_on_tweetable :
  forall n tweet_data,
    tweetable tweet_data = true -> post1 n tweet_data = post2 n tweet_data.

Lemma post_content_same (content_data : ContentDict) (w : World) :
  TwitterAgent.post_content post1 content_data w
  = TwitterAgent.post_content post2 content_data w.
Proof.
  unfold TwitterAgent.post_content, try_except.
  destruct (TwitterAgent._validate_content content_data) eqn:Ev;
    [| reflexivity].
  destruct content_data as [content |]; [| discriminate].
  cbn [negb]. unfold bind, TwitterAgent.call_post_tweet.
  destruct (TwitterAgent._prepare_tweet_data (Some content) w)
    as [[tweet_data | e] w0] eqn:Edata; [| reflexivity].
  assert (w0 = w) as ->.
  { unfold TwitterAgent._prepare_tweet_data, bind, getitem in Edata.
    cbn [ret] in Edata. apply ok_pair_inj in Edata as [_ Hw].
    symmetry. exact Hw. }
  rewrite (same_on_tweetable (twitter_calls w) tweet_data); [reflexivity |].
  apply (validated_is_tweetable content tweet_data w Ev).
  rewrite Edata. reflexivity.
Qed.

Lemma post_all_same (content_list : list ContentDict) :
  forall results w,
    TwitterAgent.post_all post1 content_list results w
    = TwitterAgent.post_all post2 content_list results w.
Proof.
  induction content_list as [| content_data rest IH]; intros results w;
    [reflexivity |].
  cbn [TwitterAgent.post_all]. unfold bind.
  destruct (match results with [] => ret tt | _ => sleep 30 end w)
    as [[u | e] w0]; [| reflexivity].
  rewrite (post_content_same content_data w0).
  destruct (TwitterAgent.post_content post2 content_data w0)
    as [[r | e] w1]; [apply IH | reflexivity].
Qed.

End SamePosts.

(** X12: the Twitter agent hands the poster only texts of 1 to 280
    characters: two posters that agree on such payloads give the same
    results and the same final state for every batch, whatever they do
    on other payloads. *)
Theorem poster_only_receives_tweetable_text
    (post1 post2 : nat -> PostData -> result PosterReply)
    (content_list : list ContentDict) (w : World) :
  (forall n tweet_data,
     tweetable tweet_data = true ->
     post1 n tweet_data = post2 n tweet_data) ->
  TwitterAgent.execute_posting post1 content_list w
  = TwitterAgent.execute_posting post2 content_list w.
Proof.
  intros Hsame. unfold TwitterAgent.execute_posting.
  apply post_all_same. exact Hsame.
Qed.

Lemma poster_only_receives_tweetable_text_sample :
  (forall n tweet_data,
     tweetable tweet_data = true ->
     Samples.always_accepts n tweet_data
     = Fixtures.strict_poster n tweet_data)
  /\ TwitterAgent.execute_posting Samples.always_accepts
       [ Some (Samples.post "first" MediaNone); None;
         Some (Samples.post "" MediaNone) ] world0
     = TwitterAgent.execute_posting Fixtures.strict_poster
         [ Some (Samples.post "first" MediaNone); None;
           Some (Samples.post "" MediaNone) ] world0.
Proof.
  assert (H : forall n tweet_data,
            tweetable tweet_data = true ->
            Samples.always_accepts n tweet_data
            = Fixtures.strict_poster n tweet_data).
  { intros n tweet_data Ht. unfold Fixtures.strict_poster.
    rewrite Ht. reflexivity. }
  split; [exact H |].
  apply (poster_only_receives_tweetable_text Samples.always_accepts
           Fixtures.strict_poster _ world0 H).
Defined.

Lemma twitter_post_all_slept
    (post_tweet : nat -> PostData -> result PosterReply)
    (content_list : list ContentDict) :
  forall results w,
    results <> [] ->
    exists rs w',
      TwitterAgent.post_all post_tweet content_list results w = (Ok rs, w')
      /\ slept w' = slept w + 30 * len content_list.
Proof.
  induction content_list as [| content_data rest IH]; intros results w Hne.
  - exists results, w. split; [reflexivity |]. unfold len. simpl. lia.
  - cbn [TwitterAgent.post_all]. unfold bind at 1.
    destruct results as [| r0 rs0]; [contradiction |].
    cbn [sleep]. unfold bind at 1.
    match goal with
    | |- context [TwitterAgent.post_content _ _ ?w0] =>
        destruct (post_content_run post_tweet content_data w0)
          as (result & -> & _);
        destruct (IH ((r0 :: rs0) ++ [result])
                    (if TwitterAgent._validate_content content_data
                     then tick_twitter w0 else w0))
          as (rs & w' & -> & Hslept)
    end.
    { destruct rs0; discriminate. }
    exists rs, w'. split; [reflexivity |]. rewrite Hslept.
    unfold len. cbn [length].
    destruct (TwitterAgent._validate_content content_data); simpl; lia.
Qed.

Lemma linkedin_post_content_slept
    (create_post : nat -> PostData -> result PosterReply)
    (content_data : ContentDict) (w : World) :
  exists result w',
    LinkedInAgent.post_content create_post content_data w = (Ok result, w')
    /\ slept w' = slept w.
Proof.
  unfold LinkedInAgent.post_content, try_except.
  destruct (LinkedInAgent._validate_content content_data); cbn [negb];
    [| eexists; eexists; split; reflexivity].
  unfold LinkedInAgent._prepare_post_data, getitem,
    LinkedInAgent.call_create_post, bind.
  destruct content_data as [content |]; cbn [ret raise];
    [| eexists; eexists; split; reflexivity].
  match goal with
  | |- context [create_post ?n ?d] =>
      destruct (create_post n d) as [reply | e]
  end.
  - destruct (reply_success reply); eexists; eexists; split; reflexivity.
  - eexists. eexists. split; reflexivity.
Qed.

Lemma linkedin_post_all_slept
    (create_post : nat -> PostData -> result PosterReply)
    (content_list : list ContentDict) :
  forall results w,
    results <> [] ->
    exists rs w',
      LinkedInAgent.post_all create_post content_list results w
      = (Ok rs, w')
      /\ slept w' = slept w + 60 * len content_list.
Proof.
  induction content_list as [| content_data rest IH]; intros results w Hne.
  - exists results, w. split; [reflexivity |]. unfold len. simpl. lia.
  - cbn [LinkedInAgent.post_all]. unfold bind at 1.
    destruct results as [| r0 rs0]; [contradiction |].
    cbn [sleep]. unfold bind at 1.
    match goal with
    | |- context [LinkedInAgent.post_content _ _ ?w0] =>
        destruct (linkedin_post_content_slept create_post content_data w0)
          as (result & w1 & -> & Hw1);
        destruct (IH ((r0 :: rs0) ++ [result]) w1)
          as (rs & w' & -> & Hslept)
    end.
    { destruct rs0; discriminate. }
    exists rs, w'. split; [reflexivity |]. rewrite Hslept, Hw1.
    unfold len. cbn [length slept]. lia.
Qed.

(** X13: [execute_posting] waits 30 seconds before every post but the
    first, whether the posts succeed or not: a batch of [n] contents
    sleeps [30 * (n - 1)] seconds on Twitter and [60 * (n - 1)] seconds
    on LinkedIn, and an empty batch does not sleep. *)
Theorem execute_posting_delays
    (poster : nat -> PostData -> result PosterReply)
    (content_list : list ContentDict) (w : World) :
  (exists rs w',
     TwitterAgent.execute_posting poster content_list w = (Ok rs, w')
     /\ slept w' = slept w + 30 * Z.max 0 (len content_list - 1))
  /\ (exists rs w',
        LinkedInAgent.execute_posting poster content_list w = (Ok rs, w')
        /\ slept w' = slept w + 60 * Z.max 0 (len content_list - 1)).
Proof.
  unfold TwitterAgent.execute_posting, LinkedInAgent.execute_posting.
  destruct content_list as [| content_data rest].
  - split; exists [], w; (split; [reflexivity |]); unfold len; simpl; lia.
  - split.
    + cbn [TwitterAgent.post_all]. unfold bind at 1. cbn [ret].
      unfold bind at 1.
      destruct (post_content_run poster content_data w)
        as (result & -> & _).
      destruct (twitter_post_all_slept poster rest ([] ++ [result])
                  (if TwitterAgent._validate_content content_data
                   then tick_twitter w else w))
        as (rs & w' & -> & Hslept); [discriminate |].
      exists rs, w'. split; [reflexivity |]. rewrite Hslept.
      unfold len. cbn [length].
      destruct (TwitterAgent._validate_content content_data); simpl; lia.
    + cbn [LinkedInAgent.post_all]. unfold bind at 1. cbn [ret].
      unfold bind at 1.
      destruct (linkedin_post_content_slept poster content_data w)
        as (result & w1 & -> & Hw1).
      destruct (linkedin_post_all_slept poster rest ([] ++ [result]) w1)
        as (rs & w' & -> & Hslept); [discriminate |].
      exists rs, w'. split; [reflexivity |]. rewrite Hslept, Hw1.
      unfold len. cbn [length]. lia.
Qed.

(** ** The transformer and the gate together *)

Lemma template_nonempty (k : nat) : nth (k mod 5) templates [] <> [].
Proof.
  assert (Hlt : (k mod 5 < 5)%nat)
    by (apply Nat.mod_upper_bound; discriminate).
  destruct (k mod 5)%nat as [| [| [| [| [| n]]]]]; try discriminate.
  lia.
Qed.

Lemma fallback_text_nonempty (max_length : Z) (k : nat) :
  add_hashtags_while_fit max_length (nth (k mod 5) templates [])
    fallback_hashtags <> [].
Proof.
  destruct (add_hashtags_while_fit_prefix max_length fallback_hashtags
              (nth (k mod 5) templates [])) as (n & _ & -> & _).
  intros H. apply app_eq_nil in H as [H _].
  revert H. apply template_nonempty.
Qed.

Lemma ensure_length_nil (max_length : Z) (t : str) :
  ensure_length max_length t = [] -> t = [].
Proof.
  unfold ensure_length. destruct (len t >? max_length); [| auto].
  intros H. apply app_eq_nil in H as [_ H]. discriminate.
Qed.

Section Coherence.

Variable nonascii_word : char -> bool.
Variable set_to_list : list str -> list str.
Variable openai_acreate : nat -> str -> Z -> result str.
Variable anthropic_create : nat -> str -> Z -> result str.
Variable random_choice : nat -> nat.
Variable PLATFORM_CONFIGS : gmap string PlatformConfig.
Variable CONTENT_PROMPTS : gmap string PromptTemplate.
Variable text_generator : TextGenerator.

(** X14: when the Twitter profile has a text limit between 35 and 280
    and a video limit of at most 140 seconds, as the shipped one has, a
    post transformed for Twitter passes the gate of the Twitter agent if
    and only if its text is not empty; and the text is empty only when
    the provider answered with whitespace. *)
Theorem transformed_post_passes_twitter_gate (video_data : VideoData)
    (analysis : Analysis) (profile : PlatformConfig) (w w' : World)
    (content : PlatformContent) :
  PLATFORM_CONFIGS !! "twitter"%string = Some profile ->
  35 <= max_length profile <= 280 ->
  (video_max_duration profile <= 140)%Q ->
  _transform_for_platform nonascii_word set_to_list openai_acreate
    anthropic_create random_choice PLATFORM_CONFIGS CONTENT_PROMPTS
    text_generator video_data analysis "twitter" w
  = (Ok (Some content), w') ->
  (TwitterAgent._validate_content (Some content) = true
   <-> text content <> [])
  /\ (text content = [] ->
      openai_available text_generator = true
      /\ exists prompt reply,
           openai_acreate (openai_calls w) prompt (max_length profile)
           = Ok reply
           /\ strip reply = []).
Proof.
  intros Hprofile [Hmin Hmax] Hduration Hrun.
  apply transform_inv in Hrun
    as (cfg & template & caption & id & w1 & Hcfg & _ & _ & _ & Hgen
        & Hmedia & _).
  rewrite Hprofile in Hcfg. apply (inj Some) in Hcfg. subst cfg.
  set (prompt := format_prompt template caption
                   (default [] (an_description analysis))) in *.
  assert (Hlen : len (text content) <= 280).
  { destruct (generate_text_run openai_acreate anthropic_create
                random_choice text_generator prompt (max_length profile)
                "openai" w) as (t & w2 & Hrun' & Hbound & _).
    rewrite Hgen in Hrun'. apply ok_pair_inj in Hrun' as [<- _].
    specialize (Hbound ltac:(lia)). lia. }
  assert (Hvideo : media_is_video (media content) = true ->
                   ~ (140 < media_duration (media content))%Q).
  { intros Hv. destruct (prepare_media_run video_data profile w1)
      as (m & Hrun' & Hwithin & _).
    rewrite Hmedia in Hrun'. apply ok_pair_inj in Hrun' as [<- _].
    destruct (Hwithin Hv) as (Hd & _ & Heq).
    apply Qle_bool_iff in Hd. rewrite Heq.
    apply Qle_not_lt. eapply Qle_trans; eassumption. }
  split.
  - split.
    + intros Hvalid Hnil.
      assert (H : TwitterAgent._validate_content (Some content) = false).
      { apply validate_with_spec. right. exists content. auto. }
      congruence.
    + intros Hne.
      destruct (TwitterAgent._validate_content (Some content)) eqn:Ev;
        [reflexivity |].
      apply validate_with_spec in Ev
        as [H | (c & Hc & [H | [H | [Hv H]]])]; try discriminate;
        apply (inj Some) in Hc; subst c.
      * contradiction.
      * lia.
      * exfalso. apply (Hvideo Hv). exact H.
  - intros Hnil.
    destruct (generate_text_openai_cases openai_acreate anthropic_create
                random_choice text_generator prompt (max_length profile) w)
      as [(Hav & reply & Hreply & Hrun') | (_ & w0 & Hrun' & _)];
      rewrite Hgen in Hrun'; apply ok_pair_inj in Hrun' as [Ht _].
    + split; [exact Hav |]. exists prompt, reply.
      split; [exact Hreply |].
      apply (ensure_length_nil (max_length profile)). congruence.
    + exfalso. rewrite Hnil in Ht. symmetry in Ht. revert Ht.
      apply fallback_text_nonempty.
Qed.

End Coherence.

Lemma transformed_post_passes_twitter_gate_sample :
  exists content w',
    Samples.transform_with (Samples.replies "Launch day #AI") 0
      (PLATFORM_CONFIGS default_settings) Samples.with_openai
      Samples.video1
    = (Ok (Some content), w')
    /\ (TwitterAgent._validate_content (Some content) = true
        <-> text content <> []).
Proof.
  eexists. eexists. split; [vm_compute; reflexivity |].
  apply (transformed_post_passes_twitter_gate Samples.ascii_only
           Samples.insertion_order (Samples.replies "Launch day #AI")
           Samples.provider_down (Samples.always_pick 0)
           (PLATFORM_CONFIGS default_settings) CONTENT_PROMPTS
           Samples.with_openai Samples.video1 Samples.analysis0
           Samples.twitter_profile world0 (tick_openai world0)).
  - reflexivity.
  - simpl. lia.
  - vm_compute. discriminate.
  - reflexivity.
Defined.

(** ** Grouping the extracted videos *)

Lemma ids_of_cons (username : str) (video : UserVideo)
    (videos : list UserVideo) :
  ids_of username (video :: videos)
  = match (if bool_decide
                (default (lit "unknown") (uv_username video) = username)
           then uv_id video else None) with
    | Some id => id :: ids_of username videos
    | None => ids_of username videos
    end.
Proof. reflexivity. Qed.

Lemma group_videos_spec (videos : list UserVideo) :
  Forall (fun video => is_Some (uv_id video)) videos ->
  forall grouped,
  exists grouped',
    group_videos videos grouped = Ok grouped'
    /\ forall username,
         grouped' !! username
         = match ids_of username videos with
           | [] => grouped !! username
           | ids => Some (default [] (grouped !! username) ++ ids)
           end.
Proof.
  induction 1 as [| video rest [id Hid] _ IH]; intros grouped.
  - exists grouped. split; [reflexivity |]. intros username. reflexivity.
  - cbn [group_videos]. rewrite Hid.
    set (name := default (lit "unknown") (uv_username video)).
    set (grouped1 := match grouped !! name with
                     | Some _ => grouped
                     | None => <[name := []]> grouped
                     end).
    assert (Hsame : default [] (grouped1 !! name)
                    = default [] (grouped !! name)).
    { subst grouped1. destruct (grouped !! name) as [l |] eqn:E.
      - rewrite E. reflexivity.
      - rewrite lookup_insert_eq. reflexivity. }
    assert (Hother : forall u, u <> name -> grouped1 !! u = grouped !! u).
    { intros u Hu. subst grouped1. destruct (grouped !! name);
        [reflexivity |]. apply lookup_insert_ne. congruence. }
    destruct (IH (<[name := default [] (grouped1 !! name) ++ [id]]>
                    grouped1)) as (grouped' & -> & Hlookup).
    exists grouped'. split; [reflexivity |]. intros username.
    rewrite Hlookup, ids_of_cons. fold name. rewrite Hid.
    case_bool_decide as Hname.
    + subst username. rewrite lookup_insert_eq, Hsame. simpl.
      destruct (ids_of name rest); [reflexivity |].
      rewrite <- app_assoc. reflexivity.
    + rewrite lookup_insert_ne by exact Hname.
      rewrite Hother by congruence. reflexivity.
Qed.

Lemma group_videos_missing_id (videos : list UserVideo) :
  Exists (fun video => uv_id video = None) videos ->
  forall grouped, group_videos videos grouped = Raise (lit "'id'").
Proof.
  induction videos as [| video rest IH]; intros Hex grouped.
  - inversion Hex.
  - cbn [group_videos]. destruct (uv_id video) as [id |] eqn:Eid.
    + apply IH. inversion Hex as [? ? H | ? ? H]; subst;
        [congruence | exact H].
    + reflexivity.
Qed.

(** X15: when every video has an ['id'], [_group_by_user] maps each
    user name, ["unknown"] standing for a missing name, to the
    identifiers of that user's videos in their order, and has no entry
    for any other name; when some video has no ['id'] it raises
    [KeyError('id')]. *)
Theorem group_by_user_spec (videos : list UserVideo) :
  (Forall (fun video => is_Some (uv_id video)) videos ->
   exists grouped,
     _group_by_user videos = Ok grouped
     /\ forall username,
          grouped !! username
          = match ids_of username videos with
            | [] => None
            | ids => Some ids
            end)
  /\ (Exists (fun video => uv_id video = None) videos ->
      _group_by_user videos = Raise (lit "'id'")).
Proof.
  unfold _group_by_user. split.
  - intros Hids. destruct (group_videos_spec videos Hids ∅)
      as (grouped & Hrun & Hlookup).
    exists grouped. split; [exact Hrun |]. intros username.
    rewrite Hlookup, lookup_empty. reflexivity.
  - intros Hex. apply group_videos_missing_id. exact Hex.
Qed.

(** ** Which platforms get results *)

Section PostingKeys.

Variable post_tweet : nat -> PostData -> result PosterReply.
Variable create_post : nat -> PostData -> result PosterReply.

Lemma execute_posting_keys ts target_platforms :
  forall posted w,
    (forall name e, posted !! name <> Some (ResultError e)) ->
    exists posted' w',
      _execute_posting post_tweet create_post ts target_platforms posted w
      = (Ok posted', w')
      /\ (forall name e, posted' !! name <> Some (ResultError e))
      /\ (forall name,
            is_Some (posted' !! name)
            <-> is_Some (posted !! name)
                \/ (name ∈ target_platforms
                    /\ (name = "twitter"%string
                        \/ name = "linkedin"%string)
                    /\ content_for name ts <> [])).
Proof.
  induction target_platforms as [| name rest IH]; intros posted w Hno.
  - exists posted, w. split; [reflexivity |]. split; [exact Hno |].
    intros p. split; [auto |]. intros [H | [H _]]; [exact H | inversion H].
  - cbn [_execute_posting]. unfold bind at 1, try_except.
    match goal with
    | |- context [match ?body w with _ => _ end] =>
        assert (exists p1 w1,
                  body w = (Ok p1, w1)
                  /\ (forall n e, p1 !! n <> Some (ResultError e))
                  /\ (forall n,
                        is_Some (p1 !! n)
                        <-> is_Some (posted !! n)
                            \/ (n = name
                                /\ (n = "twitter"%string
                                    \/ n = "linkedin"%string)
                                /\ content_for n ts <> [])))
          as (p1 & w1 & -> & Hno1 & Hkeys1)
    end.
    { destruct (content_for name ts) as [| c cs] eqn:Ec.
      { exists posted, w. split; [reflexivity |]. split; [exact Hno |].
        intros n. split; [auto |].
        intros [H | (-> & _ & H)]; [exact H | congruence]. }
      assert (Hins : forall rs,
                name = "twitter"%string \/ name = "linkedin"%string ->
                (forall n e,
                   <[name := ResultList rs]> posted !! n
                   <> Some (ResultError e))
                /\ (forall n,
                      is_Some (<[name := ResultList rs]> posted !! n)
                      <-> is_Some (posted !! n)
                          \/ (n = name
                              /\ (n = "twitter"%string
                                  \/ n = "linkedin"%string)
                              /\ content_for n ts <> []))).
      { intros rs Hname. split.
        - intros n e. destruct (decide (name = n)) as [<- | Hne].
          + rewrite lookup_insert_eq. discriminate.
          + rewrite lookup_insert_ne by exact Hne. apply Hno.
        - intros n. destruct (decide (name = n)) as [<- | Hne].
          + rewrite lookup_insert_eq. split; [| eauto].
            intros _. right. rewrite Ec. repeat split; [exact Hname |].
            discriminate.
          + rewrite lookup_insert_ne by exact Hne.
            split; [auto |]. intros [H | (-> & _)]; [exact H |].
            contradiction. }
      case_bool_decide as Htw.
      { unfold bind, TwitterAgent.execute_posting.
        destruct (post_all_run post_tweet (c :: cs) [] w)
          as (rs & w1 & -> & _).
        eexists. eexists. split; [reflexivity |].
        subst name. apply Hins. auto. }
      case_bool_decide as Hli.
      { unfold bind, LinkedInAgent.execute_posting.
        destruct (linkedin_post_all_run create_post (c :: cs) [] w)
          as (rs & w1 & -> & _).
        eexists. eexists. split; [reflexivity |].
        subst name. apply Hins. auto. }
      exists posted, w. split; [reflexivity |]. split; [exact Hno |].
      intros n. split; [auto |].
      intros [H | (-> & [H | H] & _)]; [exact H | |]; contradiction. }
    destruct (IH p1 w1 Hno1) as (posted' & w' & -> & Hno' & Hkeys').
    exists posted', w'. split; [reflexivity |]. split; [exact Hno' |].
    intros n. rewrite Hkeys', Hkeys1, elem_of_cons. split.
    + intros [[H | (-> & H1 & H2)] | (H0 & H1 & H2)]; auto.
    + intros [H | ([-> | H0] & H1 & H2)]; auto.
Qed.

(** X16: [_execute_posting] never raises and stores a list of results
    for exactly the target platforms that are Twitter or LinkedIn and
    have at least one transformed content; any other platform, and a
    platform without content, gets no entry, and no entry is an error
    dictionary. *)
Theorem execute_posting_platforms (ts : list Transformation)
    (target_platforms : list string) (w : World) :
  exists posted w',
    _execute_posting post_tweet create_post ts target_platforms ∅ w
    = (Ok posted, w')
    /\ forall name,
         match posted !! name with
         | Some (ResultList rs) =>
             name ∈ target_platforms
             /\ (name = "twitter"%string \/ name = "linkedin"%string)
             /\ length rs = length (content_for name ts)
             /\ content_for name ts <> []
         | Some (ResultError _) => False
         | None =>
             ~ (name ∈ target_platforms
                /\ (name = "twitter"%string \/ name = "linkedin"%string)
                /\ content_for name ts <> [])
         end.
Proof.
  destruct (execute_posting_keys ts target_platforms ∅ w)
    as (posted & w' & Hrun & Hno & Hkeys).
  { intros name e. rewrite lookup_empty. discriminate. }
  destruct (execute_posting_run post_tweet create_post ts target_platforms
              ∅ w) as (posted2 & w2 & Hrun2 & Hone).
  { intros name rs H. rewrite lookup_empty in H. discriminate. }
  rewrite Hrun in Hrun2. apply ok_pair_inj in Hrun2 as [<- <-].
  exists posted, w'. split; [exact Hrun |]. intros name.
  specialize (Hkeys name). rewrite lookup_empty in Hkeys.
  destruct (posted !! name) as [[rs | e] |] eqn:Ep.
  - destruct (proj1 Hkeys ltac:(eauto)) as [[x Hx] | (H1 & H2 & H3)];
      [discriminate |].
    repeat split; try assumption. apply Hone. exact Ep.
  - apply (Hno name e). exact Ep.
  - intros H. destruct (proj2 Hkeys (or_intror H)) as [x Hx]. discriminate.
Qed.

End PostingKeys.

(** ** The numbers of the summary *)

Lemma success_rate_bounds (successes attempts : nat) :
  (successes <= attempts)%nat ->
  (0 < attempts)%nat ->
  (0 <= inject_Z (Z.of_nat successes) / inject_Z (Z.of_nat attempts) * 100
   /\ inject_Z (Z.of_nat successes) / inject_Z (Z.of_nat attempts) * 100
      <= 100)%Q.
Proof.
  intros Hle Hpos.
  assert (Hb : (0 < inject_Z (Z.of_nat attempts))%Q).
  { unfold Qlt, inject_Z. simpl. lia. }
  assert (Ha : (0 <= inject_Z (Z.of_nat successes))%Q).
  { unfold Qle, inject_Z. simpl. lia. }
  assert (Hab : (inject_Z (Z.of_nat successes)
                 <= inject_Z (Z.of_nat attempts))%Q).
  { unfold Qle, inject_Z. simpl. lia. }
  split.
  - apply Qmult_le_0_compat; [| discriminate].
    apply Qle_shift_div_l; [exact Hb |]. rewrite Qmult_0_l. exact Ha.
  - apply Qle_trans with (1 * 100)%Q; [| discriminate].
    apply Qmult_le_compat_r; [| discriminate].
    apply Qle_shift_div_r; [exact Hb |]. rewrite Qmult_1_l. exact Hab.
Qed.

(** X17: in the summary, a platform with a list of results has an entry
    whose [total] is the length of the list, whose [successful] is at
    most [total] and whose success rate lies between 0 and 100, being 0
    for an empty list; a platform whose posting ended in an error
    dictionary, or without results, has no entry. *)
Theorem workflow_summary_entries (workflow_results : WorkflowResults)
    (name : string) :
  match posting_results workflow_results !! name with
  | Some (ResultList rs) =>
      exists entry,
        posting_summary (_generate_workflow_summary workflow_results)
          !! name = Some entry
        /\ total entry = length rs
        /\ (successful entry <= total entry)%nat
        /\ (0 <= success_rate entry)%Q
        /\ (success_rate entry <= 100)%Q
        /\ (rs = [] -> success_rate entry = 0%Q)
  | _ =>
      posting_summary (_generate_workflow_summary workflow_results)
        !! name = None
  end.
Proof.
  unfold _generate_workflow_summary. cbn [posting_summary].
  rewrite lookup_omap.
  destruct (posting_results workflow_results !! name) as [[rs | e] |];
    [| reflexivity | reflexivity].
  cbn [mbind option_bind summarize_platform].
  eexists. split; [reflexivity |]. cbn [total successful success_rate].
  split; [reflexivity |].
  pose proof (List.filter_length_le succeeded rs) as Hle.
  split; [exact Hle |].
  destruct rs as [| r rs'].
  - simpl. repeat split; try discriminate.
  - change (0 <? length (r :: rs'))%nat with true. cbv iota.
    destruct (success_rate_bounds (length (List.filter succeeded (r :: rs')))
                (length (r :: rs')) Hle ltac:(simpl; lia)) as [H0 H100].
    repeat split; [exact H0 | exact H100 | discriminate].
Qed.

Section EarlyExit.

Variable nonascii_word : char -> bool.
Variable set_to_list : list str -> list str.
Variable analyze_video_content : str -> str -> World -> Analysis * World.
Variable openai_acreate : nat -> str -> Z -> result str.
Variable anthropic_create : nat -> str -> Z -> result str.
Variable random_choice : nat -> nat.
Variable PLATFORM_CONFIGS : gmap string PlatformConfig.
Variable CONTENT_PROMPTS : gmap string PromptTemplate.
Variable text_generator : TextGenerator.
Variable post_tweet : nat -> PostData -> result PosterReply.
Variable create_post : nat -> PostData -> result PosterReply.
Variable execute_extraction : list str -> result (list VideoData).

Lemma filter_all_false {A} (f : A -> bool) (l : list A) :
  Forall (fun x => f x = false) l -> List.filter f l = [].
Proof.
  induction 1 as [| x l Hx _ IH]; simpl; [reflexivity |].
  rewrite Hx. exact IH.
Qed.

(** X18: a video without ['id'] among the extracted ones makes the
    grouping by user raise: the run ends at once on the error
    ["Workflow error: 'id'"], reports no video and calls no
    collaborator.  When every video has an ['id'] but none of them can
    be transformed, for lack of another required key or of a configured
    target platform, the workflow ends before posting: it reports the
    videos and their grouping, no transformation, no posting result and
    no summary, with the single error
    ["Content transformation failed"]. *)
Theorem workflow_stops_without_transformations (users : list str)
    (target_platforms : list string) (videos : list VideoData)
    (w : World) :
  execute_extraction users = Ok videos ->
  (Exists (fun video => vd_id video = None) videos ->
   execute_full_workflow nonascii_word set_to_list analyze_video_content
     openai_acreate anthropic_create random_choice PLATFORM_CONFIGS
     CONTENT_PROMPTS text_generator post_tweet create_post
     execute_extraction users target_platforms w
   = (Ok {| target_users := users;
            platforms := target_platforms;
            extracted_videos := [];
            videos_by_user := ∅;
            transformations := [];
            posting_results := ∅;
            errors := [lit "Workflow error: " ++ lit "'id'"];
            summary := None |}, w))
  /\ (videos <> [] ->
      Forall (fun video => is_Some (vd_id video)) videos ->
      Forall (fun video =>
                transformable PLATFORM_CONFIGS target_platforms video
                = false)
             videos ->
      exists grouped w',
        _group_by_user (user_video <$> videos) = Ok grouped
        /\ execute_full_workflow nonascii_word set_to_list
             analyze_video_content openai_acreate anthropic_create
             random_choice PLATFORM_CONFIGS CONTENT_PROMPTS text_generator
             post_tweet create_post execute_extraction users
             target_platforms w
           = (Ok {| target_users := users;
                    platforms := target_platforms;
                    extracted_videos := videos;
                    videos_by_user := grouped;
                    transformations := [];
                    posting_results := ∅;
                    errors := [lit "Content transformation failed"];
                    summary := None |}, w')).
Proof.
  intros Hextract. unfold execute_full_workflow. rewrite Hextract. split.
  - intros Hex. unfold _group_by_user.
    rewrite group_videos_missing_id; [reflexivity |].
    apply Exists_fmap. exact Hex.
  - intros Hne Hids Hnone.
    destruct (group_videos_spec (user_video <$> videos)
                ltac:(apply Forall_fmap; exact Hids) ∅)
      as (grouped & Hgroup & _).
    unfold _group_by_user. rewrite Hgroup.
    destruct videos as [| v vs]; [contradiction |].
    unfold execute_transformation.
    destruct (transform_videos_filter nonascii_word set_to_list
                analyze_video_content openai_acreate anthropic_create
                random_choice PLATFORM_CONFIGS CONTENT_PROMPTS
                text_generator (v :: vs) target_platforms [] w)
      as (kept & w1 & -> & Hkept).
    rewrite (filter_all_false _ _ Hnone) in Hkept.
    apply fmap_nil_inv in Hkept. subst kept.
    exists grouped, w1. split; reflexivity.
Qed.

End EarlyExit.

(** Two videos asked for a platform without configuration, and a batch
    in which the second video has no ['id']: the first video of that
    batch could be transformed, and is not. *)
Lemma workflow_stops_without_transformations_sample :
  (errors <$> Fixtures.hopeless_batch
   = Some [lit "Content transformation failed"]
   /\ summary <$> Fixtures.hopeless_batch = Some None)
  /\ (errors
      <$> Fixtures.batch Samples.always_accepts
            [Samples.video1; Fixtures.video_without_id]
            ["twitter"%string]
      = Some [lit "Workflow error: 'id'"]
      /\ transformable (PLATFORM_CONFIGS default_settings)
           ["twitter"%string] Samples.video1 = true).
Proof.
  split.
  - destruct (proj2 (workflow_stops_without_transformations
                       Samples.ascii_only Samples.insertion_order
                       Samples.analyzer0
                       (Samples.replies "Launch day #AI")
                       Samples.provider_down (Samples.always_pick 0)
                       (PLATFORM_CONFIGS default_settings) CONTENT_PROMPTS
                       Samples.with_openai Samples.always_accepts
                       Samples.always_accepts
                       (fun users =>
                          Ok [Samples.video1; Samples.long_video])
                       [lit "someone"] ["facebook"%string]
                       [Samples.video1; Samples.long_video] world0
                       eq_refl))
      as (grouped & w' & _ & Hrun).
    + discriminate.
    + repeat constructor; eexists; reflexivity.
    + repeat constructor.
    + unfold Fixtures.hopeless_batch, Fixtures.batch. rewrite Hrun.
      split; reflexivity.
  - split; [| reflexivity].
    unfold Fixtures.batch.
    rewrite (proj1 (workflow_stops_without_transformations
                      Samples.ascii_only Samples.insertion_order
                      Samples.analyzer0
                      (Samples.replies "Launch day #AI")
                      Samples.provider_down (Samples.always_pick 0)
                      (PLATFORM_CONFIGS default_settings) CONTENT_PROMPTS
                      Samples.with_openai Samples.always_accepts
                      Samples.always_accepts
                      (fun users =>
                         Ok [Samples.video1; Fixtures.video_without_id])
                      [lit "someone"] ["twitter"%string]
                      [Samples.video1; Fixtures.video_without_id] world0
                      eq_refl)).
    + reflexivity.
    + right. left. reflexivity.
Defined.

(** ** What the workflow reports *)

Section Reported.

Variable nonascii_word : char -> bool.
Variable set_to_list : list str -> list str.
Variable analyze_video_content : str -> str -> World -> Analysis * World.
Variable openai_acreate : nat -> str -> Z -> result str.
Variable anthropic_create : nat -> str -> Z -> result str.
Variable random_choice : nat -> nat.
Variable PLATFORM_CONFIGS : gmap string PlatformConfig.
Variable CONTENT_PROMPTS : gmap string PromptTemplate.
Variable text_generator : TextGenerator.
Variable post_tweet : nat -> PostData -> result PosterReply.
Variable create_post : nat -> PostData -> result PosterReply.
Variable execute_extraction : list str -> result (list VideoData).

Local Abbreviation workflow :=
  (execute_full_workflow nonascii_word set_to_list analyze_video_content
     openai_acreate anthropic_create random_choice PLATFORM_CONFIGS
     CONTENT_PROMPTS text_generator post_tweet create_post
     execute_extraction).


End Reported.


(** ** The standalone pipelines *)

Lemma guard_280 (t : str) :
  len (if len t >? 280 then slice_to 277 t ++ ellipsis else t) <= 280.
Proof. apply (tail_guard 280 t). lia. Qed.

Lemma rule_based_transform_bound (caption : str) (likes comments : Z)
    (hashtags : list str) :
  exists transformed,
    _rule_based_transform caption likes comments hashtags = Ok transformed
    /\ len transformed <= 280.
Proof.
  destruct (main_content_of_ok caption) as [main_content Hmain].
  unfold _rule_based_transform. rewrite Hmain.
  eexists. split; [reflexivity | apply guard_280].
Qed.

Lemma optimize_for_twitter_bound (caption : str) (likes comments : Z)
    (hashtags : list str) :
  exists content,
    optimize_for_twitter caption likes comments hashtags = Ok content
    /\ len content <= 250.
Proof.
  destruct (main_content_of_ok caption) as [main_content Hmain].
  unfold optimize_for_twitter. rewrite Hmain.
  eexists. split; [reflexivity |].
  apply (tail_guard 250 (join space (take 35 (split_ws main_content)))).
  lia.
Qed.

(** X19: [_fallback_transform] returns, for every post dictionary, also
    one without caption or likes, a non-empty text of at most 280
    characters, cut without an ellipsis, which ends with
    [" #AI #SocialMedia"] whenever it is shorter than 280 characters. *)
Theorem fallback_transform_bounds (post : InstagramPost) :
  _fallback_transform post <> []
  /\ len (_fallback_transform post) <= 280
  /\ (len (_fallback_transform post) < 280 ->
      endswith (lit " #AI #SocialMedia") (_fallback_transform post) = true).
Proof.
  unfold _fallback_transform.
  match goal with
  | |- slice_to 280 (?body ++ ?tags) <> [] /\ _ =>
      set (content := body); set (suffix := tags)
  end.
  assert (Hlen : len (content ++ suffix) = len content + 17).
  { rewrite len_app. reflexivity. }
  pose proof (len_nonneg content) as Hc.
  destruct (Z_le_gt_dec (len (content ++ suffix)) 280) as [Hfit | Hcut].
  - rewrite slice_to_all by exact Hfit. split.
    + intros H. apply app_eq_nil in H as [_ H]. discriminate.
    + split; [exact Hfit | intros _; apply endswith_app].
  - assert (Hexact : len (slice_to 280 (content ++ suffix)) = 280)
      by (apply len_slice_to_exact; lia).
    split; [| split; lia].
    intros H. rewrite H in Hexact. discriminate.
Qed.

Section Clients.

Variable openai_create : nat -> str -> result str.
Variable create_tweet : nat -> str -> result str.

Lemma ai_transform_run (caption : str) (likes comments : Z)
    (hashtags : list str) (w : World) :
  exists t,
    _ai_transform openai_create caption likes comments hashtags w
    = (Ok t, tick_openai w)
    /\ len t <= 280.
Proof.
  unfold _ai_transform, try_except.
  destruct (openai_create (openai_calls w) _) as [content | e].
  - eexists. split; [reflexivity |]. unfold clean_reply. apply guard_280.
  - destruct (rule_based_transform_bound caption likes comments hashtags)
      as (t & Ht & Hlen).
    exists t. unfold lift. rewrite Ht. split; [reflexivity | exact Hlen].
Qed.

(** X20: [transform_for_twitter] never raises and returns at most 280
    characters; it calls the provider once when the key is set and the
    caption has more than 20 characters, and not at all otherwise. *)
Theorem transform_for_twitter_bounds (openai_key : bool)
    (instagram_post : InstagramPost) (w : World) :
  exists t,
    transform_for_twitter openai_create openai_key instagram_post w
    = (Ok t,
       if openai_key && (len (default [] (ip_caption instagram_post)) >? 20)
       then tick_openai w else w)
    /\ len t <= 280.
Proof.
  unfold transform_for_twitter, try_except.
  destruct (openai_key && (len (default [] (ip_caption instagram_post))
                           >? 20)).
  - destruct (ai_transform_run (default [] (ip_caption instagram_post))
                (default 0 (ip_likes instagram_post))
                (default 0 (ip_comments instagram_post))
                (default [] (ip_hashtags instagram_post)) w)
      as (t & -> & Hlen).
    exists t. split; [reflexivity | exact Hlen].
  - destruct (rule_based_transform_bound
                (default [] (ip_caption instagram_post))
                (default 0 (ip_likes instagram_post))
                (default 0 (ip_comments instagram_post))
                (default [] (ip_hashtags instagram_post)))
      as (t & Ht & Hlen).
    exists t. unfold lift. rewrite Ht. split; [reflexivity | exact Hlen].
Qed.

(** X21: [post_video_content] never raises.  A video dictionary without
    one of its five keys gives a failed result and no call to Twitter;
    any text reported as posted has at most 280 characters. *)
Theorem post_video_content_safe (video_data : PosterVideo) (w : World) :
  exists result w',
    post_video_content create_tweet video_data w = (Ok result, w')
    /\ match result with
       | VideoPosted tweet_id url content =>
           len content <= 280
           /\ url = lit "https://twitter.com/user/status/" ++ tweet_id
           /\ w' = tick_twitter w
       | VideoNotPosted _ => True
       end
    /\ (pv_shortcode video_data = None \/ pv_caption video_data = None
        \/ pv_likes video_data = None \/ pv_comments video_data = None
        \/ pv_hashtags video_data = None ->
        w' = w /\ exists e, result = VideoNotPosted e).
Proof.
  unfold post_video_content, try_except, getitem.
  destruct (pv_shortcode video_data) as [shortcode |];
    [| eexists; eexists; split; [reflexivity |]; split; eauto].
  unfold bind at 1. cbn [ret].
  destruct (pv_caption video_data) as [caption |];
    [| eexists; eexists; split; [reflexivity |]; split; eauto].
  unfold bind at 1. cbn [ret].
  destruct (pv_likes video_data) as [likes |];
    [| eexists; eexists; split; [reflexivity |]; split; eauto].
  unfold bind at 1. cbn [ret].
  destruct (pv_comments video_data) as [comments |];
    [| eexists; eexists; split; [reflexivity |]; split; eauto].
  unfold bind at 1. cbn [ret].
  destruct (pv_hashtags video_data) as [hashtags |];
    [| eexists; eexists; split; [reflexivity |]; split; eauto].
  unfold bind at 1. cbn [ret].
  destruct (optimize_for_twitter_bound caption likes comments hashtags)
    as (optimized & Hopt & _).
  unfold bind, lift. rewrite Hopt. cbn [ret].
  match goal with
  | |- context [create_tweet ?n ?text] =>
      pose proof (guard_280 (optimized ++ attribution shortcode)) as Hlen;
      destruct (create_tweet n text) as [tweet_id | e]
  end.
  - eexists. eexists. split; [reflexivity |].
    split; [repeat split; exact Hlen |].
    intros [H | [H | [H | [H | H]]]]; discriminate.
  - eexists. eexists. split; [reflexivity |]. split; [exact I |].
    intros [H | [H | [H | [H | H]]]]; discriminate.
Qed.

(** X22: for a shortcode of at most 14 characters the attribution is
    never cut: [post_video_content] calls Twitter with the optimized
    caption followed by the whole attribution, the optimized caption
    leaving room for it. *)
Theorem post_video_content_keeps_attribution (shortcode caption : str)
    (likes comments : Z) (hashtags : list str) (w : World) :
  len shortcode <= 14 ->
  exists optimized,
    optimize_for_twitter caption likes comments hashtags = Ok optimized
    /\ post_video_content create_tweet
         {| pv_shortcode := Some shortcode;
            pv_caption := Some caption;
            pv_likes := Some likes;
            pv_comments := Some comments;
            pv_hashtags := Some hashtags |} w
       = (Ok match create_tweet (twitter_calls w)
                     (optimized ++ attribution shortcode) with
             | Ok tweet_id =>
                 VideoPosted tweet_id
                   (lit "https://twitter.com/user/status/" ++ tweet_id)
                   (optimized ++ attribution shortcode)
             | Raise e => VideoNotPosted e
             end,
          tick_twitter w).
Proof.
  intros Hshort.
  destruct (optimize_for_twitter_bound caption likes comments hashtags)
    as (optimized & Hopt & Hlen).
  exists optimized. split; [exact Hopt |].
  unfold post_video_content, try_except, getitem, bind, lift.
  cbn [pv_shortcode pv_caption pv_likes pv_comments pv_hashtags ret].
  rewrite Hopt.
  assert (Hfits : (len (optimized ++ attribution shortcode) >? 280)
                  = false).
  { rewrite Z.gtb_ltb. apply Z.ltb_ge.
    unfold attribution. rewrite !len_app.
    change (len [newline_char; newline_char]) with 2.
    change (len (lit "@idxcodehub ")) with 12.
    change (len [128248%N]) with 1. change (len space) with 1. lia. }
  rewrite Hfits.
  destruct (create_tweet (twitter_calls w)
              (optimized ++ attribution shortcode)); reflexivity.
Qed.

End Clients.

Lemma post_video_content_keeps_attribution_sample :
  len (lit "DLcS9JbI4Rp") <= 14
  /\ returned (post_video_content Fixtures.tweet_created Fixtures.reel
                 world0)
     = Some (VideoPosted (lit "190")
               (lit "https://twitter.com/user/status/190")
               (lit "Ship it" ++ attribution (lit "DLcS9JbI4Rp"))).
Proof.
  split; [vm_compute; discriminate |].
  destruct (post_video_content_keeps_attribution Fixtures.tweet_created
              (lit "DLcS9JbI4Rp") (lit "Ship it. Then fix it") 1200 15
              [lit "#dev"] world0) as (optimized & Hopt & Hrun).
  - vm_compute. discriminate.
  - unfold Fixtures.reel. rewrite Hrun.
    vm_compute in Hopt. injection Hopt as <-. reflexivity.
Defined.

(** ** The scores of the analyzer *)

(** X23: the engagement score lies between 40 and 100: the base of 50
    loses at most 10, so that the lower clamp at 0 never applies, and
    only the upper clamp at 100 can. *)
Theorem engagement_score_range (analysis : ContentAnalysis) :
  40 <= _calculate_engagement_score analysis <= 100.
Proof.
  unfold _calculate_engagement_score.
  repeat match goal with
         | |- context [if ?b then _ else _] => destruct b
         end; lia.
Qed.

(** X24: [_recommend_platforms] never returns an empty list: it returns
    Twitter, LinkedIn or both, without repetition.  The limit of 140
    seconds does not keep Twitter out: for a longer video Twitter is
    recommended exactly when no business, technology or education topic
    is present, through the default pair. *)
Theorem recommend_platforms_never_empty (analysis : ContentAnalysis) :
  _recommend_platforms analysis <> []
  /\ NoDup (_recommend_platforms analysis)
  /\ (forall p,
        p ∈ _recommend_platforms analysis ->
        p = "twitter"%string \/ p = "linkedin"%string)
  /\ ((140 < analysis_duration analysis)%Q ->
      ("twitter"%string ∈ _recommend_platforms analysis
       <-> any_topic_in ["business"; "technology"; "education"]%string
             (default [] (ca_text analysis ≫= ta_topics)) = false)).
Proof.
  unfold _recommend_platforms.
  destruct (Qle_bool (analysis_duration analysis) 140) eqn:Ed;
    destruct (any_topic_in ["news"; "entertainment"; "comedy"]%string
                (default [] (ca_text analysis ≫= ta_topics)));
    destruct (any_topic_in ["business"; "technology"; "education"]%string
                (default [] (ca_text analysis ≫= ta_topics)));
    cbn [andb app];
    (split; [discriminate |]);
    (split; [refine (bool_decide_unpack _ _); vm_compute; exact I |]);
    (split;
     [intros p Hp; repeat (apply elem_of_cons in Hp as [-> | Hp]; auto);
      inversion Hp |]);
    intros Hlong;
    try (exfalso; apply Qle_bool_iff in Ed; revert Ed;
         apply Qlt_not_le; exact Hlong);
    split; intros H; try reflexivity; try discriminate;
    try (refine (bool_decide_unpack _ _); vm_compute; exact I);
    repeat (apply elem_of_cons in H as [H | H]; try discriminate);
    inversion H.
Qed.
